(** * Cat printer protocol engine (printer.go): a shallow embedding

    Bytes are modelled as [Z] (Go's [byte] is an unsigned 8-bit integer; the
    truncation that Go performs on byte arithmetic is written out with
    [Z.land _ 0xFF]).  Byte slices are [list Z].  Go's [int] is [Z]. *)

From Stdlib Require Import ZArith List Bool Lia String Ascii DecimalString.
Import ListNotations.
Open Scope Z_scope.

(** ** BLE service and characteristic UUIDs (printer.go, lines 11-15) *)

Definition MainServiceUUID : string := "0000ae30-0000-1000-8000-00805f9b34fb".
Definition ControlCharUUID : string := "0000ae01-0000-1000-8000-00805f9b34fb".
Definition NotifyCharUUID : string := "0000ae02-0000-1000-8000-00805f9b34fb".
Definition DataCharUUID : string := "0000ae03-0000-1000-8000-00805f9b34fb".

(** ** Protocol constants (printer.go, lines 17-36) *)

Definition Preamble1 : Z := 0x22.
Definition Preamble2 : Z := 0x21.
Definition Footer : Z := 0xFF.

Definition CmdGetStatus : Z := 0xA1.
Definition CmdSetIntensity : Z := 0xA2.
Definition CmdPrintRequest : Z := 0xA9.
Definition CmdFlushData : Z := 0xAD.
Definition CmdPrintComplete : Z := 0xAA.
Definition CmdGetBattery : Z := 0xAB.
Definition CmdGetVersion : Z := 0xB1.
Definition CmdCancelPrint : Z := 0xAC.

Definition ImageWidth : Z := 384.
Definition ImageWidthBytes : Z := 48.
Definition MinImageBytes : Z := 4320.

(** ** Bytes *)

Definition bytes := list Z.

Definition is_byte (b : Z) : Prop := 0 <= b < 256.

(** Go's conversion [byte(x)] of an integer: the low eight bits. *)
Definition byte_of (x : Z) : Z := Z.land x 0xFF.

(** [len(buf)] as a Go [int]. *)
Definition len {A} (l : list A) : Z := Z.of_nat (List.length l).

(** [buf[i]]; every use in the model is guarded by a length test, as in the
    source, so the default is never observed. *)
Definition idx (buf : bytes) (i : nat) : Z := nth i buf 0.

(** ** Checksum: calculateCRC8 (printer.go, lines 202-221) *)

(** One pass of the inner loop body:
    [if crc&0x80 != 0 { crc = (crc << 1) ^ 0x07 } else { crc <<= 1 }],
    on a [byte] register. *)
Definition crc_round (crc : Z) : Z :=
  if negb (Z.land crc 0x80 =? 0)
  then Z.lxor (byte_of (Z.shiftl crc 1)) 0x07
  else byte_of (Z.shiftl crc 1).

(** The body of the outer loop: [crc ^= b] followed by
    [for i := 0; i < 8; i++ { ... }]. *)
Definition crc_byte (crc b : Z) : Z := Nat.iter 8 crc_round (Z.lxor crc b).

Definition calculateCRC8 (data : bytes) : Z := fold_left crc_byte data 0x00.

(** The checksum as the specification words it: a running register, each
    input byte XORed into it, then eight rounds of "shift left by one, and
    XOR the polynomial 0x07 when the high bit was set", masked to 8 bits.
    Written with arithmetic ([2 * r mod 256], bit 7) rather than with the
    bit operators of the source, to be compared with [calculateCRC8]. *)
Definition spec_round (r : Z) : Z :=
  let shifted := (2 * r) mod 256 in
  if Z.testbit r 7 then Z.lxor shifted 0x07 else shifted.

Fixpoint spec_rounds (n : nat) (r : Z) : Z :=
  match n with
  | O => r
  | S n' => spec_rounds n' (spec_round r)
  end.

Fixpoint spec_checksum_from (r : Z) (payload : bytes) : Z :=
  match payload with
  | [] => r
  | b :: rest => spec_checksum_from (spec_rounds 8 (Z.lxor r b)) rest
  end.

Definition spec_checksum (payload : bytes) : Z := spec_checksum_from 0 payload.

(** A bit-serial reading of the same CRC, used to pin down "polynomial 0x07,
    no input reflection": the message bits enter most significant bit
    first, and the polynomial is XORed in whenever the bit leaving the
    register differs from the message bit. *)
Definition lfsr_step (r : Z) (bit : bool) : Z :=
  let shifted := (2 * r) mod 256 in
  if xorb (Z.testbit r 7) bit then Z.lxor shifted 0x07 else shifted.

Definition msb_first (b : Z) : list bool :=
  map (fun i => Z.testbit b (Z.of_nat i)) [7; 6; 5; 4; 3; 2; 1; 0]%nat.

Definition lfsr_checksum (payload : bytes) : Z :=
  fold_left lfsr_step (flat_map msb_first payload) 0.

(** Every value of a byte. *)
Definition byte_values : list Z := map Z.of_nat (seq 0 256).

(** ** Packets written by the source *)

(** UpdateStatus, lines 238-251. *)
Definition statusPacket : bytes :=
  let payload := [0x00] in
  let crc := calculateCRC8 payload in
  [Preamble1; Preamble2; CmdGetStatus; 0x00; 0x01; 0x00; 0x00; crc; Footer].

(** setIntensity, lines 539-553. *)
Definition intensityPacket (intensity : Z) : bytes :=
  let payload := [byte_of intensity] in
  let crc := calculateCRC8 payload in
  [Preamble1; Preamble2; CmdSetIntensity; 0x00; 0x01; 0x00;
   byte_of intensity; crc; Footer].

(** TestPrintCard, lines 376-405. *)
Definition lineCountLE (lineCount : Z) : bytes :=
  [byte_of (Z.land lineCount 0xFF);
   byte_of (Z.land (Z.shiftr lineCount 8) 0xFF)].

Definition printRequestPacket (lineCount : Z) : bytes :=
  let le := lineCountLE lineCount in
  let payload := [idx le 0; idx le 1; 0x30; 0x00] in
  let crc := calculateCRC8 payload in
  [Preamble1; Preamble2; CmdPrintRequest; 0x00; 0x04; 0x00;
   idx le 0; idx le 1; 0x30; 0x00; crc; Footer].

(** flushData, lines 489-502. *)
Definition flushPacket : bytes :=
  let payload := [0x00] in
  let crc := calculateCRC8 payload in
  [Preamble1; Preamble2; CmdFlushData; 0x00; 0x01; 0x00; 0x00; crc; Footer].

(** ** Errors

    The source returns [fmt.Errorf] values; each constructor stands for one
    message of the source and carries the values the message is formatted
    with.  The names are those the specification gives to the error kinds. *)
Inductive Error : Type :=
| NotConnected                    (* "printer not connected" *)
| SendFailed (cmd : Z)            (* "failed to send ... command: %v" *)
| StatusTimeout                   (* "status response timeout" *)
| FrameTooShort (n : Z)           (* "invalid status response length: %d" *)
| BadPreamble (b0 b1 : Z)         (* "invalid response preamble: ..." *)
| UnexpectedResponse (cmd : Z)    (* "unexpected response command (ID): 0x%02X" *)
| LengthMismatch (got need : Z)   (* "response too short for declared payload length" *)
| ShortStatusPayload (n : Z)      (* "status payload too short: %d bytes" *)
| PrinterError (n : Z)            (* "printer error: %d" *)
| PrinterBusy                     (* "printer is currently printing, ..." *)
| PrintRequestTimeout             (* "print request timeout" *)
| ShortPrintResponse (n : Z)      (* "response too short: %d bytes" *)
| PrintRejected (code : Z)        (* "print request rejected, response code: 0x%02X" *)
| PrintCompletionTimeout          (* "print completion timeout" *)
| UnexpectedCompletionResponse (buf : bytes) (* "unexpected response after flush: %x" *)
| OutOfRange (n : Z)              (* "intensity must be between 0 and 255, got %d" *)
| PrinterNotFound                 (* "printer not found within timeout" *)
| MainServiceNotFound             (* "main service not found" *)
| CharacteristicsNotFound         (* "not all required characteristics found" *)
| EnableNotificationsFailed       (* "failed to enable notifications: %v" *)
| TransportError                  (* the error value of device.Disconnect *)
| NilDereference                  (* run-time panic of [*device] on a nil device *)
| ZeroServicePanic.               (* run-time panic of DiscoverCharacteristics on
                                     the zero value of DeviceService *)

(** ** Packet layout of the specification *)

(** The encoder as section 4.2 of the specification words it: "preamble +
    id + reserved + little-endian 2-byte length + payload +
    checksum(payload) + footer"; the length bytes are split the way the
    source splits its line count ([lineCountLE]).  The source has no
    encoding function: it writes four packet literals ([statusPacket],
    [intensityPacket], [printRequestPacket], [flushPacket]), with which
    [spec_encode] is compared ([encode_literals] below: every literal
    of the source is an instance).  The decoder of the source is
    [parseStatusResponse], further down. *)
Definition spec_encode (cmd : Z) (payload : bytes) : bytes :=
  [Preamble1; Preamble2; cmd; 0x00;
   byte_of (Z.land (len payload) 0xFF);
   byte_of (Z.land (Z.shiftr (len payload) 8) 0xFF)]
  ++ payload ++ [calculateCRC8 payload; Footer].

(** ** The session *)

(** PrinterStatus (printer.go, lines 49-57). *)
Record PrinterStatus : Type := mkStatus {
  Connected : bool;
  Battery : Z;
  Temperature : Z;
  Status : Z;
  ErrorFlag : Z;
  ErrorCode : Z;
  StatusString : string
}.

(** Assignments to the fields of a status. *)
Definition set_Connected (b : bool) (st : PrinterStatus) : PrinterStatus :=
  mkStatus b (Battery st) (Temperature st) (Status st) (ErrorFlag st)
           (ErrorCode st) (StatusString st).

Definition set_Battery (v : Z) (st : PrinterStatus) : PrinterStatus :=
  mkStatus (Connected st) v (Temperature st) (Status st) (ErrorFlag st)
           (ErrorCode st) (StatusString st).

Definition set_Temperature (v : Z) (st : PrinterStatus) : PrinterStatus :=
  mkStatus (Connected st) (Battery st) v (Status st) (ErrorFlag st)
           (ErrorCode st) (StatusString st).

Definition set_Status (v : Z) (st : PrinterStatus) : PrinterStatus :=
  mkStatus (Connected st) (Battery st) (Temperature st) v (ErrorFlag st)
           (ErrorCode st) (StatusString st).

Definition set_ErrorFlag (v : Z) (st : PrinterStatus) : PrinterStatus :=
  mkStatus (Connected st) (Battery st) (Temperature st) (Status st) v
           (ErrorCode st) (StatusString st).

Definition set_ErrorCode (v : Z) (st : PrinterStatus) : PrinterStatus :=
  mkStatus (Connected st) (Battery st) (Temperature st) (Status st)
           (ErrorFlag st) v (StatusString st).

Definition set_StatusString (v : string) (st : PrinterStatus)
  : PrinterStatus :=
  mkStatus (Connected st) (Battery st) (Temperature st) (Status st)
           (ErrorFlag st) (ErrorCode st) v.

(** What the session does to its transport, in order: the calls on the
    adapter and the device, and the packets written to the control and the
    data characteristic. *)
Inductive Event : Type :=
| EvScan
| EvConnect
| EvDiscoverServices
| EvDiscoverCharacteristics
| EvEnableNotifications
| EvDisconnect
| EvControlWrite (packet : bytes)
| EvDataWrite (chunk : bytes).

(** CatPrinter (printer.go, lines 38-47).  The Bluetooth handles are kept as
    "has been bound" flags; [notifications] is the contents of the buffered
    channel, oldest first.  [clock] and [trace] are the model's own: the
    number of transport interactions performed so far and the history of
    calls made on the transport. *)
Record CatPrinter : Type := mkPrinter {
  device : bool;
  controlChar : bool;
  notifyChar : bool;
  dataChar : bool;
  connected : bool;
  notifications : list bytes;
  lastStatus : PrinterStatus;
  clock : nat;
  trace : list Event
}.

Definition set_connected (b : bool) (p : CatPrinter) : CatPrinter :=
  mkPrinter (device p) (controlChar p) (notifyChar p) (dataChar p) b
            (notifications p) (lastStatus p) (clock p) (trace p).

Definition set_notifications (q : list bytes) (p : CatPrinter) : CatPrinter :=
  mkPrinter (device p) (controlChar p) (notifyChar p) (dataChar p)
            (connected p) q (lastStatus p) (clock p) (trace p).

Definition set_lastStatus (st : PrinterStatus) (p : CatPrinter) : CatPrinter :=
  mkPrinter (device p) (controlChar p) (notifyChar p) (dataChar p)
            (connected p) (notifications p) st (clock p) (trace p).

Definition set_device (b : bool) (p : CatPrinter) : CatPrinter :=
  mkPrinter b (controlChar p) (notifyChar p) (dataChar p)
            (connected p) (notifications p) (lastStatus p) (clock p) (trace p).

Definition set_chars (c n d : bool) (p : CatPrinter) : CatPrinter :=
  mkPrinter (device p) c n d
            (connected p) (notifications p) (lastStatus p) (clock p) (trace p).

Definition log (e : Event) (p : CatPrinter) : CatPrinter :=
  mkPrinter (device p) (controlChar p) (notifyChar p) (dataChar p)
            (connected p) (notifications p) (lastStatus p) (clock p)
            (trace p ++ [e]).

(** The packets and chunks written so far. *)
Definition controlWrites (t : list Event) : list bytes :=
  flat_map (fun e => match e with EvControlWrite pk => [pk] | _ => [] end) t.

Definition dataWrites (t : list Event) : list bytes :=
  flat_map (fun e => match e with EvDataWrite c => [c] | _ => [] end) t.

(** NewCatPrinter (lines 65-78): a channel of capacity 10, and a status
    whose only non-zero field is the summary. *)
Definition channelCapacity : nat := 10.

Definition NewCatPrinter : CatPrinter :=
  mkPrinter false false false false false []
            (mkStatus false 0 0 0 0 0 "Not connected") 0 [].

(** ** The environment

    Everything the session cannot decide by itself is read from a [World],
    indexed by the session's [clock]: the notifications the device pushes
    while step [n] is under way, whether the transport call of step [n]
    returns an error, and what scanning and discovery find. *)
Record World : Type := mkWorld {
  arrivals : nat -> list bytes;
  fails : nat -> bool;
  scanFinds : nat -> bool;
  hasMainService : nat -> bool;
  hasChars : nat -> bool * bool * bool
}.

(** The callback given to EnableNotifications (lines 164-172): a
    non-blocking send, the buffer is dropped when the channel is full. *)
Definition onNotification (q : list bytes) (buf : bytes) : list bytes :=
  if (List.length q <? channelCapacity)%nat then q ++ [buf] else q.

(** The channel after the notifications of step [n] went through the
    callback. *)
Definition deliver (W : World) (n : nat) (q : list bytes) : list bytes :=
  fold_left onNotification (arrivals W n) q.

(** State passing: an operation maps a session to a result and a session. *)
Definition M (A : Type) : Type := CatPrinter -> A * CatPrinter.

Definition ret {A} (a : A) : M A := fun p => (a, p).

Definition bind {A B} (c : M A) (k : A -> M B) : M B :=
  fun p => let r := c p in k (fst r) (snd r).

Definition modify (f : CatPrinter -> CatPrinter) : M unit :=
  fun p => (tt, f p).

Declare Scope session_scope.
Delimit Scope session_scope with session.
Notation "x <- c ;; k" := (bind c (fun x => k))
  (at level 61, c at next level, right associativity) : session_scope.
Notation "c ;;; k" := (bind c (fun _ => k))
  (at level 61, right associativity) : session_scope.

(** [UUID().String()] of tinygo.org/x/bluetooth writes the sixteen bytes
    of a UUID as 8-4-4-4-12 hexadecimal digits: 36 characters for every
    value, the zero value of a handle that was never assigned included. *)
Definition zeroUUID : string := "00000000-0000-0000-0000-000000000000".

(** The UUID string of a service or characteristic handle.  A handle is
    assigned only from a discovery result whose UUID string equals [uuid]
    (lines 132 and 148-155); a handle that was never assigned is the zero
    value. *)
Definition uuidString (bound : bool) (uuid : string) : string :=
  if bound then uuid else zeroUUID.

Section Operations.

Variable W : World.

Local Open Scope session_scope.

(** One step of interaction: the notifications of this step go through the
    callback, the clock advances, the step's index is returned. *)
Definition tick : M nat :=
  fun p =>
    (clock p,
     mkPrinter (device p) (controlChar p) (notifyChar p) (dataChar p)
               (connected p)
               (deliver W (clock p) (notifications p))
               (lastStatus p) (S (clock p)) (trace p)).

(** A call on the transport; answers whether it returned an error. *)
Definition transport (e : Event) : M bool :=
  n <- tick ;; modify (log e) ;;; ret (fails W n).

(** [select { case <-p.notifications: ... default: }] *)
Definition select_default : M (option bytes) :=
  tick ;;;
  fun p =>
    match notifications p with
    | [] => (None, p)
    | buf :: q => (Some buf, set_notifications q p)
    end.

(** [select { case buf := <-p.notifications: ... case <-time.After(d): }].
    The model has no real time: the notifications of the step are those
    that arrive before the timeout [d] (in seconds) expires, and the wait
    times out exactly when the channel is still empty after them. *)
Definition select_timeout (d : Z) : M (option bytes) :=
  tick ;;;
  fun p =>
    match notifications p with
    | [] => (None, p)
    | buf :: q => (Some buf, set_notifications q p)
    end.

(** [fmt.Sprintf("%d", n)] *)
Definition fmt_d (n : Z) : string := NilZero.string_of_int (Z.to_int n).

Definition degree : string := String "194"%char (String "176"%char EmptyString).

(** The summary of line 318. *)
Definition statusSummary (st : PrinterStatus) : string :=
  ("Battery: " ++ fmt_d (Battery st) ++ "%, Temp: " ++ fmt_d (Temperature st)
   ++ degree ++ "C, Status: " ++ fmt_d (Status st)
   ++ ", Error: " ++ fmt_d (ErrorFlag st))%string.

(** The assignments of lines 297-319, on the stored status: field by
    field, in place, under the source's own length guards. *)
Definition storeStatus (buf : bytes) (st : PrinterStatus) : PrinterStatus :=
  let st := set_Connected true st in
  let st := if len buf >? 9 then set_Battery (idx buf 9) st else st in
  let st := if len buf >? 10 then set_Temperature (idx buf 10) st else st in
  let st := if len buf >? 6 then set_Status (idx buf 6) st else st in
  let st :=
    if len buf >? 12 then
      let st := set_ErrorFlag (idx buf 12) st in
      if negb (ErrorFlag st =? 0) && (len buf >? 13)
      then set_ErrorCode (idx buf 13) st
      else st
    else st in
  set_StatusString (statusSummary st) st.

(** parseStatusResponse (lines 268-329). *)
Definition parseStatusResponse (buf : bytes) : M (option Error) :=
  fun p =>
    if len buf <? 9 then (Some (FrameTooShort (len buf)), p)
    else if negb (idx buf 0 =? Preamble1) || negb (idx buf 1 =? Preamble2)
    then (Some (BadPreamble (idx buf 0) (idx buf 1)), p)
    else if negb (idx buf 2 =? CmdGetStatus)
    then (Some (UnexpectedResponse (idx buf 2)), p)
    else
      let payloadLength := Z.lor (idx buf 4) (Z.shiftl (idx buf 5) 8) in
      if len buf <? 6 + payloadLength
      then (Some (LengthMismatch (len buf) (6 + payloadLength)), p)
      else if len buf >=? 13
      then (None, set_lastStatus (storeStatus buf (lastStatus p)) p)
      else (Some (ShortStatusPayload (len buf)), p).

(** UpdateStatus (lines 223-266). *)
Definition UpdateStatus : M (option Error) :=
  fun p =>
    if negb (connected p) then (Some NotConnected, p)
    else
      (select_default ;;;
       failed <- transport (EvControlWrite statusPacket) ;;
       if failed : bool then ret (Some (SendFailed CmdGetStatus))
       else
         reply <- select_timeout 5 ;;
         match reply with
         | Some buf => parseStatusResponse buf
         | None => ret (Some StatusTimeout)
         end) p.

(** setIntensity (lines 527-563). *)
Definition setIntensity (intensity : Z) : M (option Error) :=
  fun p =>
    if negb (connected p) then (Some NotConnected, p)
    else if (intensity <? 0) || (intensity >? 255)
    then (Some (OutOfRange intensity), p)
    else
      (failed <- transport (EvControlWrite (intensityPacket intensity)) ;;
       if failed : bool then ret (Some (SendFailed CmdSetIntensity))
       else ret None) p.

(** flushData (lines 484-525). *)
Definition flushData : M (option Error) :=
  fun p =>
    if negb (connected p) then (Some NotConnected, p)
    else
      (failed <- transport (EvControlWrite flushPacket) ;;
       if failed : bool then ret (Some (SendFailed CmdFlushData))
       else
         reply <- select_timeout 30 ;;
         match reply with
         | Some buf =>
             if (len buf >=? 3) && (idx buf 2 =? CmdPrintComplete)
             then ret None
             else ret (Some (UnexpectedCompletionResponse buf))
         | None => ret (Some PrintCompletionTimeout)
         end) p.

(** ** Image transfer *)

Definition chunkSize : Z := 20.

(** [paddedData[i:j]] *)
Definition slice (l : bytes) (i j : Z) : bytes :=
  firstn (Z.to_nat (j - i)) (skipn (Z.to_nat i) l).

(** The chunk loop of transferImageData (lines 457-475):
    [for i := 0; i < len(paddedData); i += chunkSize].  A failed write is
    only logged ([ifErrNotNil]).  The recursion is on [fuel];
    [sendChunks_fuel] shows that the length of the buffer is enough for the
    loop to leave through its own test. *)
Fixpoint sendChunks (fuel : nat) (paddedData : bytes) (i : Z) : M unit :=
  match fuel with
  | O => ret tt
  | S fuel' =>
      if i <? len paddedData then
        let end_ := i + chunkSize in
        let end_ := if end_ >? len paddedData then len paddedData else end_ in
        let chunk := slice paddedData i end_ in
        transport (EvDataWrite chunk) ;;;
        sendChunks fuel' paddedData (i + chunkSize)
      else ret tt
  end.

(** The padding of lines 447-452. *)
Definition pad (imageData : bytes) : bytes :=
  if len imageData <? MinImageBytes
  then imageData ++ repeat 0x00 (Z.to_nat (MinImageBytes - len imageData))
  else imageData.

(** transferImageData (lines 443-482): the error of flushData is logged and
    the function returns nil. *)
Definition transferImageData (imageData : bytes) : M (option Error) :=
  let paddedData := pad imageData in
  sendChunks (List.length paddedData) paddedData 0 ;;;
  _err <- flushData ;;
  ret None.

(** ** Printing *)

Definition range (n : Z) : list Z := map Z.of_nat (seq 0 (Z.to_nat n)).

(** The test pattern of lines 334-350, rows in order. *)
Definition testImage (lineBytes lineCount : Z) : bytes :=
  flat_map
    (fun line =>
       map (fun byteIdx =>
              if byteIdx mod 2 =? line mod 2 then 0xFF else 0x00)
           (range lineBytes))
    (range lineCount).

(** TestPrintCard (lines 331-441).  The results of UpdateStatus and of
    setIntensity are dropped, as in the source. *)
Definition TestPrintCard : M (option Error) :=
  let lineBytes := ImageWidthBytes in
  let lineCount := 10 in
  let imageData := testImage lineBytes lineCount in
  UpdateStatus ;;;
  setIntensity 93 ;;;
  select_default ;;;
  fun p =>
    if negb (ErrorFlag (lastStatus p) =? 0)
    then (Some (PrinterError (ErrorFlag (lastStatus p))), p)
    else if negb (Status (lastStatus p) =? 0)
    then (Some PrinterBusy, p)
    else
      (failed <- transport (EvControlWrite (printRequestPacket lineCount)) ;;
       if failed : bool then ret (Some (SendFailed CmdPrintRequest))
       else
         reply <- select_timeout 5 ;;
         match reply with
         | Some buf =>
             if len buf >=? 7 then
               if idx buf 2 =? CmdPrintRequest then
                 let payloadStart := 6%nat in
                 if idx buf payloadStart =? 0x00
                 then transferImageData imageData
                 else ret (Some (PrintRejected (idx buf payloadStart)))
               else ret (Some (UnexpectedResponse (idx buf 2)))
             else ret (Some (ShortPrintResponse (len buf)))
         | None => ret (Some PrintRequestTimeout)
         end) p.

(** ** Connection life cycle *)

(** Connect (lines 80-186).  Errors of Scan, DiscoverServices and
    DiscoverCharacteristics are only logged.  A failed adapter.Connect
    leaves a nil device, which line 123 dereferences.  [mainService] is
    the service found by the loop of lines 131-136, or the zero value; the
    tests of lines 138 and 159 compare UUID strings with the empty string;
    DiscoverCharacteristics on the zero value of DeviceService panics.  A
    characteristic that discovery does not report keeps the handle it
    had.  The outcome of EnableNotifications is read from the world; what
    the library does on a handle that was never assigned is not modelled,
    and the properties of Connect are stated for the control and the
    notify characteristic bound when Connect calls them. *)
Definition Connect : M (option Error) :=
  fun p =>
    if connected p then (None, p)
    else
      (transport EvScan ;;;
       n <- tick ;;
       if negb (scanFinds W n) then ret (Some PrinterNotFound)
       else
         failed <- transport EvConnect ;;
         if failed : bool then ret (Some NilDereference)
         else
           modify (set_device true) ;;;
           n <- tick ;;
           modify (log EvDiscoverServices) ;;;
           let mainService := hasMainService W n in
           if String.eqb (uuidString mainService MainServiceUUID) ""
           then ret (Some MainServiceNotFound)
           else if negb mainService then ret (Some ZeroServicePanic)
           else
             n <- tick ;;
             modify (log EvDiscoverCharacteristics) ;;;
             modify (fun p =>
                       let '(c, nt, d) := hasChars W n in
                       set_chars (c || controlChar p) (nt || notifyChar p)
                                 (d || dataChar p) p) ;;;
             fun p =>
               if String.eqb (uuidString (controlChar p) ControlCharUUID) ""
                  || String.eqb (uuidString (notifyChar p) NotifyCharUUID) ""
                  || String.eqb (uuidString (dataChar p) DataCharUUID) ""
               then (Some CharacteristicsNotFound, p)
               else
                 (failed <- transport EvEnableNotifications ;;
                  if failed : bool then ret (Some EnableNotificationsFailed)
                  else
                    modify (set_connected true) ;;;
                    UpdateStatus ;;;
                    ret None) p) p.

(** Disconnect (lines 188-199). *)
Definition Disconnect : M (option Error) :=
  fun p =>
    if negb (connected p) then (None, p)
    else
      (failed <- transport EvDisconnect ;;
       modify (set_connected false) ;;;
       modify (fun p =>
                 set_lastStatus
                   (set_StatusString "Disconnected"
                      (set_Connected false (lastStatus p)))
                   p) ;;;
       ret (if failed : bool then Some TransportError else None)) p.

End Operations.

(** ** Concrete sessions and worlds used below *)

(** A world in which no call fails, discovery finds everything, and the
    device pushes exactly the scripted notifications, each at its step. *)
Definition scriptedWorld (script : list (nat * bytes)) : World :=
  mkWorld
    (fun n => flat_map (fun '(k, b) => if Nat.eqb k n then [b] else [])
                       script)
    (fun _ => false) (fun _ => true) (fun _ => true)
    (fun _ => (true, true, true)).

Definition quietWorld : World := scriptedWorld [].

(** A connected session: device and characteristics bound, empty channel,
    the status still the initial one (as after a Connect whose status
    query was not answered); clock and history start afresh. *)
Definition connectedSession : CatPrinter :=
  mkPrinter true true true true true []
            (mkStatus false 0 0 0 0 0 "Not connected") 0 [].

(** A 14-byte status reply: state 0, battery 80, temperature 25, no error. *)
Definition statusReply : bytes :=
  [0x22; 0x21; 0xA1; 0x00; 0x08; 0x00; 0; 0; 0; 80; 25; 0; 0; 0].

(** A 14-byte status reply reporting error flag 1 with error code 7. *)
Definition errorReply : bytes :=
  [0x22; 0x21; 0xA1; 0x00; 0x08; 0x00; 0; 0; 0; 80; 25; 0; 1; 7].

(** A 13-byte status reply reporting error flag 1: there is no offset 13. *)
Definition shortErrorReply : bytes :=
  [0x22; 0x21; 0xA1; 0x00; 0x07; 0x00; 0; 0; 0; 80; 25; 0; 1].

(** A 12-byte status frame. *)
Definition shortStatusReply : bytes :=
  [0x22; 0x21; 0xA1; 0x00; 0x06; 0x00; 0; 0; 0; 80; 25; 0].

(** A status reply reporting state 1 (printing). *)
Definition busyReply : bytes :=
  [0x22; 0x21; 0xA1; 0x00; 0x08; 0x00; 1; 0; 0; 80; 25; 0; 0; 0].

(** The reply that accepts a print request, and the print-complete
    notification. *)
Definition printAccepted : bytes :=
  [0x22; 0x21; 0xA9; 0x00; 0x01; 0x00; 0x00; 0x00; 0xFF].

Definition printComplete : bytes :=
  [0x22; 0x21; 0xAA; 0x00; 0x01; 0x00; 0x00; 0x00; 0xFF].

(** A frame with a foreign command id that declares 65535 payload bytes. *)
Definition overlongForeignFrame : bytes :=
  [0x22; 0x21; 0xAA; 0x00; 0xFF; 0xFF; 0x00; 0x00; 0xFF].

(** A session that remembers error code 7 from an earlier status. *)
Definition sessionWithOldErrorCode : CatPrinter :=
  set_lastStatus (mkStatus true 80 25 0 0 7 "") connectedSession.

(** The channel as the waiting step of UpdateStatus sees it: after the
    drain of step [clock p] (which removes at most one buffer) and the
    arrivals of the write and of the wait. *)
Definition mailboxAtStatusWait (W : World) (p : CatPrinter) : list bytes :=
  deliver W (2 + clock p)
    (deliver W (1 + clock p)
       (tl (deliver W (clock p) (notifications p)))).

(** The framing tests of parseStatusResponse, lines 270-291. *)
Definition framedStatus (buf : bytes) : Prop :=
  9 <= len buf /\ idx buf 0 = Preamble1 /\ idx buf 1 = Preamble2 /\
  idx buf 2 = CmdGetStatus /\
  6 + Z.lor (idx buf 4) (Z.shiftl (idx buf 5) 8) <= len buf.

(** The session after a transport call [e], and after a receive attempt. *)
Definition afterTransport (W : World) (e : Event) (p : CatPrinter)
  : CatPrinter :=
  mkPrinter (device p) (controlChar p) (notifyChar p) (dataChar p)
            (connected p) (deliver W (clock p) (notifications p))
            (lastStatus p) (S (clock p)) (trace p ++ [e]).

Definition afterSelect (W : World) (p : CatPrinter) : CatPrinter :=
  mkPrinter (device p) (controlChar p) (notifyChar p) (dataChar p)
            (connected p) (tl (deliver W (clock p) (notifications p)))
            (lastStatus p) (S (clock p)) (trace p).

(** The chunks of a buffer, in order: chunk [k] is bytes [20 k] to
    [20 k + 19], the last one being shorter when the length is not a
    multiple of 20. *)
Definition chunks (l : bytes) : list bytes :=
  map (fun k => firstn 20 (skipn (20 * k) l))
      (seq 0 ((List.length l + 19) / 20)).

(** The session after the data writes [cs], one step each. *)
Definition afterDataWrites (W : World) (cs : list bytes) (p : CatPrinter)
  : CatPrinter :=
  fold_left (fun q c => afterTransport W (EvDataWrite c) q) cs p.

(** The session when TestPrintCard reaches its checks (line 366): after
    the status refresh, the intensity command and the drain. *)
Definition printPrelude (W : World) (p : CatPrinter) : CatPrinter :=
  snd ((UpdateStatus W ;;; setIntensity W 93 ;;; select_default W)%session p).

(** The channel as a wait sees it when the write before it was made on
    session [q]: the arrivals of the write and those of the wait. *)
Definition mailboxAfterWrite (W : World) (q : CatPrinter) : list bytes :=
  deliver W (S (clock q)) (deliver W (clock q) (notifications q)).

(** From the session [q] at the checks of TestPrintCard: the session when
    the print request has been written and answered, and the session when
    every chunk of the image has been written and flushData is about to be
    called. *)
Definition afterPrintRequest (W : World) (q : CatPrinter) : CatPrinter :=
  afterSelect W (afterTransport W (EvControlWrite (printRequestPacket 10)) q).

Definition beforeFlush (W : World) (imageData : bytes) (q : CatPrinter)
  : CatPrinter :=
  afterDataWrites W (chunks (pad imageData)) (afterPrintRequest W q).

(** TestPrintCard from its checks on (lines 366-441), as a function of the
    image and of the session [q] the checks read; [TestPrintCard_run] shows
    that this is what TestPrintCard does after its prelude. *)
Definition printFrom (W : World) (imageData : bytes) (q : CatPrinter)
  : option Error * CatPrinter :=
  if negb (ErrorFlag (lastStatus q) =? 0)
  then (Some (PrinterError (ErrorFlag (lastStatus q))), q)
  else if negb (Status (lastStatus q) =? 0) then (Some PrinterBusy, q)
  else if fails W (clock q)
  then (Some (SendFailed CmdPrintRequest),
        afterTransport W (EvControlWrite (printRequestPacket 10)) q)
  else match hd_error (mailboxAfterWrite W q) with
       | None => (Some PrintRequestTimeout, afterPrintRequest W q)
       | Some buf =>
           if len buf >=? 7 then
             if idx buf 2 =? CmdPrintRequest then
               if idx buf 6 =? 0x00
               then (None, snd (flushData W (beforeFlush W imageData q)))
               else (Some (PrintRejected (idx buf 6)), afterPrintRequest W q)
             else (Some (UnexpectedResponse (idx buf 2)),
                   afterPrintRequest W q)
           else (Some (ShortPrintResponse (len buf)), afterPrintRequest W q)
       end.

(** The image TestPrintCard prints: 10 lines of 48 bytes. *)
Definition testCard : bytes := testImage ImageWidthBytes 10.

(** Worlds in which the device answers the status query of step 2. *)
Definition statusReplyWorld : World := scriptedWorld [(2%nat, statusReply)].

Definition shortErrorReplyWorld : World :=
  scriptedWorld [(2%nat, shortErrorReply)].

Definition errorReplyWorld : World := scriptedWorld [(2%nat, errorReply)].

Definition busyReplyWorld : World := scriptedWorld [(2%nat, busyReply)].

(** The device answers the status query and accepts the print request of
    step 5, and then stays silent: no print-complete notification. *)
Definition acceptedNoCompletionWorld : World :=
  scriptedWorld [(2%nat, statusReply); (6%nat, printAccepted)].

(** A connected session whose channel still holds two notifications of
    earlier exchanges, the second one an old status reply (state 1). *)
Definition twoStaleSession : CatPrinter :=
  set_notifications [printComplete; busyReply] connectedSession.

(** A connected session whose channel still holds an old print-complete
    notification. *)
Definition staleCompletionSession : CatPrinter :=
  set_notifications [printComplete] connectedSession.

(** ** Further notions used by the properties of the second part *)

(** Byte-wise XOR of two payloads. *)
Definition xorBytes (d1 d2 : bytes) : bytes :=
  map (fun ab => Z.lxor (fst ab) (snd ab)) (combine d1 d2).

(** The eight rounds of the inner loop of calculateCRC8. *)
Definition crc_rounds (x : Z) : Z := Nat.iter 8 crc_round x.

(** The channel never holds more than its capacity. *)
Definition mailbox_ok (p : CatPrinter) : Prop :=
  (List.length (notifications p) <= channelCapacity)%nat.

(** A connected session has its device: [p.device] was assigned from a
    successful adapter.Connect. *)
Definition device_ok (p : CatPrinter) : Prop :=
  connected p = true -> device p = true.

(** The session after a step that only lets notifications arrive. *)
Definition afterTick (W : World) (p : CatPrinter) : CatPrinter :=
  mkPrinter (device p) (controlChar p) (notifyChar p) (dataChar p)
            (connected p) (deliver W (clock p) (notifications p))
            (lastStatus p) (S (clock p)) (trace p).

(** The characteristic loop of Connect (lines 147-156) with the discovery
    of step [n]: a handle is assigned when the characteristic is reported
    and keeps its value otherwise. *)
Definition bindChars (W : World) (n : nat) (p : CatPrinter) : CatPrinter :=
  let '(c, nt, d) := hasChars W n in
  set_chars (c || controlChar p) (nt || notifyChar p) (d || dataChar p) p.

(** The HTTP front end (main.go). *)
Module Server.

(** StatusResponse (lines 22-27). *)
Record StatusResponse : Type := mkStatusResponse {
  Connected : bool;
  Battery : Z;
  Status : string;
  Error : string
}.

(** getStatus (lines 70-78): the result of UpdateStatus is dropped; the
    answer is always 200 with three fields of the stored status. *)
Definition getStatus (W : World) : M (Z * StatusResponse) :=
  (UpdateStatus W ;;;
   fun p =>
     let 'mkStatus c b _ _ _ _ s := lastStatus p in
     ((200, mkStatusResponse c b s ""), p))%session.

End Server.

(** [q] has the connection flag and the handles of [p]. *)
Definition same_link (p q : CatPrinter) : Prop :=
  connected q = connected p /\ device q = device p /\
  controlChar q = controlChar p /\ notifyChar q = notifyChar p /\
  dataChar q = dataChar p.

(** [q] comes from [p] by steps that keep the link and the capacity bound
    of the channel. *)
Definition evolves (p q : CatPrinter) : Prop :=
  same_link p q /\ (mailbox_ok p -> mailbox_ok q).

(** A world whose device pushes two notifications during step 0. *)
Definition burstWorld : World :=
  scriptedWorld [(0%nat, printComplete); (0%nat, statusReply)].

(** A connected session whose channel holds nine notifications. *)
Definition nearlyFullSession : CatPrinter :=
  set_notifications (repeat printAccepted 9) connectedSession.

(** A world whose device has the main service with the control and the
    notify characteristic, but no data characteristic (ae03). *)
Definition noDataCharWorld : World :=
  mkWorld (fun _ => []) (fun _ => false) (fun _ => true) (fun _ => true)
          (fun _ => (true, true, false)).

(** A world whose device does not have the main service. *)
Definition noServiceWorld : World :=
  mkWorld (fun _ => []) (fun _ => false) (fun _ => true) (fun _ => false)
          (fun _ => (false, false, false)).

(** An image longer than the padding floor: 4330 bytes. *)
Definition longImage : bytes := repeat 0xFF 4330.

(** The device reports state 0 and no error, then rejects the print
    request with code 5. *)
Definition rejectingWorld : World :=
  scriptedWorld [(2%nat, statusReply);
                 (6%nat, [0x22; 0x21; 0xA9; 0x00; 0x01; 0x00; 0x05; 0; 0xFF])].

(** The device answers every exchange of a print: status, acceptance,
    completion. *)
Definition printingWorld : World :=
  scriptedWorld [(2%nat, statusReply); (6%nat, printAccepted);
                 (224%nat, printComplete)].

(** * Properties *)

(** ** Checksum *)

Lemma byte_of_mod (x : Z) : byte_of x = x mod 256.
Proof.
  unfold byte_of. change 0xFF with (Z.ones 8).
  rewrite Z.land_ones by lia. reflexivity.
Qed.

Lemma byte_of_range (x : Z) : 0 <= byte_of x < 256.
Proof. rewrite byte_of_mod. apply Z.mod_pos_bound. lia. Qed.

Lemma byte_of_small (x : Z) : 0 <= x < 256 -> byte_of x = x.
Proof. intros H. rewrite byte_of_mod. apply Z.mod_small. exact H. Qed.

Lemma high_bit_test (r : Z) : negb (Z.land r 0x80 =? 0) = Z.testbit r 7.
Proof.
  change 0x80 with (2 ^ 7).
  destruct (Z.testbit r 7) eqn:Hb.
  - assert (Hn : Z.land r (2 ^ 7) <> 0).
    { intros E.
      assert (Ht : Z.testbit (Z.land r (2 ^ 7)) 7 = true).
      { rewrite Z.land_spec, Hb, Z.pow2_bits_true by lia. reflexivity. }
      rewrite E, Z.bits_0 in Ht. discriminate. }
    apply Z.eqb_neq in Hn. rewrite Hn. reflexivity.
  - assert (E : Z.land r (2 ^ 7) = 0).
    { apply Z.bits_inj'. intros n Hn.
      rewrite Z.land_spec, Z.bits_0.
      destruct (Z.eq_dec n 7) as [->|Hne].
      - rewrite Hb. reflexivity.
      - rewrite (Z.pow2_bits_false 7 n) by lia. apply andb_false_r. }
    rewrite E. reflexivity.
Qed.

Lemma crc_round_spec (r : Z) : crc_round r = spec_round r.
Proof.
  unfold crc_round, spec_round.
  rewrite high_bit_test, byte_of_mod, Z.shiftl_mul_pow2 by lia.
  replace (r * 2 ^ 1) with (2 * r) by lia. reflexivity.
Qed.

Lemma lxor_7_range (x : Z) : 0 <= x < 256 -> 0 <= Z.lxor x 0x07 < 256.
Proof.
  intros [H0 H1]. split.
  - apply Z.lxor_nonneg. lia.
  - assert (Hx : Z.lxor x 7 = 0 \/ 0 < Z.lxor x 7).
    { assert (0 <= Z.lxor x 7) by (apply Z.lxor_nonneg; lia). lia. }
    destruct Hx as [->|Hpos]; [lia|].
    apply (Z.log2_lt_pow2 _ 8 Hpos).
    eapply Z.le_lt_trans; [apply Z.log2_lxor; lia|].
    apply Z.max_lub_lt.
    + destruct (Z.eq_dec x 0) as [->|]; [simpl; lia|].
      apply Z.log2_lt_pow2; lia.
    + simpl. lia.
Qed.

Lemma crc_round_range (r : Z) : 0 <= crc_round r < 256.
Proof.
  unfold crc_round. destruct (negb (Z.land r 0x80 =? 0)).
  - apply lxor_7_range, byte_of_range.
  - apply byte_of_range.
Qed.

Lemma crc_byte_range (r b : Z) : 0 <= crc_byte r b < 256.
Proof. unfold crc_byte. simpl. apply crc_round_range. Qed.

Lemma iter_rounds_spec (n : nat) (r : Z) :
  Nat.iter n crc_round r = spec_rounds n r.
Proof.
  revert r. induction n as [|n IH]; intros r; [reflexivity|].
  rewrite Nat.iter_succ_r. simpl. rewrite IH, crc_round_spec. reflexivity.
Qed.

Lemma fold_crc_spec (data : bytes) (r : Z) :
  fold_left crc_byte data r = spec_checksum_from r data.
Proof.
  revert r. induction data as [|b rest IH]; intros r; [reflexivity|].
  simpl fold_left. simpl spec_checksum_from.
  rewrite IH. unfold crc_byte. rewrite iter_rounds_spec. reflexivity.
Qed.

Lemma fold_crc_range (data : bytes) (r : Z) :
  0 <= r < 256 -> 0 <= fold_left crc_byte data r < 256.
Proof.
  revert r. induction data as [|b rest IH]; intros r Hr; [exact Hr|].
  simpl. apply IH, crc_byte_range.
Qed.

(** C8: calculateCRC8 is the function the specification describes (each
    byte XORed into the register, then eight rounds of shift-left-by-one
    with XOR of 0x07 when the high bit was set, on 8 bits, register
    initially 0 and returned as it is); its value is always one byte; the
    checksum of the empty payload and that of the single byte 0x00 are
    0x00. *)
Theorem calculateCRC8_spec :
  (forall data, calculateCRC8 data = spec_checksum data) /\
  (forall data, 0 <= calculateCRC8 data < 256) /\
  calculateCRC8 [] = 0x00 /\
  calculateCRC8 [0x00] = 0x00.
Proof.
  repeat split.
  - intros data. apply fold_crc_spec.
  - apply fold_crc_range. lia.
  - apply fold_crc_range. lia.
Qed.

(** The byte-at-a-time loop of the source agrees with the bit-serial
    register fed most significant bit first; one step is checked on all
    256 x 256 pairs of register and byte. *)
Lemma byte_values_complete (b : Z) : 0 <= b < 256 -> In b byte_values.
Proof.
  intros Hb. unfold byte_values. apply in_map_iff.
  exists (Z.to_nat b). split; [lia|]. apply in_seq. lia.
Qed.

Lemma crc_byte_lfsr_table :
  forallb (fun r =>
    forallb (fun b => crc_byte r b =? fold_left lfsr_step (msb_first b) r)
            byte_values) byte_values = true.
Proof. vm_compute. reflexivity. Qed.

Lemma crc_byte_lfsr (r b : Z) :
  0 <= r < 256 -> 0 <= b < 256 ->
  crc_byte r b = fold_left lfsr_step (msb_first b) r.
Proof.
  intros Hr Hb.
  pose proof crc_byte_lfsr_table as T.
  rewrite forallb_forall in T.
  specialize (T r (byte_values_complete r Hr)).
  rewrite forallb_forall in T.
  specialize (T b (byte_values_complete b Hb)).
  apply Z.eqb_eq. exact T.
Qed.

Lemma calculateCRC8_bit_serial (data : bytes) :
  Forall is_byte data -> calculateCRC8 data = lfsr_checksum data.
Proof.
  unfold calculateCRC8, lfsr_checksum.
  assert (G : forall r, 0 <= r < 256 -> Forall is_byte data ->
              fold_left crc_byte data r
              = fold_left lfsr_step (flat_map msb_first data) r).
  { induction data as [|b rest IH]; intros r Hr Hd; [reflexivity|].
    inversion Hd as [|? ? Hb Hrest]; subst.
    change (flat_map msb_first (b :: rest))
      with (msb_first b ++ flat_map msb_first rest).
    rewrite fold_left_app. simpl fold_left at 1.
    rewrite <- (crc_byte_lfsr r b Hr Hb).
    apply IH; [apply crc_byte_range | exact Hrest]. }
  intros Hd. apply G; [lia | exact Hd].
Qed.

(** The check value of the parameter set (poly 0x07, init 0, no
    reflection, no final XOR) on the ASCII digits "123456789". *)
Example calculateCRC8_check_value :
  calculateCRC8 [0x31; 0x32; 0x33; 0x34; 0x35; 0x36; 0x37; 0x38; 0x39] = 0xF4.
Proof. reflexivity. Qed.

(** ** Packet layout *)

Lemma le16_join (n : Z) :
  0 <= n < 65536 ->
  Z.lor (byte_of (Z.land n 0xFF))
        (Z.shiftl (byte_of (Z.land (Z.shiftr n 8) 0xFF)) 8) = n.
Proof.
  intros Hn. unfold byte_of. rewrite <- !Z.land_assoc.
  change (Z.land 0xFF 0xFF) with (Z.ones 8).
  apply Z.bits_inj'. intros i Hi.
  rewrite Z.lor_spec.
  destruct (Z.lt_ge_cases i 8) as [Hlo|Hhi].
  - rewrite Z.shiftl_spec_low by lia.
    rewrite Z.land_spec, Z.ones_spec_low by lia.
    rewrite orb_false_r. apply andb_true_r.
  - rewrite Z.land_spec, Z.ones_spec_high by lia.
    rewrite andb_false_r. cbn [orb].
    rewrite Z.shiftl_spec by lia.
    rewrite Z.land_spec, Z.shiftr_spec by lia.
    replace (i - 8 + 8) with i by lia.
    destruct (Z.lt_ge_cases i 16) as [Hlt|Hge].
    + rewrite Z.ones_spec_low by lia. apply andb_true_r.
    + rewrite Z.ones_spec_high by lia. rewrite andb_false_r.
      symmetry. destruct (Z.eq_dec n 0) as [->|Hnz]; [apply Z.bits_0|].
      apply Z.bits_above_log2; [lia|].
      assert (Z.log2 n < 16) by (apply Z.log2_lt_pow2; lia). lia.
Qed.

Lemma le16_low (n : Z) :
  0 <= n < 65536 -> byte_of (Z.land n 0xFF) = n mod 256.
Proof.
  intros _. rewrite byte_of_mod.
  change 0xFF with (Z.ones 8). rewrite Z.land_ones by lia.
  apply Z.mod_mod. lia.
Qed.

Lemma le16_high (n : Z) :
  0 <= n < 65536 -> byte_of (Z.land (Z.shiftr n 8) 0xFF) = n / 256.
Proof.
  intros Hn. rewrite byte_of_mod.
  change 0xFF with (Z.ones 8). rewrite Z.land_ones by lia.
  rewrite Z.shiftr_div_pow2 by lia. change (2 ^ 8) with 256.
  rewrite Z.mod_mod by lia. apply Z.mod_small.
  split; [apply Z.div_pos; lia | apply Z.div_lt_upper_bound; lia].
Qed.

Lemma len_app {A} (l1 l2 : list A) : len (l1 ++ l2) = len l1 + len l2.
Proof. unfold len. rewrite length_app. lia. Qed.

Lemma len_nonneg {A} (l : list A) : 0 <= len l.
Proof. unfold len. lia. Qed.

Lemma len_spec_encode (cmd : Z) (payload : bytes) :
  len (spec_encode cmd payload) = 8 + len payload.
Proof.
  unfold spec_encode. rewrite !len_app. unfold len. simpl List.length. lia.
Qed.

(** The four packets the source writes are instances of the encoder. *)
Lemma encode_literals :
  statusPacket = spec_encode CmdGetStatus [0x00] /\
  (forall intensity,
      intensityPacket intensity
      = spec_encode CmdSetIntensity [byte_of intensity]) /\
  (forall lineCount,
      printRequestPacket lineCount
      = spec_encode CmdPrintRequest
          [byte_of (Z.land lineCount 0xFF);
           byte_of (Z.land (Z.shiftr lineCount 8) 0xFF); 0x30; 0x00]) /\
  flushPacket = spec_encode CmdFlushData [0x00].
Proof. repeat split. Qed.


(** ** Status parsing *)

(** C7, as amended: parseStatusResponse fails with FrameTooShort on every
    buffer shorter than 9 bytes; with BadPreamble on every buffer of at
    least 9 bytes whose first two bytes are not 0x22, 0x21; with
    UnexpectedResponse, before the length field is looked at, on a buffer
    of at least 9 bytes with the right preamble and another command id; and
    with LengthMismatch when, the command id being that of the status
    query, the declared little-endian length exceeds the bytes that follow
    the 6-byte header.  The session is left as it was in all four cases. *)
Theorem parseStatusResponse_framing (buf : bytes) (p : CatPrinter) :
  (len buf < 9 ->
   parseStatusResponse buf p = (Some (FrameTooShort (len buf)), p)) /\
  (9 <= len buf -> idx buf 0 <> Preamble1 \/ idx buf 1 <> Preamble2 ->
   parseStatusResponse buf p
   = (Some (BadPreamble (idx buf 0) (idx buf 1)), p)) /\
  (9 <= len buf -> idx buf 0 = Preamble1 -> idx buf 1 = Preamble2 ->
   idx buf 2 <> CmdGetStatus ->
   parseStatusResponse buf p = (Some (UnexpectedResponse (idx buf 2)), p)) /\
  (9 <= len buf -> idx buf 0 = Preamble1 -> idx buf 1 = Preamble2 ->
   idx buf 2 = CmdGetStatus ->
   len buf - 6 < Z.lor (idx buf 4) (Z.shiftl (idx buf 5) 8) ->
   parseStatusResponse buf p
   = (Some (LengthMismatch (len buf)
              (6 + Z.lor (idx buf 4) (Z.shiftl (idx buf 5) 8))), p)).
Proof.
  unfold parseStatusResponse. split; [|split; [|split]].
  - intros H. apply Z.ltb_lt in H. rewrite H. reflexivity.
  - intros H Hp. apply Z.ltb_ge in H. rewrite H.
    destruct Hp as [Hp|Hp]; apply Z.eqb_neq in Hp; rewrite Hp;
      [|rewrite orb_true_r]; reflexivity.
  - intros H H0 H1 H2. apply Z.ltb_ge in H. rewrite H, H0, H1.
    apply Z.eqb_neq in H2. rewrite H2. reflexivity.
  - intros H H0 H1 H2 Hl. apply Z.ltb_ge in H. rewrite H, H0, H1, H2.
    cbn [Z.eqb negb orb]. rewrite !Z.eqb_refl. cbn [negb orb].
    assert (E : (len buf <? 6 + Z.lor (idx buf 4) (Z.shiftl (idx buf 5) 8))
                = true) by (apply Z.ltb_lt; lia).
    rewrite E. reflexivity.
Qed.

Lemma parseStatusResponse_framing_witness :
  parseStatusResponse [0x22; 0x21; 0xA1] NewCatPrinter
  = (Some (FrameTooShort 3), NewCatPrinter) /\
  parseStatusResponse [0x23; 0x21; 0xA1; 0; 1; 0; 0; 0; 0xFF] NewCatPrinter
  = (Some (BadPreamble 0x23 0x21), NewCatPrinter) /\
  parseStatusResponse overlongForeignFrame NewCatPrinter
  = (Some (UnexpectedResponse 0xAA), NewCatPrinter) /\
  parseStatusResponse [0x22; 0x21; 0xA1; 0; 4; 0; 0; 0; 0xFF] NewCatPrinter
  = (Some (LengthMismatch 9 10), NewCatPrinter).
Proof.
  split; [|split; [|split]].
  - apply (parseStatusResponse_framing [0x22; 0x21; 0xA1] NewCatPrinter).
    vm_compute. reflexivity.
  - apply (parseStatusResponse_framing
             [0x23; 0x21; 0xA1; 0; 1; 0; 0; 0; 0xFF] NewCatPrinter).
    + vm_compute. discriminate.
    + left. vm_compute. discriminate.
  - apply (parseStatusResponse_framing overlongForeignFrame NewCatPrinter).
    + vm_compute. discriminate.
    + reflexivity.
    + reflexivity.
    + vm_compute. discriminate.
  - apply (parseStatusResponse_framing
             [0x22; 0x21; 0xA1; 0; 4; 0; 0; 0; 0xFF] NewCatPrinter).
    + vm_compute. discriminate.
    + reflexivity.
    + reflexivity.
    + reflexivity.
    + vm_compute. reflexivity.
Defined.

(** C7, as stated, fails on a well-framed 9-byte buffer that carries the
    print-complete command id and declares 65535 payload bytes: the
    declared length exceeds the 3 bytes that follow the header, yet the
    error is UnexpectedResponse, not LengthMismatch. *)
Lemma overlong_foreign_frame_not_LengthMismatch :
  len overlongForeignFrame - 6
  < Z.lor (idx overlongForeignFrame 4)
          (Z.shiftl (idx overlongForeignFrame 5) 8) /\
  fst (parseStatusResponse overlongForeignFrame NewCatPrinter)
  = Some (UnexpectedResponse CmdPrintComplete) /\
  fst (parseStatusResponse overlongForeignFrame NewCatPrinter)
  <> Some (LengthMismatch 9 (6 + 65535)).
Proof. repeat split. discriminate. Qed.

(** ** Running the primitives *)

Lemma transport_run (W : World) (e : Event) (p : CatPrinter) :
  transport W e p = (fails W (clock p), afterTransport W e p).
Proof. reflexivity. Qed.

Lemma select_default_run (W : World) (p : CatPrinter) :
  select_default W p
  = (hd_error (deliver W (clock p) (notifications p)), afterSelect W p).
Proof.
  unfold select_default, bind, tick, afterSelect. cbn.
  destruct (deliver W (clock p) (notifications p)); reflexivity.
Qed.

Lemma select_timeout_run (W : World) (d : Z) (p : CatPrinter) :
  select_timeout W d p
  = (hd_error (deliver W (clock p) (notifications p)), afterSelect W p).
Proof.
  unfold select_timeout, bind, tick, afterSelect. cbn.
  destruct (deliver W (clock p) (notifications p)); reflexivity.
Qed.

Ltac case_ifs :=
  repeat match goal with
         | |- context [if ?c then _ else _] => destruct c
         end.

(** parseStatusResponse touches nothing but the stored status. *)
Lemma parseStatusResponse_frame (buf : bytes) (p : CatPrinter) :
  exists st, snd (parseStatusResponse buf p) = set_lastStatus st p.
Proof.
  unfold parseStatusResponse.
  case_ifs; cbn [snd];
    first [ eexists; reflexivity
          | exists (lastStatus p); destruct p; reflexivity ].
Qed.

Lemma UpdateStatus_run (W : World) (p : CatPrinter) :
  connected p = true ->
  UpdateStatus W p
  = let p2 := afterTransport W (EvControlWrite statusPacket)
                             (afterSelect W p) in
    if fails W (S (clock p)) then (Some (SendFailed CmdGetStatus), p2)
    else match hd_error (mailboxAtStatusWait W p) with
         | Some buf => parseStatusResponse buf (afterSelect W p2)
         | None => (Some StatusTimeout, afterSelect W p2)
         end.
Proof.
  intros Hc. unfold UpdateStatus. rewrite Hc. cbn [negb].
  unfold bind. rewrite select_default_run. cbn [fst snd].
  rewrite transport_run. cbn [fst snd].
  change (clock (afterSelect W p)) with (S (clock p)).
  destruct (fails W (S (clock p))); [reflexivity|].
  rewrite select_timeout_run. cbn [fst snd].
  match goal with
  | |- context [hd_error ?m] => change m with (mailboxAtStatusWait W p)
  end.
  destruct (hd_error (mailboxAtStatusWait W p)); reflexivity.
Qed.

Lemma UpdateStatus_trace (W : World) (p : CatPrinter) :
  connected p = true ->
  trace (snd (UpdateStatus W p)) = trace p ++ [EvControlWrite statusPacket].
Proof.
  intros Hc. rewrite (UpdateStatus_run W p Hc). cbv zeta.
  destruct (fails W (S (clock p))); [reflexivity|].
  destruct (hd_error (mailboxAtStatusWait W p)) as [buf|]; [|reflexivity].
  destruct (parseStatusResponse_frame buf
              (afterSelect W (afterTransport W (EvControlWrite statusPacket)
                                             (afterSelect W p)))) as [st E].
  rewrite E. reflexivity.
Qed.

Lemma parseStatusResponse_long (buf : bytes) (p : CatPrinter) :
  framedStatus buf -> 13 <= len buf ->
  parseStatusResponse buf p
  = (None,
     set_lastStatus
       (mkStatus true (idx buf 9) (idx buf 10) (idx buf 6) (idx buf 12)
          (if negb (idx buf 12 =? 0) && (len buf >? 13)
           then idx buf 13 else ErrorCode (lastStatus p))
          ("Battery: " ++ fmt_d (idx buf 9) ++ "%, Temp: "
           ++ fmt_d (idx buf 10) ++ degree ++ "C, Status: "
           ++ fmt_d (idx buf 6) ++ ", Error: " ++ fmt_d (idx buf 12))%string)
       p).
Proof.
  intros (H9 & H0 & H1 & H2 & Hl) H13. unfold parseStatusResponse.
  rewrite H0, H1, H2.
  replace (len buf <? 9) with false by (symmetry; apply Z.ltb_ge; lia).
  rewrite !Z.eqb_refl. cbn [negb orb].
  replace (len buf <? 6 + Z.lor (idx buf 4) (Z.shiftl (idx buf 5) 8))
    with false by (symmetry; apply Z.ltb_ge; lia).
  replace (len buf >=? 13) with true by (symmetry; apply Z.geb_le; lia).
  unfold storeStatus.
  replace (len buf >? 9) with true by (symmetry; apply Z.gtb_lt; lia).
  replace (len buf >? 10) with true by (symmetry; apply Z.gtb_lt; lia).
  replace (len buf >? 6) with true by (symmetry; apply Z.gtb_lt; lia).
  replace (len buf >? 12) with true by (symmetry; apply Z.gtb_lt; lia).
  cbv zeta.
  cbn [Connected Battery Temperature Status ErrorFlag ErrorCode StatusString
       set_Connected set_Battery set_Temperature set_Status set_ErrorFlag
       set_ErrorCode set_StatusString].
  destruct (negb (idx buf 12 =? 0) && (len buf >? 13)); reflexivity.
Qed.

Lemma parseStatusResponse_short (buf : bytes) (p : CatPrinter) :
  framedStatus buf -> len buf < 13 ->
  parseStatusResponse buf p = (Some (ShortStatusPayload (len buf)), p).
Proof.
  intros (H9 & H0 & H1 & H2 & Hl) H13. unfold parseStatusResponse.
  rewrite H0, H1, H2.
  replace (len buf <? 9) with false by (symmetry; apply Z.ltb_ge; lia).
  rewrite !Z.eqb_refl. cbn [negb orb].
  replace (len buf <? 6 + Z.lor (idx buf 4) (Z.shiftl (idx buf 5) 8))
    with false by (symmetry; apply Z.ltb_ge; lia).
  replace (len buf >=? 13) with false; [reflexivity|].
  symmetry. unfold Z.geb. destruct (len buf ?= 13) eqn:E; try reflexivity.
  - apply Z.compare_eq in E. lia.
  - apply Z.compare_gt_iff in E. lia.
Qed.

(** C1, as amended: on a connected session UpdateStatus always writes the
    status-query packet to the control channel.  When that write succeeds
    and the buffer it then receives is a framed status reply of at least 13
    bytes, it succeeds and the stored status becomes: connected, battery =
    byte 9, temperature = byte 10, state = byte 6, error flag = byte 12,
    the summary string formatted from these four, and error code = byte 13
    if the flag is nonzero and the reply has more than 13 bytes; otherwise
    the error code is the one stored before.  A framed reply shorter than 13
    bytes fails with ShortStatusPayload and leaves the stored status as it
    was. *)
Theorem UpdateStatus_parses_reply (W : World) (p : CatPrinter) :
  connected p = true ->
  trace (snd (UpdateStatus W p)) = trace p ++ [EvControlWrite statusPacket]
  /\
  forall (buf : bytes) (rest : list bytes),
    fails W (S (clock p)) = false ->
    mailboxAtStatusWait W p = buf :: rest ->
    framedStatus buf ->
    (13 <= len buf ->
     fst (UpdateStatus W p) = None /\
     lastStatus (snd (UpdateStatus W p))
     = mkStatus true (idx buf 9) (idx buf 10) (idx buf 6) (idx buf 12)
         (if negb (idx buf 12 =? 0) && (len buf >? 13)
          then idx buf 13 else ErrorCode (lastStatus p))
         ("Battery: " ++ fmt_d (idx buf 9) ++ "%, Temp: "
          ++ fmt_d (idx buf 10) ++ degree ++ "C, Status: "
          ++ fmt_d (idx buf 6) ++ ", Error: " ++ fmt_d (idx buf 12))%string)
    /\
    (len buf < 13 ->
     fst (UpdateStatus W p) = Some (ShortStatusPayload (len buf)) /\
     lastStatus (snd (UpdateStatus W p)) = lastStatus p).
Proof.
  intros Hc. split; [apply UpdateStatus_trace; exact Hc|].
  intros buf rest Hw Hm Hf.
  rewrite (UpdateStatus_run W p Hc). cbv zeta. rewrite Hw, Hm.
  cbn [hd_error]. split; intros Hlen.
  - rewrite (parseStatusResponse_long buf _ Hf Hlen). split; reflexivity.
  - rewrite (parseStatusResponse_short buf _ Hf Hlen). split; reflexivity.
Qed.

Lemma framedStatus_statusReply : framedStatus statusReply.
Proof.
  unfold framedStatus. repeat split; try reflexivity; vm_compute; discriminate.
Qed.

Lemma framedStatus_shortStatusReply : framedStatus shortStatusReply.
Proof.
  unfold framedStatus. repeat split; try reflexivity; vm_compute; discriminate.
Qed.

(** The 14-byte reply with battery 80, temperature 25, state 0 and error
    flag 0, and a framed 12-byte reply. *)
Lemma UpdateStatus_parses_reply_witness :
  connected connectedSession = true /\
  trace (snd (UpdateStatus statusReplyWorld connectedSession))
  = [EvControlWrite statusPacket] /\
  fst (UpdateStatus statusReplyWorld connectedSession) = None /\
  lastStatus (snd (UpdateStatus statusReplyWorld connectedSession))
  = mkStatus true 80 25 0 0 0
      ("Battery: 80%, Temp: 25" ++ degree ++ "C, Status: 0, Error: 0")%string
  /\
  fst (UpdateStatus (scriptedWorld [(2%nat, shortStatusReply)])
                    connectedSession)
  = Some (ShortStatusPayload 12).
Proof.
  split; [reflexivity|].
  destruct (UpdateStatus_parses_reply statusReplyWorld connectedSession
              eq_refl) as (Ht & Hp).
  destruct (Hp statusReply [] eq_refl eq_refl framedStatus_statusReply)
    as (Hlong & _).
  destruct Hlong as [Hr Hs]; [vm_compute; discriminate|].
  destruct (UpdateStatus_parses_reply
              (scriptedWorld [(2%nat, shortStatusReply)]) connectedSession
              eq_refl) as (_ & Hq).
  destruct (Hq shortStatusReply [] eq_refl eq_refl
               framedStatus_shortStatusReply) as (_ & Hshort).
  destruct Hshort as [Hr' _]; [vm_compute; reflexivity|].
  split; [rewrite Ht; reflexivity|].
  split; [exact Hr|].
  split; [rewrite Hs; vm_compute; reflexivity | rewrite Hr'; reflexivity].
Defined.

(** C1, as stated, fails in two ways.  The stored status is not replaced
    wholesale: two sessions that differ only in the error code they
    remember receive the same 14-byte reply (error flag 0) and end with
    different statuses, the old error code 7 surviving the refresh.  And a
    framed 13-byte reply with error flag 1 is accepted although it has no
    byte at offset 13: the stored error code stays what it was. *)
Lemma UpdateStatus_keeps_old_error_code :
  fst (UpdateStatus statusReplyWorld connectedSession) = None /\
  fst (UpdateStatus statusReplyWorld sessionWithOldErrorCode) = None /\
  ErrorCode (lastStatus (snd (UpdateStatus statusReplyWorld
                                           connectedSession))) = 0 /\
  ErrorCode (lastStatus (snd (UpdateStatus statusReplyWorld
                                           sessionWithOldErrorCode))) = 7 /\
  lastStatus (snd (UpdateStatus statusReplyWorld connectedSession))
  <> lastStatus (snd (UpdateStatus statusReplyWorld sessionWithOldErrorCode))
  /\ len shortErrorReply = 13 /\
  nth_error shortErrorReply 13 = None /\
  fst (UpdateStatus shortErrorReplyWorld sessionWithOldErrorCode) = None /\
  ErrorFlag (lastStatus (snd (UpdateStatus shortErrorReplyWorld
                                           sessionWithOldErrorCode))) = 1 /\
  ErrorCode (lastStatus (snd (UpdateStatus shortErrorReplyWorld
                                           sessionWithOldErrorCode))) = 7.
Proof.
  split; [vm_compute; reflexivity|].
  split; [vm_compute; reflexivity|].
  split; [vm_compute; reflexivity|].
  split; [vm_compute; reflexivity|].
  split; [vm_compute; discriminate|].
  repeat split; vm_compute; reflexivity.
Qed.
(** ** Encoded packets and the decoder of the source *)

(** What the reads of parseStatusResponse find in an encoded packet. *)
Lemma spec_encode_reads (cmd : Z) (payload : bytes) :
  len payload <= 65535 ->
  idx (spec_encode cmd payload) 0 = Preamble1 /\
  idx (spec_encode cmd payload) 1 = Preamble2 /\
  idx (spec_encode cmd payload) 2 = cmd /\
  Z.lor (idx (spec_encode cmd payload) 4)
        (Z.shiftl (idx (spec_encode cmd payload) 5) 8) = len payload /\
  firstn (List.length payload) (skipn 6 (spec_encode cmd payload)) = payload.
Proof.
  intros Hlen. pose proof (len_nonneg payload) as H0.
  unfold spec_encode. cbn [app idx nth skipn].
  split; [reflexivity|]. split; [reflexivity|]. split; [reflexivity|].
  split; [apply le16_join; lia|].
  rewrite firstn_app, firstn_all, Nat.sub_diag. cbn [firstn].
  apply app_nil_r.
Qed.

Lemma spec_encode_payload_byte (cmd : Z) (payload : bytes) (i : nat) :
  (i < List.length payload)%nat ->
  idx (spec_encode cmd payload) (6 + i) = idx payload i.
Proof.
  intros Hi. unfold spec_encode, idx. cbn [app Nat.add nth].
  apply app_nth1. exact Hi.
Qed.

Lemma framedStatus_spec_encode (payload : bytes) :
  1 <= len payload <= 65535 ->
  framedStatus (spec_encode CmdGetStatus payload).
Proof.
  intros Hlen.
  destruct (spec_encode_reads CmdGetStatus payload) as (E0 & E1 & E2 & E4 & _);
    [lia|].
  unfold framedStatus. rewrite E0, E1, E2, E4, len_spec_encode.
  repeat split; lia.
Qed.

(** C6, as amended: for every command id and every payload of 0 to 65535
    bytes the encoded packet is laid out as preamble 0x22 0x21, command
    id, reserved 0x00, little-endian 16-bit payload length, payload, CRC-8
    of the payload alone, footer 0xFF; the reads of the source's decoder
    find the command id at offset 2, the payload length at offsets 4-5
    and the payload from offset 6; and the four packets the source writes
    are instances.  But the decoder, parseStatusResponse, returns neither
    a payload nor a command id, and it accepts an encoded packet only if
    the command id is 0xA1 and the payload has at least 5 bytes, storing
    payload bytes 0, 3 and 4 as state, battery and temperature.  It
    refuses an encoded packet with an empty payload (FrameTooShort), with
    any other command id (UnexpectedResponse) and with command id 0xA1 and
    1 to 4 payload bytes (ShortStatusPayload), leaving the session as it
    was. *)
Theorem packet_roundtrip (cmd : Z) (payload : bytes) (p : CatPrinter) :
  len payload <= 65535 ->
  spec_encode cmd payload
  = [0x22; 0x21; cmd; 0x00; len payload mod 256; len payload / 256]
      ++ payload ++ [calculateCRC8 payload; 0xFF]
  /\ idx (spec_encode cmd payload) 2 = cmd
  /\ Z.lor (idx (spec_encode cmd payload) 4)
           (Z.shiftl (idx (spec_encode cmd payload) 5) 8) = len payload
  /\ firstn (List.length payload) (skipn 6 (spec_encode cmd payload))
     = payload
  /\ (len payload = 0 ->
      parseStatusResponse (spec_encode cmd payload) p
      = (Some (FrameTooShort 8), p))
  /\ (1 <= len payload -> cmd <> CmdGetStatus ->
      parseStatusResponse (spec_encode cmd payload) p
      = (Some (UnexpectedResponse cmd), p))
  /\ (1 <= len payload <= 4 -> cmd = CmdGetStatus ->
      parseStatusResponse (spec_encode cmd payload) p
      = (Some (ShortStatusPayload (8 + len payload)), p))
  /\ (5 <= len payload -> cmd = CmdGetStatus ->
      fst (parseStatusResponse (spec_encode cmd payload) p) = None /\
      Status (lastStatus (snd (parseStatusResponse
                                 (spec_encode cmd payload) p)))
      = idx payload 0 /\
      Battery (lastStatus (snd (parseStatusResponse
                                  (spec_encode cmd payload) p)))
      = idx payload 3 /\
      Temperature (lastStatus (snd (parseStatusResponse
                                      (spec_encode cmd payload) p)))
      = idx payload 4)
  /\ statusPacket = spec_encode CmdGetStatus [0x00]
  /\ intensityPacket 93 = spec_encode CmdSetIntensity [93]
  /\ printRequestPacket 10 = spec_encode CmdPrintRequest [10; 0; 0x30; 0x00]
  /\ flushPacket = spec_encode CmdFlushData [0x00].
Proof.
  intros Hlen. pose proof (len_nonneg payload) as H0.
  destruct (spec_encode_reads cmd payload Hlen) as (E0 & E1 & E2 & E4 & Ep).
  split.
  { unfold spec_encode. rewrite le16_low, le16_high by lia. reflexivity. }
  split; [exact E2|]. split; [exact E4|]. split; [exact Ep|].
  split.
  { intros Hz. unfold parseStatusResponse. rewrite len_spec_encode, Hz.
    reflexivity. }
  split.
  { intros H1 Hcmd. unfold parseStatusResponse.
    rewrite len_spec_encode, E0, E1, E2.
    replace (8 + len payload <? 9) with false
      by (symmetry; apply Z.ltb_ge; lia).
    rewrite !Z.eqb_refl. cbn [negb orb].
    replace (cmd =? CmdGetStatus) with false
      by (symmetry; apply Z.eqb_neq; exact Hcmd).
    reflexivity. }
  split.
  { intros H14 ->.
    rewrite parseStatusResponse_short.
    - rewrite len_spec_encode. reflexivity.
    - apply framedStatus_spec_encode. lia.
    - rewrite len_spec_encode. lia. }
  split.
  { intros H5 ->.
    assert (Hn : (5 <= List.length payload)%nat) by (unfold len in H5; lia).
    rewrite parseStatusResponse_long.
    - cbn [fst snd lastStatus set_lastStatus Status Battery Temperature].
      split; [reflexivity|].
      split; [apply (spec_encode_payload_byte CmdGetStatus payload 0); lia|].
      split; [apply (spec_encode_payload_byte CmdGetStatus payload 3); lia|].
      apply (spec_encode_payload_byte CmdGetStatus payload 4); lia.
    - apply framedStatus_spec_encode. lia.
    - rewrite len_spec_encode. lia. }
  repeat split.
Qed.

Lemma packet_roundtrip_witness :
  len [0; 0; 0; 80; 25; 0; 0; 0] <= 65535 /\
  spec_encode CmdGetStatus [0; 0; 0; 80; 25; 0; 0; 0]
  = [0x22; 0x21; 0xA1; 0x00; 0x08; 0x00; 0; 0; 0; 80; 25; 0; 0; 0;
     0x3B; 0xFF] /\
  fst (parseStatusResponse (spec_encode CmdGetStatus [0; 0; 0; 80; 25; 0; 0; 0])
                           connectedSession) = None /\
  Battery (lastStatus
             (snd (parseStatusResponse
                     (spec_encode CmdGetStatus [0; 0; 0; 80; 25; 0; 0; 0])
                     connectedSession))) = 80.
Proof.
  assert (H : len [0; 0; 0; 80; 25; 0; 0; 0] <= 65535)
    by (vm_compute; discriminate).
  split; [exact H|].
  destruct (packet_roundtrip CmdGetStatus [0; 0; 0; 80; 25; 0; 0; 0]
                             connectedSession H)
    as (_ & _ & _ & _ & _ & _ & _ & Hacc & _).
  destruct Hacc as (Hr & _ & Hb & _);
    [vm_compute; discriminate | reflexivity |].
  split; [vm_compute; reflexivity|]. split; [exact Hr | exact Hb].
Defined.

(** C6, as stated, fails on the code: the decoder of the source refuses
    each of the four packets the source itself encodes (the set-intensity,
    print-request and flush packets for their command id, the status query
    for its one-byte payload), and it refuses the encoding of an empty
    payload, which has 8 bytes. *)
Lemma encoded_packets_refused :
  intensityPacket 93 = spec_encode CmdSetIntensity [93] /\
  parseStatusResponse (spec_encode CmdSetIntensity [93]) connectedSession
  = (Some (UnexpectedResponse 0xA2), connectedSession) /\
  parseStatusResponse (printRequestPacket 10) connectedSession
  = (Some (UnexpectedResponse 0xA9), connectedSession) /\
  parseStatusResponse flushPacket connectedSession
  = (Some (UnexpectedResponse 0xAD), connectedSession) /\
  parseStatusResponse statusPacket connectedSession
  = (Some (ShortStatusPayload 9), connectedSession) /\
  len (spec_encode CmdGetStatus []) = 8 /\
  parseStatusResponse (spec_encode CmdGetStatus []) connectedSession
  = (Some (FrameTooShort 8), connectedSession).
Proof. repeat split. Qed.


(** ** Image transfer *)

Lemma firstn_skipn_add {A} (a b : nat) (l : list A) :
  firstn a l ++ firstn b (skipn a l) = firstn (a + b) l.
Proof.
  revert l. induction a as [|a IH]; intros l; [reflexivity|].
  destruct l as [|x l]; [destruct b; reflexivity|].
  cbn [firstn skipn Nat.add app]. rewrite IH. reflexivity.
Qed.

Lemma firstn_min_length {A} (n : nat) (l : list A) :
  firstn (Nat.min n (List.length l)) l = firstn n l.
Proof.
  destruct (Nat.le_ge_cases n (List.length l)) as [H|H].
  - rewrite Nat.min_l by exact H. reflexivity.
  - rewrite Nat.min_r by exact H.
    rewrite firstn_all, firstn_all2 by exact H. reflexivity.
Qed.

Lemma chunk_count_lt (n k : nat) : (k < (n + 19) / 20 <-> 20 * k < n)%nat.
Proof.
  pose proof (Nat.div_mod_eq (n + 19) 20) as E.
  pose proof (Nat.mod_upper_bound (n + 19) 20 ltac:(lia)) as B.
  lia.
Qed.

(** The slice the loop takes at offset [20 k] is chunk [k]. *)
Lemma loop_chunk (l : bytes) (k : nat) :
  (20 * k < List.length l)%nat ->
  slice l (Z.of_nat (20 * k))
        (if Z.of_nat (20 * k) + chunkSize >? len l
         then len l else Z.of_nat (20 * k) + chunkSize)
  = firstn 20 (skipn (20 * k) l).
Proof.
  intros Hk. unfold slice, chunkSize, len. rewrite Nat2Z.id.
  rewrite <- (firstn_min_length 20 (skipn (20 * k) l)), length_skipn.
  f_equal.
  destruct (Z.of_nat (20 * k) + 20 >? Z.of_nat (List.length l)) eqn:E.
  - apply Z.gtb_lt in E. lia.
  - assert (Z.of_nat (20 * k) + 20 <= Z.of_nat (List.length l)).
    { destruct (Z.le_gt_cases (Z.of_nat (20 * k) + 20)
                              (Z.of_nat (List.length l))) as [H|H];
        [exact H|].
      apply Z.gtb_lt in H. congruence. }
    lia.
Qed.

(** The chunk loop, for any fuel that covers the chunks still to send:
    it performs exactly the data writes of the remaining chunks. *)
Lemma sendChunks_run (W : World) (l : bytes) :
  forall (fuel k : nat) (p : CatPrinter),
    ((List.length l + 19) / 20 - k <= fuel)%nat ->
    sendChunks W fuel l (Z.of_nat (20 * k)) p
    = (tt, afterDataWrites W
             (map (fun j => firstn 20 (skipn (20 * j) l))
                  (seq k ((List.length l + 19) / 20 - k)))
             p).
Proof.
  induction fuel as [|fuel IH]; intros k p Hfuel.
  - replace ((List.length l + 19) / 20 - k)%nat with 0%nat by lia.
    reflexivity.
  - cbn [sendChunks].
    destruct (Z.of_nat (20 * k) <? len l) eqn:E.
    + apply Z.ltb_lt in E. unfold len in E.
      assert (Hk : (20 * k < List.length l)%nat) by lia.
      pose proof (proj2 (chunk_count_lt (List.length l) k) Hk) as Hn.
      rewrite (loop_chunk l k Hk).
      unfold bind at 1. rewrite transport_run. cbn [fst snd].
      replace (Z.of_nat (20 * k) + chunkSize) with (Z.of_nat (20 * S k))
        by (unfold chunkSize; lia).
      rewrite IH by lia.
      replace ((List.length l + 19) / 20 - k)%nat
        with (S ((List.length l + 19) / 20 - S k)) by lia.
      reflexivity.
    + apply Z.ltb_ge in E. unfold len in E.
      assert (Hk : ~ (20 * k < List.length l)%nat) by lia.
      assert (Hn : ~ (k < (List.length l + 19) / 20)%nat).
      { intros H. apply Hk. apply chunk_count_lt. exact H. }
      replace ((List.length l + 19) / 20 - k)%nat with 0%nat by lia.
      reflexivity.
Qed.

(** The length of the buffer is enough fuel: the loop of transferImageData
    leaves through its own test, after writing every chunk. *)
Lemma sendChunks_fuel (W : World) (l : bytes) (p : CatPrinter) :
  sendChunks W (List.length l) l 0 p = (tt, afterDataWrites W (chunks l) p).
Proof.
  change 0 with (Z.of_nat (20 * 0)).
  rewrite sendChunks_run.
  - rewrite Nat.sub_0_r. reflexivity.
  - pose proof (Nat.div_mod_eq (List.length l + 19) 20) as E.
    pose proof (Nat.mod_upper_bound (List.length l + 19) 20 ltac:(lia)).
    lia.
Qed.

Lemma afterDataWrites_fields (W : World) (cs : list bytes) (p : CatPrinter) :
  connected (afterDataWrites W cs p) = connected p /\
  lastStatus (afterDataWrites W cs p) = lastStatus p /\
  trace (afterDataWrites W cs p) = trace p ++ map EvDataWrite cs /\
  clock (afterDataWrites W cs p) = (clock p + List.length cs)%nat.
Proof.
  revert p. induction cs as [|c cs IH]; intros p.
  - cbn. rewrite app_nil_r, Nat.add_0_r. repeat split.
  - cbn [afterDataWrites fold_left].
    destruct (IH (afterTransport W (EvDataWrite c) p)) as (H1 & H2 & H3 & H4).
    unfold afterDataWrites in *. rewrite H1, H2, H3, H4.
    cbn [connected lastStatus trace clock afterTransport map List.length].
    rewrite <- app_assoc. repeat split. lia.
Qed.

Lemma dataWrites_app (t1 t2 : list Event) :
  dataWrites (t1 ++ t2) = dataWrites t1 ++ dataWrites t2.
Proof. unfold dataWrites. apply flat_map_app. Qed.

Lemma controlWrites_app (t1 t2 : list Event) :
  controlWrites (t1 ++ t2) = controlWrites t1 ++ controlWrites t2.
Proof. unfold controlWrites. apply flat_map_app. Qed.

Lemma dataWrites_data (cs : list bytes) :
  dataWrites (map EvDataWrite cs) = cs.
Proof.
  unfold dataWrites. induction cs as [|c cs IH]; [reflexivity|].
  cbn [map flat_map app]. rewrite IH. reflexivity.
Qed.

Lemma controlWrites_data (cs : list bytes) :
  controlWrites (map EvDataWrite cs) = [].
Proof.
  unfold controlWrites. induction cs as [|c cs IH]; [reflexivity|].
  cbn [map flat_map app]. exact IH.
Qed.

Lemma flushData_run (W : World) (p : CatPrinter) :
  connected p = true ->
  flushData W p
  = let p1 := afterTransport W (EvControlWrite flushPacket) p in
    if fails W (clock p) then (Some (SendFailed CmdFlushData), p1)
    else match hd_error (deliver W (S (clock p))
                                 (deliver W (clock p) (notifications p))) with
         | Some buf =>
             (if (len buf >=? 3) && (idx buf 2 =? CmdPrintComplete)
              then None else Some (UnexpectedCompletionResponse buf),
              afterSelect W p1)
         | None => (Some PrintCompletionTimeout, afterSelect W p1)
         end.
Proof.
  intros Hc. unfold flushData. rewrite Hc. cbn [negb].
  unfold bind. rewrite transport_run. cbn [fst snd].
  destruct (fails W (clock p)); [reflexivity|].
  rewrite select_timeout_run. cbn [fst snd].
  cbn [clock notifications afterTransport].
  destruct (hd_error _) as [buf|]; [|reflexivity].
  destruct ((len buf >=? 3) && (idx buf 2 =? CmdPrintComplete)); reflexivity.
Qed.

Lemma flushData_not_connected (W : World) (p : CatPrinter) :
  connected p = false -> flushData W p = (Some NotConnected, p).
Proof. intros Hc. unfold flushData. rewrite Hc. reflexivity. Qed.

(** flushData adds at most its own control write to the history. *)
Lemma flushData_trace (W : World) (p : CatPrinter) :
  trace (snd (flushData W p))
  = trace p ++ (if connected p then [EvControlWrite flushPacket] else []).
Proof.
  destruct (connected p) eqn:Hc.
  - rewrite (flushData_run W p Hc). cbv zeta.
    destruct (fails W (clock p)); [reflexivity|].
    destruct (hd_error _); reflexivity.
  - rewrite (flushData_not_connected W p Hc). cbn. rewrite app_nil_r.
    reflexivity.
Qed.

Lemma transferImageData_run (W : World) (img : bytes) (p : CatPrinter) :
  transferImageData W img p
  = (None, snd (flushData W (afterDataWrites W (chunks (pad img)) p))).
Proof.
  unfold transferImageData. cbv zeta. unfold bind at 1.
  rewrite sendChunks_fuel. cbn [fst snd]. reflexivity.
Qed.

Lemma transferImageData_dataWrites (W : World) (img : bytes) (p : CatPrinter) :
  dataWrites (trace (snd (transferImageData W img p)))
  = dataWrites (trace p) ++ chunks (pad img).
Proof.
  rewrite transferImageData_run. cbn [snd]. rewrite flushData_trace.
  destruct (afterDataWrites_fields W (chunks (pad img)) p)
    as (_ & _ & Ht & _).
  rewrite Ht, !dataWrites_app, dataWrites_data.
  destruct (connected _); cbn; rewrite app_nil_r; reflexivity.
Qed.

Lemma concat_chunks_prefix (l : bytes) (n : nat) :
  List.concat (map (fun k => firstn 20 (skipn (20 * k) l)) (seq 0 n))
  = firstn (20 * n) l.
Proof.
  induction n as [|n IH]; [reflexivity|].
  rewrite seq_S, map_app, concat_app, IH. cbn [Nat.add map List.concat].
  rewrite app_nil_r, firstn_skipn_add. f_equal. lia.
Qed.

Lemma concat_chunks (l : bytes) : List.concat (chunks l) = l.
Proof.
  unfold chunks. rewrite concat_chunks_prefix. apply firstn_all2.
  pose proof (Nat.div_mod_eq (List.length l + 19) 20) as E.
  pose proof (Nat.mod_upper_bound (List.length l + 19) 20 ltac:(lia)).
  lia.
Qed.

Lemma length_chunks (l : bytes) :
  List.length (chunks l) = ((List.length l + 19) / 20)%nat.
Proof. unfold chunks. rewrite length_map, length_seq. reflexivity. Qed.

Lemma chunks_sizes (l : bytes) :
  Forall (fun c => 1 <= len c <= 20) (chunks l).
Proof.
  unfold chunks. apply Forall_forall. intros c Hc.
  apply in_map_iff in Hc. destruct Hc as (k & <- & Hk).
  apply in_seq in Hk. destruct Hk as [_ Hk]. cbn [Nat.add] in Hk.
  apply chunk_count_lt in Hk.
  unfold len. rewrite length_firstn, length_skipn. lia.
Qed.

Lemma chunks_full (l : bytes) (n : nat) :
  List.length l = (20 * n)%nat ->
  Forall (fun c => len c = 20) (chunks l).
Proof.
  intros Hl. unfold chunks. apply Forall_forall. intros c Hc.
  apply in_map_iff in Hc. destruct Hc as (k & <- & Hk).
  apply in_seq in Hk. destruct Hk as [_ Hk]. cbn [Nat.add] in Hk.
  apply chunk_count_lt in Hk.
  unfold len. rewrite length_firstn, length_skipn. lia.
Qed.

Lemma pad_short (img : bytes) :
  len img < MinImageBytes ->
  pad img = img ++ repeat 0x00 (Z.to_nat (MinImageBytes - len img)) /\
  List.length (pad img) = 4320%nat.
Proof.
  intros H. unfold pad. apply Z.ltb_lt in H. rewrite H.
  split; [reflexivity|]. apply Z.ltb_lt in H.
  rewrite length_app, repeat_length. unfold MinImageBytes, len in *. lia.
Qed.

(** C9: an image shorter than 4320 bytes is right-padded with zero bytes
    to exactly 4320 bytes; the data channel then receives, in order and
    whatever the outcome of each write, the chunks of the padded buffer:
    216 chunks of exactly 20 bytes whose concatenation is the padded
    buffer. *)
Theorem transferImageData_pads_and_chunks
        (W : World) (img : bytes) (p : CatPrinter) :
  len img < MinImageBytes ->
  let padded := img ++ repeat 0x00 (Z.to_nat (MinImageBytes - len img)) in
  pad img = padded /\
  len padded = 4320 /\
  dataWrites (trace (snd (transferImageData W img p)))
  = dataWrites (trace p) ++ chunks padded /\
  List.concat (chunks padded) = padded /\
  List.length (chunks padded) = 216%nat /\
  Forall (fun c => len c = 20) (chunks padded).
Proof.
  intros Hlen padded.
  destruct (pad_short img Hlen) as [Hpad Hl].
  fold padded in Hpad. rewrite Hpad in Hl.
  split; [exact Hpad|]. split; [unfold len; rewrite Hl; reflexivity|].
  split; [rewrite <- Hpad; apply transferImageData_dataWrites|].
  split; [apply concat_chunks|].
  split; [rewrite length_chunks, Hl; reflexivity|].
  apply (chunks_full padded 216). exact Hl.
Qed.

Lemma transferImageData_pads_and_chunks_witness :
  len (testImage 48 10) = 480 /\
  len (pad (testImage 48 10)) = 4320 /\
  List.length
    (dataWrites
       (trace (snd (transferImageData quietWorld (testImage 48 10)
                                      connectedSession)))) = 216%nat.
Proof.
  split; [reflexivity|].
  destruct (transferImageData_pads_and_chunks
              quietWorld (testImage 48 10) connectedSession)
    as (Hpad & Hl & Hw & _ & Hn & _).
  - vm_compute. reflexivity.
  - split.
    + rewrite Hpad. exact Hl.
    + rewrite Hw. cbn [connectedSession trace
                       dataWrites flat_map app].
      exact Hn.
Defined.

(** ** Connection state *)

(** The three operations that test [connected] leave a disconnected
    session untouched. *)
Lemma not_connected_guards (W : World) (p : CatPrinter) (n : Z) :
  connected p = false ->
  UpdateStatus W p = (Some NotConnected, p) /\
  setIntensity W n p = (Some NotConnected, p) /\
  flushData W p = (Some NotConnected, p).
Proof.
  intros Hc. unfold UpdateStatus, setIntensity, flushData.
  rewrite Hc. repeat split.
Qed.

Lemma afterSelect_fields (W : World) (p : CatPrinter) :
  connected (afterSelect W p) = connected p /\
  lastStatus (afterSelect W p) = lastStatus p /\
  trace (afterSelect W p) = trace p.
Proof. repeat split. Qed.

Lemma UpdateStatus_connected (W : World) (p : CatPrinter) :
  connected (snd (UpdateStatus W p)) = connected p.
Proof.
  destruct (connected p) eqn:Hc.
  - rewrite (UpdateStatus_run W p Hc). cbv zeta.
    destruct (fails W (S (clock p))); [exact Hc|].
    destruct (hd_error (mailboxAtStatusWait W p)) as [buf|]; [|exact Hc].
    destruct (parseStatusResponse_frame buf
                (afterSelect W
                   (afterTransport W (EvControlWrite statusPacket)
                                   (afterSelect W p)))) as [st E].
    rewrite E. exact Hc.
  - destruct (not_connected_guards W p 0 Hc) as (E & _ & _).
    rewrite E. exact Hc.
Qed.

Lemma setIntensity_93_run (W : World) (p : CatPrinter) :
  connected p = true ->
  setIntensity W 93 p
  = (if fails W (clock p) then Some (SendFailed CmdSetIntensity) else None,
     afterTransport W (EvControlWrite (intensityPacket 93)) p).
Proof.
  intros Hc. unfold setIntensity. rewrite Hc. cbn [negb Z.ltb Z.gtb orb].
  change ((93 <? 0) || (93 >? 255)) with false. cbv iota.
  unfold bind. rewrite transport_run. cbn [fst snd].
  destruct (fails W (clock p)); reflexivity.
Qed.

(** The prelude of TestPrintCard: what it has written, and which status
    its checks read. *)
Lemma printPrelude_fields (W : World) (p : CatPrinter) :
  connected (printPrelude W p) = connected p /\
  lastStatus (printPrelude W p) = lastStatus (snd (UpdateStatus W p)) /\
  trace (printPrelude W p)
  = trace p ++ (if connected p
                then [EvControlWrite statusPacket;
                      EvControlWrite (intensityPacket 93)]
                else []).
Proof.
  unfold printPrelude, bind. cbn [fst snd].
  rewrite select_default_run. cbn [snd].
  pose proof (UpdateStatus_connected W p) as Hk.
  destruct (connected p) eqn:Hc.
  - rewrite (setIntensity_93_run W _ Hk). cbn [snd].
    cbn [afterSelect afterTransport connected lastStatus trace].
    rewrite (UpdateStatus_trace W p Hc), <- app_assoc.
    repeat split. exact Hk.
  - destruct (not_connected_guards W p 93 Hc) as (E1 & E2 & _).
    rewrite E1. cbn [snd]. rewrite E2. cbn [snd].
    cbn [afterSelect connected lastStatus trace].
    rewrite app_nil_r. repeat split. exact Hc.
Qed.

(** TestPrintCard is its prelude followed by [printFrom]. *)
Lemma TestPrintCard_run (W : World) (p : CatPrinter) :
  TestPrintCard W p = printFrom W testCard (printPrelude W p).
Proof.
  unfold TestPrintCard, printPrelude, testCard.
  cbv zeta. unfold bind. cbn [fst snd].
  generalize (testImage ImageWidthBytes 10). intros img.
  generalize (snd (select_default W
                     (snd (setIntensity W 93 (snd (UpdateStatus W p)))))).
  intros q. unfold printFrom, beforeFlush, afterPrintRequest,
              mailboxAfterWrite.
  destruct (negb (ErrorFlag (lastStatus q) =? 0)); [reflexivity|].
  destruct (negb (Status (lastStatus q) =? 0)); [reflexivity|].
  rewrite transport_run. cbn [fst snd].
  destruct (fails W (clock q)); [reflexivity|].
  rewrite select_timeout_run. cbn [fst snd].
  cbn [clock notifications afterTransport].
  destruct (hd_error _) as [buf|]; [|reflexivity].
  destruct (len buf >=? 7); [|reflexivity].
  destruct (idx buf 2 =? CmdPrintRequest); [|reflexivity].
  destruct (idx buf 6 =? 0); [|reflexivity].
  rewrite transferImageData_run. reflexivity.
Qed.

Lemma printFrom_error (W : World) (img : bytes) (q : CatPrinter) :
  ErrorFlag (lastStatus q) <> 0 ->
  printFrom W img q = (Some (PrinterError (ErrorFlag (lastStatus q))), q).
Proof.
  intros Hf. apply Z.eqb_neq in Hf. unfold printFrom. rewrite Hf.
  reflexivity.
Qed.

Lemma printFrom_busy (W : World) (img : bytes) (q : CatPrinter) :
  ErrorFlag (lastStatus q) = 0 -> Status (lastStatus q) <> 0 ->
  printFrom W img q = (Some PrinterBusy, q).
Proof.
  intros Hf Hb. apply Z.eqb_neq in Hb. unfold printFrom. rewrite Hf, Hb.
  reflexivity.
Qed.

Lemma printFrom_gated (W : World) (img : bytes) (q : CatPrinter) :
  ErrorFlag (lastStatus q) <> 0 \/ Status (lastStatus q) <> 0 ->
  snd (printFrom W img q) = q.
Proof.
  intros H. destruct (Z.eq_dec (ErrorFlag (lastStatus q)) 0) as [Hf|Hf].
  - destruct H as [H|H]; [contradiction|].
    rewrite (printFrom_busy W img q Hf H). reflexivity.
  - rewrite (printFrom_error W img q Hf). reflexivity.
Qed.

(** ** Printing *)

(** C5, as amended: TestPrintCard first refreshes the status and sets the
    intensity, which on a connected session writes the status-query and
    the set-intensity packet (and nothing on a disconnected one).  If the
    status stored after that refresh has a nonzero error flag, it fails
    with PrinterError carrying the value of the error flag; if the flag is
    zero and the state is nonzero, it fails with PrinterBusy.  In both
    cases it stops there: no print-request packet and no image data have
    been written. *)
Theorem TestPrintCard_gating (W : World) (p : CatPrinter) :
  (ErrorFlag (lastStatus (snd (UpdateStatus W p))) <> 0 ->
   fst (TestPrintCard W p)
   = Some (PrinterError (ErrorFlag (lastStatus (snd (UpdateStatus W p))))))
  /\
  (ErrorFlag (lastStatus (snd (UpdateStatus W p))) = 0 ->
   Status (lastStatus (snd (UpdateStatus W p))) <> 0 ->
   fst (TestPrintCard W p) = Some PrinterBusy)
  /\
  (ErrorFlag (lastStatus (snd (UpdateStatus W p))) <> 0 \/
   Status (lastStatus (snd (UpdateStatus W p))) <> 0 ->
   trace (snd (TestPrintCard W p))
   = trace p ++ (if connected p
                 then [EvControlWrite statusPacket;
                       EvControlWrite (intensityPacket 93)]
                 else [])).
Proof.
  destruct (printPrelude_fields W p) as (_ & Hs & Ht).
  rewrite TestPrintCard_run. rewrite <- Hs.
  split; [|split].
  - intros Hf. rewrite (printFrom_error W _ _ Hf). reflexivity.
  - intros Hf Hb. rewrite (printFrom_busy W _ _ Hf Hb). reflexivity.
  - intros H. rewrite (printFrom_gated W _ _ H). exact Ht.
Qed.

Lemma TestPrintCard_gating_witness :
  fst (TestPrintCard errorReplyWorld connectedSession)
  = Some (PrinterError 1) /\
  fst (TestPrintCard busyReplyWorld connectedSession) = Some PrinterBusy /\
  controlWrites (trace (snd (TestPrintCard busyReplyWorld connectedSession)))
  = [statusPacket; intensityPacket 93].
Proof.
  destruct (TestPrintCard_gating errorReplyWorld connectedSession)
    as (He & _ & _).
  destruct (TestPrintCard_gating busyReplyWorld connectedSession)
    as (_ & Hb & Ht).
  split; [|split].
  - rewrite He; [reflexivity | vm_compute; discriminate].
  - apply Hb; [reflexivity | vm_compute; discriminate].
  - rewrite Ht; [reflexivity | right; vm_compute; discriminate].
Defined.

(** C5, as stated, fails on a connected session whose printer answers the
    status query with error flag 1 and error code 7: the error carries the
    flag (1), not the code (7), and two packets (status query and set
    intensity) have been written when it is returned. *)
Lemma TestPrintCard_error_carries_flag_after_two_writes :
  ErrorFlag (lastStatus (snd (TestPrintCard errorReplyWorld
                                            connectedSession))) = 1 /\
  ErrorCode (lastStatus (snd (TestPrintCard errorReplyWorld
                                            connectedSession))) = 7 /\
  fst (TestPrintCard errorReplyWorld connectedSession)
  = Some (PrinterError 1) /\
  fst (TestPrintCard errorReplyWorld connectedSession)
  <> Some (PrinterError 7) /\
  controlWrites (trace (snd (TestPrintCard errorReplyWorld connectedSession)))
  = [statusPacket; intensityPacket 93] /\
  controlWrites (trace connectedSession) = [].
Proof.
  split; [vm_compute; reflexivity|].
  split; [vm_compute; reflexivity|].
  split; [vm_compute; reflexivity|].
  split; [vm_compute; discriminate|].
  split; vm_compute; reflexivity.
Qed.

Lemma beforeFlush_fields (W : World) (img : bytes) (q : CatPrinter) :
  connected (beforeFlush W img q) = connected q /\
  trace (beforeFlush W img q)
  = trace q
      ++ EvControlWrite (printRequestPacket 10)
      :: map EvDataWrite (chunks (pad img)).
Proof.
  unfold beforeFlush.
  destruct (afterDataWrites_fields W (chunks (pad img))
                                   (afterPrintRequest W q))
    as (Hc & _ & Ht & _).
  rewrite Hc, Ht. split; [reflexivity|].
  cbn [afterPrintRequest afterSelect afterTransport trace].
  rewrite <- app_assoc. reflexivity.
Qed.

(** Past its checks, TestPrintCard always writes the print request. *)
Lemma printFrom_writes_request (W : World) (img : bytes) (q : CatPrinter) :
  ErrorFlag (lastStatus q) = 0 ->
  Status (lastStatus q) = 0 ->
  exists r s suffix,
    printFrom W img q = (r, s) /\
    r <> Some NotConnected /\
    trace s = trace q ++ EvControlWrite (printRequestPacket 10) :: suffix.
Proof.
  intros Hf Hs. unfold printFrom. rewrite Hf, Hs.
  change (negb (0 =? 0)) with false. cbv iota.
  destruct (fails W (clock q)).
  { do 2 eexists. exists []. split; [reflexivity|].
    split; [discriminate | reflexivity]. }
  destruct (hd_error (mailboxAfterWrite W q)) as [buf|].
  2:{ do 2 eexists. exists []. split; [reflexivity|].
      split; [discriminate | reflexivity]. }
  destruct (len buf >=? 7).
  2:{ do 2 eexists. exists []. split; [reflexivity|].
      split; [discriminate | reflexivity]. }
  destruct (idx buf 2 =? CmdPrintRequest).
  2:{ do 2 eexists. exists []. split; [reflexivity|].
      split; [discriminate | reflexivity]. }
  destruct (idx buf 6 =? 0).
  2:{ do 2 eexists. exists []. split; [reflexivity|].
      split; [discriminate | reflexivity]. }
  do 3 eexists. split; [reflexivity|]. split; [discriminate|].
  rewrite flushData_trace.
  destruct (beforeFlush_fields W img q) as (_ & Ht). rewrite Ht.
  rewrite <- app_assoc. cbn [app]. reflexivity.
Qed.

(** C2 (code defect): TestPrintCard has no connection test of its own.  On
    the session NewCatPrinter returns, never connected, UpdateStatus and
    setIntensity refuse with NotConnected but their results are dropped;
    the checks pass on the zero status; and, whatever the environment
    does, the first thing written to the control channel is the
    print-request packet, and the error returned, if any, is not
    NotConnected. *)
Theorem TestPrintCard_not_connected_writes_request (W : World) :
  connected NewCatPrinter = false /\
  fst (TestPrintCard W NewCatPrinter) <> Some NotConnected /\
  exists suffix,
    trace (snd (TestPrintCard W NewCatPrinter))
    = EvControlWrite (printRequestPacket 10) :: suffix.
Proof.
  split; [reflexivity|].
  destruct (printPrelude_fields W NewCatPrinter) as (_ & Hs & Ht).
  destruct (not_connected_guards W NewCatPrinter 0 eq_refl) as (E & _ & _).
  rewrite E in Hs. cbn [snd] in Hs.
  rewrite TestPrintCard_run.
  destruct (printFrom_writes_request W testCard
                                     (printPrelude W NewCatPrinter))
    as (r & s & sfx & Hr & Hn & Hx).
  - rewrite Hs. reflexivity.
  - rewrite Hs. reflexivity.
  - rewrite Hr. cbn [fst snd]. split; [exact Hn|].
    exists sfx. rewrite Hx, Ht. reflexivity.
Qed.

(** C4 (code defect): the drain removes at most one buffer, and flushData
    does not drain at all.  In a world where the device sends nothing,
    UpdateStatus on a session holding two old notifications discards the
    first and parses the second, an old status reply, as the answer to the
    query it has just written; flushData on a session holding an old
    print-complete notification reports completion at once. *)
Theorem stale_notification_taken_as_reply :
  notifications twoStaleSession = [printComplete; busyReply] /\
  fst (UpdateStatus quietWorld twoStaleSession) = None /\
  Status (lastStatus (snd (UpdateStatus quietWorld twoStaleSession))) = 1 /\
  notifications (snd (UpdateStatus quietWorld twoStaleSession)) = [] /\
  trace (snd (UpdateStatus quietWorld twoStaleSession))
  = [EvControlWrite statusPacket] /\
  notifications staleCompletionSession = [printComplete] /\
  fst (flushData quietWorld staleCompletionSession) = None /\
  notifications (snd (flushData quietWorld staleCompletionSession)) = [] /\
  trace (snd (flushData quietWorld staleCompletionSession))
  = [EvControlWrite flushPacket].
Proof. repeat split; vm_compute; reflexivity. Qed.

(** ** Completion *)

Lemma printFrom_accepted (W : World) (img : bytes) (q : CatPrinter)
      (buf : bytes) (rest : list bytes) :
  ErrorFlag (lastStatus q) = 0 -> Status (lastStatus q) = 0 ->
  fails W (clock q) = false ->
  mailboxAfterWrite W q = buf :: rest ->
  7 <= len buf -> idx buf 2 = CmdPrintRequest -> idx buf 6 = 0 ->
  printFrom W img q = (None, snd (flushData W (beforeFlush W img q))).
Proof.
  intros Hf Hs Hw Hm H7 Hc H6. unfold printFrom.
  rewrite Hf, Hs, Hw, Hm. cbn [Z.eqb negb hd_error].
  replace (len buf >=? 7) with true by (symmetry; apply Z.geb_le; lia).
  rewrite Hc, H6. reflexivity.
Qed.

Lemma flushData_timeout (W : World) (q : CatPrinter) :
  connected q = true -> fails W (clock q) = false ->
  mailboxAfterWrite W q = [] ->
  fst (flushData W q) = Some PrintCompletionTimeout.
Proof.
  intros Hc Hw Hm. rewrite (flushData_run W q Hc). cbv zeta.
  unfold mailboxAfterWrite in Hm. rewrite Hw, Hm. reflexivity.
Qed.

Lemma flushData_unexpected (W : World) (q : CatPrinter)
      (reply : bytes) (others : list bytes) :
  connected q = true -> fails W (clock q) = false ->
  mailboxAfterWrite W q = reply :: others ->
  len reply < 3 \/ idx reply 2 <> CmdPrintComplete ->
  fst (flushData W q) = Some (UnexpectedCompletionResponse reply).
Proof.
  intros Hc Hw Hm Hbad. rewrite (flushData_run W q Hc). cbv zeta.
  unfold mailboxAfterWrite in Hm. rewrite Hw, Hm. cbn [hd_error fst].
  replace ((len reply >=? 3) && (idx reply 2 =? CmdPrintComplete))
    with false; [reflexivity|].
  symmetry. destruct Hbad as [Hl|Hn].
  - replace (len reply >=? 3) with false; [reflexivity|].
    symmetry. unfold Z.geb.
    destruct (len reply ?= 3) eqn:E; try reflexivity.
    + apply Z.compare_eq in E. lia.
    + apply Z.compare_gt_iff in E. lia.
  - apply Z.eqb_neq in Hn. rewrite Hn. apply andb_false_r.
Qed.

(** C3, as amended: flushData returns PrintCompletionTimeout when no
    notification arrives before its timeout, and
    UnexpectedCompletionResponse when the notification it receives is
    shorter than 3 bytes or carries another command id than
    print-complete.  transferImageData only logs what flushData returns:
    once the print request has been accepted, TestPrintCard returns
    success (nil) whatever the outcome of the flush exchange, the final
    session being the one flushData leaves. *)
Theorem TestPrintCard_ignores_flush_error
        (W : World) (p : CatPrinter) (buf : bytes) (rest : list bytes) :
  ErrorFlag (lastStatus (printPrelude W p)) = 0 ->
  Status (lastStatus (printPrelude W p)) = 0 ->
  fails W (clock (printPrelude W p)) = false ->
  mailboxAfterWrite W (printPrelude W p) = buf :: rest ->
  7 <= len buf -> idx buf 2 = CmdPrintRequest -> idx buf 6 = 0 ->
  TestPrintCard W p
  = (None, snd (flushData W (beforeFlush W testCard (printPrelude W p)))) /\
  (connected p = true ->
   fails W (clock (beforeFlush W testCard (printPrelude W p))) = false ->
   mailboxAfterWrite W (beforeFlush W testCard (printPrelude W p)) = [] ->
   fst (flushData W (beforeFlush W testCard (printPrelude W p)))
   = Some PrintCompletionTimeout) /\
  (forall reply others,
      connected p = true ->
      fails W (clock (beforeFlush W testCard (printPrelude W p))) = false ->
      mailboxAfterWrite W (beforeFlush W testCard (printPrelude W p))
      = reply :: others ->
      len reply < 3 \/ idx reply 2 <> CmdPrintComplete ->
      fst (flushData W (beforeFlush W testCard (printPrelude W p)))
      = Some (UnexpectedCompletionResponse reply)).
Proof.
  intros Hf Hs Hw Hm H7 Hc H6.
  destruct (printPrelude_fields W p) as (Hk & _ & _).
  destruct (beforeFlush_fields W testCard (printPrelude W p)) as (Hb & _).
  rewrite Hk in Hb.
  split; [|split].
  - rewrite TestPrintCard_run.
    apply (printFrom_accepted W _ _ buf rest Hf Hs Hw Hm H7 Hc H6).
  - intros Hp Hfl Hmb. apply flushData_timeout; try assumption.
    rewrite Hb. exact Hp.
  - intros reply others Hp Hfl Hmb Hbad.
    apply (flushData_unexpected W _ reply others); try assumption.
    rewrite Hb. exact Hp.
Qed.

Lemma TestPrintCard_ignores_flush_error_witness :
  fst (TestPrintCard acceptedNoCompletionWorld connectedSession) = None /\
  fst (flushData acceptedNoCompletionWorld
         (beforeFlush acceptedNoCompletionWorld testCard
            (printPrelude acceptedNoCompletionWorld connectedSession)))
  = Some PrintCompletionTimeout.
Proof.
  destruct (TestPrintCard_ignores_flush_error
              acceptedNoCompletionWorld connectedSession printAccepted [])
    as (Hr & Ht & _).
  - vm_compute. reflexivity.
  - vm_compute. reflexivity.
  - vm_compute. reflexivity.
  - vm_compute. reflexivity.
  - vm_compute. discriminate.
  - vm_compute. reflexivity.
  - vm_compute. reflexivity.
  - split.
    + rewrite Hr. reflexivity.
    + apply Ht; vm_compute; reflexivity.
Defined.

(** C3, as stated, fails when the device accepts the print request and
    then never sends print-complete: the flush exchange of that very run
    times out, and TestPrintCard returns success. *)
Lemma TestPrintCard_success_on_completion_timeout :
  flushData acceptedNoCompletionWorld
    (beforeFlush acceptedNoCompletionWorld testCard
       (printPrelude acceptedNoCompletionWorld connectedSession))
  = (Some PrintCompletionTimeout,
     snd (TestPrintCard acceptedNoCompletionWorld connectedSession)) /\
  fst (TestPrintCard acceptedNoCompletionWorld connectedSession) = None /\
  fst (TestPrintCard acceptedNoCompletionWorld connectedSession)
  <> Some PrintCompletionTimeout.
Proof.
  split; [vm_compute; reflexivity|].
  split; [vm_compute; reflexivity | vm_compute; discriminate].
Qed.

(** ** Connection life cycle *)

(** C10: Connect on a connected session and Disconnect on a disconnected
    session return success and leave the session exactly as it was: no
    scan, no call on the transport, no change of the stored status. *)
Theorem lifecycle_idempotent (W : World) (p : CatPrinter) :
  (connected p = true -> Connect W p = (None, p)) /\
  (connected p = false -> Disconnect W p = (None, p)).
Proof.
  split; intros Hc.
  - unfold Connect. rewrite Hc. reflexivity.
  - unfold Disconnect. rewrite Hc. reflexivity.
Qed.

Lemma lifecycle_idempotent_witness :
  Connect quietWorld connectedSession = (None, connectedSession) /\
  Disconnect quietWorld NewCatPrinter = (None, NewCatPrinter).
Proof.
  split.
  - apply (lifecycle_idempotent quietWorld connectedSession). reflexivity.
  - apply (lifecycle_idempotent quietWorld NewCatPrinter). reflexivity.
Defined.

(** On the other sessions the two operations do act: Connect on a fresh
    session scans, binds the characteristics and queries the status;
    Disconnect on a connected session calls the device. *)
Example Connect_fresh_session :
  fst (Connect quietWorld NewCatPrinter) = None /\
  connected (snd (Connect quietWorld NewCatPrinter)) = true /\
  trace (snd (Connect quietWorld NewCatPrinter))
  = [EvScan; EvConnect; EvDiscoverServices; EvDiscoverCharacteristics;
     EvEnableNotifications; EvControlWrite statusPacket].
Proof. repeat split; vm_compute; reflexivity. Qed.

Example Disconnect_connected_session :
  fst (Disconnect quietWorld connectedSession) = None /\
  connected (snd (Disconnect quietWorld connectedSession)) = false /\
  trace (snd (Disconnect quietWorld connectedSession)) = [EvDisconnect] /\
  StatusString (lastStatus (snd (Disconnect quietWorld connectedSession)))
  = "Disconnected"%string.
Proof. repeat split; vm_compute; reflexivity. Qed.

(** * Further properties *)

(** ** Checksum *)

Lemma lxor_byte (a b : Z) :
  0 <= a < 256 -> 0 <= b < 256 -> 0 <= Z.lxor a b < 256.
Proof.
  intros Ha Hb. split; [apply Z.lxor_nonneg; lia|].
  destruct (Z.eq_dec (Z.lxor a b) 0) as [->|Hnz]; [lia|].
  assert (Hpos : 0 < Z.lxor a b).
  { assert (0 <= Z.lxor a b) by (apply Z.lxor_nonneg; lia). lia. }
  apply (Z.log2_lt_pow2 _ 8 Hpos).
  eapply Z.le_lt_trans; [apply Z.log2_lxor; lia|].
  apply Z.max_lub_lt.
  - destruct (Z.eq_dec a 0) as [->|]; [simpl; lia|].
    apply Z.log2_lt_pow2; lia.
  - destruct (Z.eq_dec b 0) as [->|]; [simpl; lia|].
    apply Z.log2_lt_pow2; lia.
Qed.

Lemma crc_byte_rounds (r b : Z) : crc_byte r b = crc_rounds (Z.lxor r b).
Proof. reflexivity. Qed.

Lemma crc_rounds_range (x : Z) : 0 <= crc_rounds x < 256.
Proof. unfold crc_rounds. simpl. apply crc_round_range. Qed.

Lemma crc_rounds_linear_table :
  forallb (fun x =>
    forallb (fun y =>
      crc_rounds (Z.lxor x y) =? Z.lxor (crc_rounds x) (crc_rounds y))
            byte_values) byte_values = true.
Proof. vm_compute. reflexivity. Qed.

Lemma crc_rounds_linear (x y : Z) :
  0 <= x < 256 -> 0 <= y < 256 ->
  crc_rounds (Z.lxor x y) = Z.lxor (crc_rounds x) (crc_rounds y).
Proof.
  intros Hx Hy. pose proof crc_rounds_linear_table as T.
  rewrite forallb_forall in T.
  specialize (T x (byte_values_complete x Hx)).
  rewrite forallb_forall in T.
  specialize (T y (byte_values_complete y Hy)).
  apply Z.eqb_eq. exact T.
Qed.

Lemma crc_rounds_kernel_table :
  forallb (fun x => negb (crc_rounds x =? 0) || (x =? 0)) byte_values = true.
Proof. vm_compute. reflexivity. Qed.

Lemma crc_rounds_kernel (x : Z) :
  0 <= x < 256 -> crc_rounds x = 0 -> x = 0.
Proof.
  intros Hx H0. pose proof crc_rounds_kernel_table as T.
  rewrite forallb_forall in T.
  specialize (T x (byte_values_complete x Hx)).
  rewrite H0 in T. cbn in T. apply Z.eqb_eq. exact T.
Qed.

Lemma lxor_eq_0 (a b : Z) : Z.lxor a b = 0 -> a = b.
Proof. apply Z.lxor_eq. Qed.

Lemma crc_rounds_injective (x y : Z) :
  0 <= x < 256 -> 0 <= y < 256 -> crc_rounds x = crc_rounds y -> x = y.
Proof.
  intros Hx Hy E. apply lxor_eq_0.
  apply crc_rounds_kernel; [apply lxor_byte; assumption|].
  rewrite crc_rounds_linear by assumption. rewrite E. apply Z.lxor_nilpotent.
Qed.

Lemma fold_crc_zeros (n : nat) :
  fold_left crc_byte (repeat 0 n) 0 = 0.
Proof. induction n as [|n IH]; [reflexivity|]. cbn [repeat fold_left]. exact IH. Qed.

(** X1: the register starts at 0 and there is no final XOR, so zero bytes in
    front of a payload leave its checksum unchanged. *)
Theorem calculateCRC8_leading_zeros (n : nat) (data : bytes) :
  calculateCRC8 (repeat 0x00 n ++ data) = calculateCRC8 data.
Proof.
  unfold calculateCRC8. rewrite fold_left_app, fold_crc_zeros. reflexivity.
Qed.

Lemma fold_crc_linear (d1 : bytes) :
  forall (d2 : bytes) (r1 r2 : Z),
    Forall is_byte d1 -> Forall is_byte d2 ->
    List.length d1 = List.length d2 ->
    0 <= r1 < 256 -> 0 <= r2 < 256 ->
    fold_left crc_byte (xorBytes d1 d2) (Z.lxor r1 r2)
    = Z.lxor (fold_left crc_byte d1 r1) (fold_left crc_byte d2 r2).
Proof.
  induction d1 as [|a d1 IH]; intros d2 r1 r2 H1 H2 Hl Hr1 Hr2.
  - destruct d2; [reflexivity | discriminate].
  - destruct d2 as [|b d2]; [discriminate|].
    inversion H1 as [|? ? Ha H1']; subst.
    inversion H2 as [|? ? Hb H2']; subst.
    cbn [xorBytes combine map fold_left fst snd].
    fold (xorBytes d1 d2).
    rewrite !crc_byte_rounds.
    replace (Z.lxor (Z.lxor r1 r2) (Z.lxor a b))
      with (Z.lxor (Z.lxor r1 a) (Z.lxor r2 b)).
    2:{ rewrite !Z.lxor_assoc. f_equal.
        rewrite <- !Z.lxor_assoc. f_equal. apply Z.lxor_comm. }
    rewrite crc_rounds_linear by (apply lxor_byte; assumption).
    apply IH; try assumption; try apply crc_rounds_range.
    injection Hl as Hl. exact Hl.
Qed.

(** X2: on payloads of bytes of equal length the checksum is linear for
    XOR: the checksum of the byte-wise XOR is the XOR of the checksums. *)
Theorem calculateCRC8_xor (d1 d2 : bytes) :
  Forall is_byte d1 -> Forall is_byte d2 ->
  List.length d1 = List.length d2 ->
  calculateCRC8 (xorBytes d1 d2)
  = Z.lxor (calculateCRC8 d1) (calculateCRC8 d2).
Proof.
  intros H1 H2 Hl. unfold calculateCRC8.
  change 0x00 with (Z.lxor 0 0) at 1.
  apply fold_crc_linear; try assumption; lia.
Qed.

Ltac bytes_ok :=
  repeat constructor; vm_compute; first [reflexivity | discriminate].

Lemma calculateCRC8_xor_witness :
  calculateCRC8 (xorBytes [0x5D; 0x01] [0x0A; 0x30])
  = Z.lxor (calculateCRC8 [0x5D; 0x01]) (calculateCRC8 [0x0A; 0x30]).
Proof.
  apply calculateCRC8_xor.
  - bytes_ok.
  - bytes_ok.
  - reflexivity.
Defined.

Lemma fold_crc_injective (d : bytes) :
  forall r1 r2 : Z,
    Forall is_byte d -> 0 <= r1 < 256 -> 0 <= r2 < 256 ->
    fold_left crc_byte d r1 = fold_left crc_byte d r2 -> r1 = r2.
Proof.
  induction d as [|b d IH]; intros r1 r2 Hd Hr1 Hr2 E; [exact E|].
  inversion Hd as [|? ? Hb Hd']; subst.
  cbn [fold_left] in E.
  apply IH in E; try assumption; try apply crc_byte_range.
  rewrite !crc_byte_rounds in E.
  apply crc_rounds_injective in E; try (apply lxor_byte; assumption).
  apply (f_equal (fun z => Z.lxor z b)) in E.
  rewrite !Z.lxor_assoc, Z.lxor_nilpotent, !Z.lxor_0_r in E. exact E.
Qed.

(** X3: the checksum detects every change confined to one byte: two
    payloads of bytes that differ in exactly one position have different
    checksums. *)
Theorem calculateCRC8_detects_one_byte
        (before after : bytes) (a b : Z) :
  Forall is_byte before -> Forall is_byte after ->
  is_byte a -> is_byte b -> a <> b ->
  calculateCRC8 (before ++ a :: after)
  <> calculateCRC8 (before ++ b :: after).
Proof.
  intros Hpre Hpost Ha Hb Hab E. unfold calculateCRC8 in E.
  rewrite !fold_left_app in E. cbn [fold_left] in E.
  set (r := fold_left crc_byte before 0x00) in E.
  assert (Hr : 0 <= r < 256) by (apply fold_crc_range; lia).
  apply fold_crc_injective in E; try assumption;
    try apply crc_byte_range.
  rewrite !crc_byte_rounds in E.
  apply crc_rounds_injective in E; try (apply lxor_byte; assumption).
  apply Hab.
  apply (f_equal (fun z => Z.lxor r z)) in E.
  rewrite <- !Z.lxor_assoc, Z.lxor_nilpotent, !Z.lxor_0_l in E. exact E.
Qed.

Lemma calculateCRC8_detects_one_byte_witness :
  calculateCRC8 ([0x0A; 0x00] ++ 0x30 :: [0x00])
  <> calculateCRC8 ([0x0A; 0x00] ++ 0x31 :: [0x00]).
Proof.
  apply calculateCRC8_detects_one_byte.
  - bytes_ok.
  - bytes_ok.
  - bytes_ok.
  - bytes_ok.
  - discriminate.
Defined.

(** ** The notification channel *)

Lemma fold_onNotification_fits (arr : list bytes) :
  forall q : list bytes,
    (List.length q <= channelCapacity)%nat ->
    fold_left onNotification arr q
    = q ++ firstn (channelCapacity - List.length q) arr.
Proof.
  unfold channelCapacity.
  induction arr as [|b arr IH]; intros q Hq.
  - rewrite firstn_nil, app_nil_r. reflexivity.
  - cbn [fold_left]. unfold onNotification at 2. unfold channelCapacity.
    destruct (List.length q <? 10)%nat eqn:E.
    + apply Nat.ltb_lt in E.
      rewrite IH by (rewrite length_app; cbn; lia).
      rewrite length_app. cbn [List.length].
      replace (10 - List.length q)%nat
        with (S (10 - (List.length q + 1))) by lia.
      cbn [firstn]. rewrite <- app_assoc. reflexivity.
    + apply Nat.ltb_ge in E.
      rewrite IH by exact Hq.
      replace (10 - List.length q)%nat with 0%nat by lia.
      reflexivity.
Qed.

Lemma deliver_ok (W : World) (n : nat) (q : list bytes) :
  (List.length q <= channelCapacity)%nat ->
  (List.length (deliver W n q) <= channelCapacity)%nat.
Proof.
  intros Hq. unfold deliver. rewrite (fold_onNotification_fits _ q Hq).
  rewrite length_app, length_firstn. lia.
Qed.

(** X4: the channel is a FIFO of capacity 10 with drop-on-overflow: the
    notifications of a step are appended in order behind those already
    buffered, as many as fit; the others are dropped, and nothing already
    buffered is lost or reordered. *)
Theorem deliver_keeps_what_fits (W : World) (n : nat) (q : list bytes) :
  (List.length q <= channelCapacity)%nat ->
  deliver W n q
  = q ++ firstn (channelCapacity - List.length q) (arrivals W n)
  /\ (List.length (deliver W n q) <= channelCapacity)%nat.
Proof.
  intros Hq. unfold deliver. rewrite (fold_onNotification_fits _ q Hq).
  split; [reflexivity|].
  rewrite length_app, length_firstn. lia.
Qed.

Lemma deliver_keeps_what_fits_witness :
  notifications nearlyFullSession = repeat printAccepted 9 /\
  arrivals burstWorld 0 = [printComplete; statusReply] /\
  deliver burstWorld 0 (notifications nearlyFullSession)
  = repeat printAccepted 9 ++ [printComplete].
Proof.
  split; [reflexivity|]. split; [reflexivity|].
  destruct (deliver_keeps_what_fits burstWorld 0
              (notifications nearlyFullSession)) as [E _].
  - vm_compute. repeat constructor.
  - rewrite E. reflexivity.
Defined.


(** ** How the operations leave the session *)

Lemma evolves_refl (p : CatPrinter) : evolves p p.
Proof. unfold evolves, same_link. tauto. Qed.

Lemma evolves_trans (p q r : CatPrinter) :
  evolves p q -> evolves q r -> evolves p r.
Proof.
  unfold evolves, same_link.
  intros ((a1 & a2 & a3 & a4 & a5) & Ha) ((b1 & b2 & b3 & b4 & b5) & Hb).
  repeat split; try congruence. intros H. apply Hb, Ha, H.
Qed.

Lemma evolves_afterTransport (W : World) (e : Event) (p : CatPrinter) :
  evolves p (afterTransport W e p).
Proof.
  unfold evolves, same_link, mailbox_ok. cbn. repeat split.
  apply deliver_ok.
Qed.

Lemma evolves_afterTick (W : World) (p : CatPrinter) :
  evolves p (afterTick W p).
Proof.
  unfold evolves, same_link, mailbox_ok. cbn. repeat split.
  apply deliver_ok.
Qed.

Lemma evolves_afterSelect (W : World) (p : CatPrinter) :
  evolves p (afterSelect W p).
Proof.
  unfold evolves, same_link, mailbox_ok. cbn. repeat split.
  intros H. apply (deliver_ok W (clock p)) in H.
  destruct (deliver W (clock p) (notifications p)); cbn in *; lia.
Qed.

Lemma evolves_set_lastStatus (st : PrinterStatus) (p : CatPrinter) :
  evolves p (set_lastStatus st p).
Proof. unfold evolves, same_link, mailbox_ok. cbn. tauto. Qed.

Lemma evolves_log (e : Event) (p : CatPrinter) : evolves p (log e p).
Proof. unfold evolves, same_link, mailbox_ok. cbn. tauto. Qed.

Lemma evolves_parseStatusResponse (buf : bytes) (p : CatPrinter) :
  evolves p (snd (parseStatusResponse buf p)).
Proof.
  destruct (parseStatusResponse_frame buf p) as [st E]. rewrite E.
  apply evolves_set_lastStatus.
Qed.

Lemma evolves_UpdateStatus (W : World) (p : CatPrinter) :
  evolves p (snd (UpdateStatus W p)).
Proof.
  destruct (connected p) eqn:Hc.
  - rewrite (UpdateStatus_run W p Hc). cbv zeta.
    assert (H2 : evolves p (afterTransport W (EvControlWrite statusPacket)
                                           (afterSelect W p))).
    { eapply evolves_trans;
        [apply evolves_afterSelect | apply evolves_afterTransport]. }
    destruct (fails W (S (clock p))); [exact H2|].
    assert (H3 : evolves p
                   (afterSelect W
                      (afterTransport W (EvControlWrite statusPacket)
                                      (afterSelect W p)))).
    { eapply evolves_trans; [exact H2 | apply evolves_afterSelect]. }
    destruct (hd_error (mailboxAtStatusWait W p)) as [buf|]; [|exact H3].
    eapply evolves_trans; [exact H3 | apply evolves_parseStatusResponse].
  - destruct (not_connected_guards W p 0 Hc) as (E & _ & _).
    rewrite E. apply evolves_refl.
Qed.

Lemma setIntensity_run (W : World) (n : Z) (p : CatPrinter) :
  connected p = true ->
  setIntensity W n p
  = if (n <? 0) || (n >? 255) then (Some (OutOfRange n), p)
    else (if fails W (clock p) then Some (SendFailed CmdSetIntensity)
          else None,
          afterTransport W (EvControlWrite (intensityPacket n)) p).
Proof.
  intros Hc. unfold setIntensity. rewrite Hc. cbn [negb].
  destruct ((n <? 0) || (n >? 255)); [reflexivity|].
  unfold bind. rewrite transport_run. cbn [fst snd].
  destruct (fails W (clock p)); reflexivity.
Qed.

Lemma evolves_setIntensity (W : World) (n : Z) (p : CatPrinter) :
  evolves p (snd (setIntensity W n p)).
Proof.
  destruct (connected p) eqn:Hc.
  - rewrite (setIntensity_run W n p Hc).
    destruct ((n <? 0) || (n >? 255)); [apply evolves_refl|].
    apply evolves_afterTransport.
  - destruct (not_connected_guards W p n Hc) as (_ & E & _).
    rewrite E. apply evolves_refl.
Qed.

Lemma evolves_flushData (W : World) (p : CatPrinter) :
  evolves p (snd (flushData W p)).
Proof.
  destruct (connected p) eqn:Hc.
  - rewrite (flushData_run W p Hc). cbv zeta.
    destruct (fails W (clock p)); [apply evolves_afterTransport|].
    assert (H : evolves p (afterSelect W
                             (afterTransport W (EvControlWrite flushPacket)
                                             p))).
    { eapply evolves_trans;
        [apply evolves_afterTransport | apply evolves_afterSelect]. }
    destruct (hd_error _); exact H.
  - rewrite (flushData_not_connected W p Hc). apply evolves_refl.
Qed.

Lemma evolves_afterDataWrites (W : World) (cs : list bytes) :
  forall p, evolves p (afterDataWrites W cs p).
Proof.
  induction cs as [|c cs IH]; intros p; [apply evolves_refl|].
  cbn [afterDataWrites fold_left].
  eapply evolves_trans; [apply evolves_afterTransport | apply IH].
Qed.

Lemma evolves_transferImageData (W : World) (img : bytes) (p : CatPrinter) :
  evolves p (snd (transferImageData W img p)).
Proof.
  rewrite transferImageData_run. cbn [snd].
  eapply evolves_trans; [apply evolves_afterDataWrites | apply evolves_flushData].
Qed.

Lemma printPrelude_unfold (W : World) (p : CatPrinter) :
  printPrelude W p
  = afterSelect W (snd (setIntensity W 93 (snd (UpdateStatus W p)))).
Proof.
  unfold printPrelude, bind. cbn [fst snd].
  rewrite select_default_run. reflexivity.
Qed.

Lemma evolves_printPrelude (W : World) (p : CatPrinter) :
  evolves p (printPrelude W p).
Proof.
  rewrite printPrelude_unfold.
  eapply evolves_trans; [apply evolves_UpdateStatus|].
  eapply evolves_trans; [apply evolves_setIntensity|].
  apply evolves_afterSelect.
Qed.

Lemma evolves_afterPrintRequest (W : World) (q : CatPrinter) :
  evolves q (afterPrintRequest W q).
Proof.
  unfold afterPrintRequest.
  eapply evolves_trans; [apply evolves_afterTransport | apply evolves_afterSelect].
Qed.

Lemma evolves_printFrom (W : World) (img : bytes) (q : CatPrinter) :
  evolves q (snd (printFrom W img q)).
Proof.
  unfold printFrom.
  destruct (negb (ErrorFlag (lastStatus q) =? 0)); [apply evolves_refl|].
  destruct (negb (Status (lastStatus q) =? 0)); [apply evolves_refl|].
  destruct (fails W (clock q)); [apply evolves_afterTransport|].
  destruct (hd_error (mailboxAfterWrite W q)) as [buf|];
    [|apply evolves_afterPrintRequest].
  destruct (len buf >=? 7); [|apply evolves_afterPrintRequest].
  destruct (idx buf 2 =? CmdPrintRequest); [|apply evolves_afterPrintRequest].
  destruct (idx buf 6 =? 0); [|apply evolves_afterPrintRequest].
  cbn [snd]. unfold beforeFlush.
  eapply evolves_trans; [apply evolves_afterPrintRequest|].
  eapply evolves_trans; [apply evolves_afterDataWrites | apply evolves_flushData].
Qed.

Lemma evolves_TestPrintCard (W : World) (p : CatPrinter) :
  evolves p (snd (TestPrintCard W p)).
Proof.
  rewrite TestPrintCard_run.
  eapply evolves_trans; [apply evolves_printPrelude | apply evolves_printFrom].
Qed.

(** X5: the exchanges never change the connection: after UpdateStatus,
    setIntensity, flushData, transferImageData or TestPrintCard, whatever
    their result (time-outs and transport errors included), the connected
    flag, the device and the three characteristics are what they were. *)
Theorem exchanges_keep_link
        (W : World) (img : bytes) (n : Z) (p : CatPrinter) :
  same_link p (snd (UpdateStatus W p)) /\
  same_link p (snd (setIntensity W n p)) /\
  same_link p (snd (flushData W p)) /\
  same_link p (snd (transferImageData W img p)) /\
  same_link p (snd (TestPrintCard W p)).
Proof.
  split; [apply evolves_UpdateStatus|].
  split; [apply evolves_setIntensity|].
  split; [apply evolves_flushData|].
  split; [apply evolves_transferImageData | apply evolves_TestPrintCard].
Qed.

(** ** Connect and Disconnect on the sessions where they act *)

Lemma tick_run (W : World) (p : CatPrinter) :
  tick W p = (clock p, afterTick W p).
Proof. reflexivity. Qed.

(** The tests of lines 138 and 159 compare a UUID string with the empty
    string; no UUID string is empty. *)
Lemma uuidString_not_empty (bound : bool) :
  String.eqb (uuidString bound MainServiceUUID) "" = false /\
  String.eqb (uuidString bound ControlCharUUID) "" = false /\
  String.eqb (uuidString bound NotifyCharUUID) "" = false /\
  String.eqb (uuidString bound DataCharUUID) "" = false.
Proof. destruct bound; repeat split. Qed.

(** Connect on a disconnected session, step by step. *)
Lemma Connect_run (W : World) (p : CatPrinter) :
  connected p = false ->
  Connect W p
  = let p1 := afterTransport W EvScan p in
    let p2 := afterTick W p1 in
    if negb (scanFinds W (clock p1)) then (Some PrinterNotFound, p2)
    else
      let p3 := afterTransport W EvConnect p2 in
      if fails W (clock p2) then (Some NilDereference, p3)
      else
        let p4 := log EvDiscoverServices (afterTick W (set_device true p3)) in
        if negb (hasMainService W (clock (set_device true p3)))
        then (Some ZeroServicePanic, p4)
        else
          let p5 := bindChars W (clock p4)
                      (log EvDiscoverCharacteristics (afterTick W p4)) in
          let p6 := afterTransport W EvEnableNotifications p5 in
          if fails W (clock p5) then (Some EnableNotificationsFailed, p6)
          else (None, snd (UpdateStatus W (set_connected true p6))).
Proof.
  intros Hc. unfold Connect. rewrite Hc. cbv zeta.
  unfold bind, modify, ret, bindChars. cbn beta iota delta [fst snd].
  repeat (first [rewrite transport_run | rewrite tick_run];
          cbn beta iota delta [fst snd]).
  destruct (negb (scanFinds W _)); [reflexivity|].
  repeat (first [rewrite transport_run | rewrite tick_run];
          cbn beta iota delta [fst snd]).
  destruct (fails W _); [reflexivity|].
  repeat (first [rewrite transport_run | rewrite tick_run];
          cbn beta iota delta [fst snd]).
  rewrite (proj1 (uuidString_not_empty _)).
  destruct (negb (hasMainService W _)); [reflexivity|].
  repeat (first [rewrite transport_run | rewrite tick_run];
          cbn beta iota delta [fst snd]).
  destruct (hasChars W _) as [[c nt] d].
  match goal with
  | |- context [String.eqb (uuidString ?a ControlCharUUID) ""
                || String.eqb (uuidString ?b NotifyCharUUID) ""
                || String.eqb (uuidString ?d DataCharUUID) ""] =>
      rewrite (proj1 (proj2 (uuidString_not_empty a))),
              (proj1 (proj2 (proj2 (uuidString_not_empty b)))),
              (proj2 (proj2 (proj2 (uuidString_not_empty d))))
  end.
  cbn [orb].
  repeat (first [rewrite transport_run | rewrite tick_run];
          cbn beta iota delta [fst snd]).
  destruct (fails W _); reflexivity.
Qed.

Lemma Disconnect_run (W : World) (p : CatPrinter) :
  connected p = true ->
  Disconnect W p
  = (if fails W (clock p) then Some TransportError else None,
     set_lastStatus
       (set_StatusString "Disconnected"
          (set_Connected false (lastStatus p)))
       (set_connected false (afterTransport W EvDisconnect p))).
Proof.
  intros Hc. unfold Disconnect. rewrite Hc. cbn [negb].
  unfold bind, modify, ret. rewrite transport_run. cbn [fst snd].
  reflexivity.
Qed.

Lemma bindChars_fields (W : World) (n : nat) (q : CatPrinter) :
  connected (bindChars W n q) = connected q /\
  device (bindChars W n q) = device q /\
  notifications (bindChars W n q) = notifications q /\
  trace (bindChars W n q) = trace q /\
  lastStatus (bindChars W n q) = lastStatus q /\
  (controlChar q = true -> controlChar (bindChars W n q) = true) /\
  (notifyChar q = true -> notifyChar (bindChars W n q) = true) /\
  (dataChar q = true -> dataChar (bindChars W n q) = true).
Proof.
  unfold bindChars. destruct (hasChars W n) as [[c nt] d]. cbn.
  repeat split; intros ->; apply orb_true_r.
Qed.

Lemma bindChars_handles (W : World) (n : nat) (q : CatPrinter) :
  clock (bindChars W n q) = clock q /\
  controlChar (bindChars W n q) = fst (fst (hasChars W n)) || controlChar q /\
  notifyChar (bindChars W n q) = snd (fst (hasChars W n)) || notifyChar q /\
  dataChar (bindChars W n q) = snd (hasChars W n) || dataChar q.
Proof.
  unfold bindChars. destruct (hasChars W n) as [[c nt] d]. cbn.
  repeat split.
Qed.

Create HintDb mailbox.

Lemma mb_afterTransport (W : World) (e : Event) (p : CatPrinter) :
  mailbox_ok p -> mailbox_ok (afterTransport W e p).
Proof. apply evolves_afterTransport. Qed.

Lemma mb_afterTick (W : World) (p : CatPrinter) :
  mailbox_ok p -> mailbox_ok (afterTick W p).
Proof. apply evolves_afterTick. Qed.

Lemma mb_log (e : Event) (p : CatPrinter) :
  mailbox_ok p -> mailbox_ok (log e p).
Proof. intros H. exact H. Qed.

Lemma mb_set_device (b : bool) (p : CatPrinter) :
  mailbox_ok p -> mailbox_ok (set_device b p).
Proof. intros H. exact H. Qed.

Lemma mb_set_connected (b : bool) (p : CatPrinter) :
  mailbox_ok p -> mailbox_ok (set_connected b p).
Proof. intros H. exact H. Qed.

Lemma mb_set_lastStatus (st : PrinterStatus) (p : CatPrinter) :
  mailbox_ok p -> mailbox_ok (set_lastStatus st p).
Proof. intros H. exact H. Qed.

Lemma mb_bindChars (W : World) (n : nat) (p : CatPrinter) :
  mailbox_ok p -> mailbox_ok (bindChars W n p).
Proof.
  unfold mailbox_ok. destruct (bindChars_fields W n p) as (_ & _ & E & _).
  rewrite E. exact (fun H => H).
Qed.

Lemma mb_UpdateStatus (W : World) (p : CatPrinter) :
  mailbox_ok p -> mailbox_ok (snd (UpdateStatus W p)).
Proof. apply evolves_UpdateStatus. Qed.

#[local] Hint Resolve mb_afterTransport mb_afterTick mb_log mb_set_device
  mb_set_connected mb_set_lastStatus mb_bindChars mb_UpdateStatus : mailbox.

Lemma mb_Connect (W : World) (p : CatPrinter) :
  mailbox_ok p -> mailbox_ok (snd (Connect W p)).
Proof.
  intros H. destruct (connected p) eqn:Hc.
  - unfold Connect. rewrite Hc. exact H.
  - rewrite (Connect_run W p Hc). cbv zeta.
    repeat match goal with
           | |- context [if ?c then _ else _] => destruct c
           end; cbn [snd]; auto 20 with mailbox.
Qed.

Lemma mb_Disconnect (W : World) (p : CatPrinter) :
  mailbox_ok p -> mailbox_ok (snd (Disconnect W p)).
Proof.
  intros H. destruct (connected p) eqn:Hc.
  - rewrite (Disconnect_run W p Hc). cbn [snd]. auto 20 with mailbox.
  - unfold Disconnect. rewrite Hc. exact H.
Qed.

(** X6: the capacity bound of the notification channel is an invariant of
    the session: if the channel holds at most 10 buffers before Connect,
    Disconnect, UpdateStatus, setIntensity, flushData, transferImageData
    or TestPrintCard, it holds at most 10 after, whatever the device
    sends meanwhile. *)
Theorem mailbox_bound_invariant
        (W : World) (img : bytes) (n : Z) (p : CatPrinter) :
  mailbox_ok p ->
  mailbox_ok (snd (Connect W p)) /\
  mailbox_ok (snd (Disconnect W p)) /\
  mailbox_ok (snd (UpdateStatus W p)) /\
  mailbox_ok (snd (setIntensity W n p)) /\
  mailbox_ok (snd (flushData W p)) /\
  mailbox_ok (snd (transferImageData W img p)) /\
  mailbox_ok (snd (TestPrintCard W p)).
Proof.
  intros H.
  split; [apply mb_Connect; exact H|].
  split; [apply mb_Disconnect; exact H|].
  split; [apply evolves_UpdateStatus; exact H|].
  split; [apply evolves_setIntensity; exact H|].
  split; [apply evolves_flushData; exact H|].
  split; [apply evolves_transferImageData; exact H|].
  apply evolves_TestPrintCard; exact H.
Qed.

Lemma mailbox_bound_invariant_witness :
  mailbox_ok nearlyFullSession /\
  mailbox_ok (snd (UpdateStatus burstWorld nearlyFullSession)) /\
  mailbox_ok (snd (TestPrintCard burstWorld nearlyFullSession)).
Proof.
  assert (H : mailbox_ok nearlyFullSession)
    by (vm_compute; repeat constructor).
  destruct (mailbox_bound_invariant burstWorld [] 0 nearlyFullSession H)
    as (_ & _ & Hu & _ & _ & _ & Ht).
  split; [exact H|]. split; [exact Hu | exact Ht].
Defined.

(** The result of Connect on a disconnected session is decided by four
    answers of the environment. *)
Lemma Connect_result (W : World) (p : CatPrinter) :
  connected p = false ->
  fst (Connect W p)
  = if negb (scanFinds W (1 + clock p)) then Some PrinterNotFound
    else if fails W (2 + clock p) then Some NilDereference
    else if negb (hasMainService W (3 + clock p)) then Some ZeroServicePanic
    else if fails W (5 + clock p) then Some EnableNotificationsFailed
    else None.
Proof.
  intros Hc. rewrite (Connect_run W p Hc). cbv zeta.
  match goal with
  | |- context [bindChars W ?n ?q] =>
      rewrite (proj1 (bindChars_handles W n q))
  end.
  cbn [clock afterTransport afterTick set_device log Nat.add].
  repeat match goal with
         | |- context [if ?c then _ else _] => destruct c
         end; reflexivity.
Qed.

(** The states Connect goes through before it sets the flag. *)
Lemma Connect_failure_states (W : World) (p : CatPrinter) :
  connected p = false ->
  fst (Connect W p) <> None ->
  connected (snd (Connect W p)) = false /\
  controlWrites (trace (snd (Connect W p))) = controlWrites (trace p).
Proof.
  intros Hc. rewrite (Connect_run W p Hc). cbv zeta.
  match goal with
  | |- context [bindChars W ?n ?q] =>
      destruct (bindChars_fields W n q) as (E1 & _ & _ & E4 & _);
      remember (bindChars W n q) as p5 eqn:E5
  end.
  repeat match goal with
         | |- context [if ?c then _ else _] => destruct c
         end; cbn [fst snd]; intros Hne; try (exfalso; apply Hne; reflexivity).
  - split; [exact Hc|]. cbn. rewrite controlWrites_app, app_nil_r.
    reflexivity.
  - split; [exact Hc|]. cbn. rewrite !controlWrites_app, !app_nil_r.
    reflexivity.
  - split; [exact Hc|]. cbn. rewrite !controlWrites_app, !app_nil_r.
    reflexivity.
  - cbn [afterTransport connected trace].
    rewrite E1, E4. split; [exact Hc|]. cbn.
    rewrite !controlWrites_app, !app_nil_r. reflexivity.
Qed.

Lemma Connect_success_state (W : World) (p : CatPrinter) :
  connected p = false ->
  fst (Connect W p) = None ->
  exists p6,
    snd (Connect W p) = snd (UpdateStatus W (set_connected true p6)) /\
    device p6 = true /\
    controlChar p6
    = fst (fst (hasChars W (4 + clock p))) || controlChar p /\
    notifyChar p6 = snd (fst (hasChars W (4 + clock p))) || notifyChar p /\
    dataChar p6 = snd (hasChars W (4 + clock p)) || dataChar p /\
    trace p6 = trace p ++ [EvScan; EvConnect; EvDiscoverServices;
                           EvDiscoverCharacteristics;
                           EvEnableNotifications].
Proof.
  intros Hc. rewrite (Connect_run W p Hc). cbv zeta.
  destruct (negb (scanFinds W _)); [discriminate|].
  destruct (fails W _); [discriminate|].
  destruct (negb (hasMainService W _)); [discriminate|].
  match goal with
  | |- context [bindChars W ?n ?q] =>
      pose proof (bindChars_fields W n q) as (_ & Ed & _ & Et & _);
      pose proof (bindChars_handles W n q) as (_ & Hcc & Hn & Hdd);
      remember (bindChars W n q) as p5 eqn:E5
  end.
  destruct (fails W (clock p5)); [discriminate|].
  intros _. cbn [snd].
  exists (afterTransport W EvEnableNotifications p5).
  cbn [afterTransport device controlChar notifyChar dataChar trace].
  rewrite Ed, Et, Hcc, Hn, Hdd.
  cbn [log afterTick set_device afterTransport device controlChar notifyChar
       dataChar trace clock Nat.add].
  repeat split.
  rewrite <- !app_assoc. reflexivity.
Qed.

(** X7: on a disconnected session Connect leaves early, in this order:
    with "printer not found" when the scan does not find the printer; by
    dereferencing the nil device when adapter.Connect fails; by calling
    DiscoverCharacteristics on the zero value of the service when the
    device does not have the main service.  When the control and the
    notify characteristic are bound once discovery is through (reported
    by it, or bound before), the result of Connect is decided by four
    answers of the environment: scan, adapter.Connect, main service,
    EnableNotifications.  Connect returns nil exactly when all four are
    favourable.  It then leaves the session connected with the device
    bound, after scanning, connecting, discovering services and
    characteristics, enabling the notifications and writing one status
    query, in that order, whatever that query yields.  A failed Connect
    leaves the session disconnected and has written nothing to the control
    channel. *)
Theorem Connect_outcome (W : World) (p : CatPrinter) :
  connected p = false ->
  (scanFinds W (1 + clock p) = false ->
   fst (Connect W p) = Some PrinterNotFound) /\
  (scanFinds W (1 + clock p) = true -> fails W (2 + clock p) = true ->
   fst (Connect W p) = Some NilDereference) /\
  (scanFinds W (1 + clock p) = true -> fails W (2 + clock p) = false ->
   hasMainService W (3 + clock p) = false ->
   fst (Connect W p) = Some ZeroServicePanic) /\
  (fst (fst (hasChars W (4 + clock p))) || controlChar p = true ->
   snd (fst (hasChars W (4 + clock p))) || notifyChar p = true ->
   fst (Connect W p)
   = (if negb (scanFinds W (1 + clock p)) then Some PrinterNotFound
      else if fails W (2 + clock p) then Some NilDereference
      else if negb (hasMainService W (3 + clock p))
      then Some ZeroServicePanic
      else if fails W (5 + clock p) then Some EnableNotificationsFailed
      else None) /\
   (fst (Connect W p) = None <->
    scanFinds W (1 + clock p) = true /\ fails W (2 + clock p) = false /\
    hasMainService W (3 + clock p) = true /\
    fails W (5 + clock p) = false) /\
   (fst (Connect W p) = None ->
    connected (snd (Connect W p)) = true /\
    device (snd (Connect W p)) = true /\
    controlChar (snd (Connect W p)) = true /\
    notifyChar (snd (Connect W p)) = true /\
    trace (snd (Connect W p))
    = trace p ++ [EvScan; EvConnect; EvDiscoverServices;
                  EvDiscoverCharacteristics; EvEnableNotifications;
                  EvControlWrite statusPacket])) /\
  (fst (Connect W p) <> None ->
   connected (snd (Connect W p)) = false /\
   controlWrites (trace (snd (Connect W p))) = controlWrites (trace p)).
Proof.
  intros Hc. pose proof (Connect_result W p Hc) as Hr.
  split; [intros H1; rewrite Hr, H1; reflexivity|].
  split; [intros H1 H2; rewrite Hr, H1, H2; reflexivity|].
  split; [intros H1 H2 H3; rewrite Hr, H1, H2, H3; reflexivity|].
  split; [|apply Connect_failure_states; exact Hc].
  intros Hcc Hn.
  split; [exact Hr|].
  split.
  { rewrite Hr.
    destruct (scanFinds W (1 + clock p)), (fails W (2 + clock p)),
      (hasMainService W (3 + clock p)), (fails W (5 + clock p));
      cbn [negb]; split;
      first [ discriminate
            | intros (? & ? & ? & ?); discriminate
            | intros _; repeat split
            | reflexivity ]. }
  intros Hok.
  destruct (Connect_success_state W p Hc Hok)
    as (p6 & E & Hd & Hcc' & Hn' & _ & Ht).
  rewrite E.
  destruct (evolves_UpdateStatus W (set_connected true p6))
    as ((L1 & L2 & L3 & L4 & _) & _).
  rewrite L1, L2, L3, L4.
  rewrite UpdateStatus_trace by reflexivity.
  cbn [set_connected connected device controlChar notifyChar trace].
  rewrite Ht, <- app_assoc, Hcc', Hn'. repeat split; assumption.
Qed.

Lemma Connect_outcome_witness :
  connected NewCatPrinter = false /\
  fst (Connect quietWorld NewCatPrinter) = None /\
  connected (snd (Connect quietWorld NewCatPrinter)) = true /\
  fst (Connect noServiceWorld NewCatPrinter) = Some ZeroServicePanic /\
  connected (snd (Connect noServiceWorld NewCatPrinter)) = false.
Proof.
  split; [reflexivity|].
  destruct (Connect_outcome quietWorld NewCatPrinter eq_refl)
    as (_ & _ & _ & Hb & _).
  destruct (Hb eq_refl eq_refl) as (Hr & _ & Hs).
  destruct (Connect_outcome noServiceWorld NewCatPrinter eq_refl)
    as (_ & _ & Hp & _ & Hf).
  pose proof (Hp eq_refl eq_refl eq_refl) as Hr'.
  split; [exact Hr|].
  split; [exact (proj1 (Hs Hr))|].
  split; [exact Hr'|].
  apply Hf. rewrite Hr'. discriminate.
Defined.

(** X8: Connect does not require the data characteristic.  It never fails
    with "main service not found" or "not all required characteristics
    found": the tests of lines 138 and 159 compare a UUID string with the
    empty string.  A successful Connect on a disconnected session, with
    the control and the notify characteristic bound once discovery is
    through, binds the data characteristic only if discovery reports it
    and leaves it as it was otherwise: a data characteristic that the
    device does not have stays unbound on a session that Connect reports
    connected. *)
Theorem Connect_binds_reported_characteristics (W : World) (p : CatPrinter) :
  fst (Connect W p) <> Some MainServiceNotFound /\
  fst (Connect W p) <> Some CharacteristicsNotFound /\
  (connected p = false ->
   fst (fst (hasChars W (4 + clock p))) || controlChar p = true ->
   snd (fst (hasChars W (4 + clock p))) || notifyChar p = true ->
   fst (Connect W p) = None ->
   connected (snd (Connect W p)) = true /\
   controlChar (snd (Connect W p)) = true /\
   notifyChar (snd (Connect W p)) = true /\
   dataChar (snd (Connect W p))
   = snd (hasChars W (4 + clock p)) || dataChar p).
Proof.
  assert (Hne : forall e,
             e = MainServiceNotFound \/ e = CharacteristicsNotFound ->
             fst (Connect W p) <> Some e).
  { intros e He. destruct (connected p) eqn:Hc.
    - unfold Connect. rewrite Hc. discriminate.
    - rewrite (Connect_result W p Hc).
      repeat match goal with
             | |- context [if ?c then _ else _] => destruct c
             end; destruct He as [-> | ->]; discriminate. }
  split; [apply Hne; left; reflexivity|].
  split; [apply Hne; right; reflexivity|].
  intros Hc Hcc' Hn' Hok.
  destruct (Connect_success_state W p Hc Hok)
    as (p6 & E & _ & Hcc & Hn & Hdd & _).
  rewrite E.
  destruct (evolves_UpdateStatus W (set_connected true p6))
    as ((L1 & _ & L3 & L4 & L5) & _).
  rewrite L1, L3, L4, L5.
  cbn [set_connected connected controlChar notifyChar dataChar].
  rewrite Hcc, Hn, Hcc', Hn'. repeat split. exact Hdd.
Qed.

Lemma Connect_binds_reported_characteristics_witness :
  connected NewCatPrinter = false /\
  hasChars noDataCharWorld 4 = (true, true, false) /\
  fst (Connect noDataCharWorld NewCatPrinter) = None /\
  connected (snd (Connect noDataCharWorld NewCatPrinter)) = true /\
  dataChar (snd (Connect noDataCharWorld NewCatPrinter)) = false.
Proof.
  assert (Hok : fst (Connect noDataCharWorld NewCatPrinter) = None)
    by (vm_compute; reflexivity).
  destruct (Connect_binds_reported_characteristics noDataCharWorld
              NewCatPrinter) as (_ & _ & H).
  destruct (H eq_refl eq_refl eq_refl Hok) as (Hc & _ & _ & Hd).
  split; [reflexivity|]. split; [reflexivity|].
  split; [exact Hok|]. split; [exact Hc | exact Hd].
Defined.

(** X9: Disconnect on a connected session always ends disconnected, also
    when the device reports an error (which is what it returns): it calls
    the device once, clears the stored connectivity flag and sets the
    summary to "Disconnected", keeping the other status fields; from then
    on UpdateStatus, setIntensity and flushData refuse with NotConnected
    and leave the session untouched. *)
Theorem Disconnect_connected (W : World) (p : CatPrinter) :
  connected p = true ->
  fst (Disconnect W p)
  = (if fails W (clock p) then Some TransportError else None) /\
  connected (snd (Disconnect W p)) = false /\
  trace (snd (Disconnect W p)) = trace p ++ [EvDisconnect] /\
  lastStatus (snd (Disconnect W p))
  = mkStatus false (Battery (lastStatus p)) (Temperature (lastStatus p))
             (Status (lastStatus p)) (ErrorFlag (lastStatus p))
             (ErrorCode (lastStatus p)) "Disconnected" /\
  forall (W' : World) (n : Z),
    UpdateStatus W' (snd (Disconnect W p))
    = (Some NotConnected, snd (Disconnect W p)) /\
    setIntensity W' n (snd (Disconnect W p))
    = (Some NotConnected, snd (Disconnect W p)) /\
    flushData W' (snd (Disconnect W p))
    = (Some NotConnected, snd (Disconnect W p)).
Proof.
  intros Hc. rewrite (Disconnect_run W p Hc). cbn [fst snd].
  split; [reflexivity|]. split; [reflexivity|]. split; [reflexivity|].
  split; [reflexivity|].
  intros W' n. apply not_connected_guards. reflexivity.
Qed.

Lemma Disconnect_connected_witness :
  connected connectedSession = true /\
  connected (snd (Disconnect quietWorld connectedSession)) = false /\
  fst (UpdateStatus quietWorld (snd (Disconnect quietWorld connectedSession)))
  = Some NotConnected.
Proof.
  split; [reflexivity|].
  destruct (Disconnect_connected quietWorld connectedSession eq_refl)
    as (_ & Hc & _ & _ & Hn).
  split; [exact Hc|].
  destruct (Hn quietWorld 0) as (E & _). rewrite E. reflexivity.
Defined.

Lemma device_of_link (p q : CatPrinter) :
  same_link p q -> device_ok p -> device_ok q.
Proof.
  unfold same_link, device_ok.
  intros (L1 & L2 & _) H Hc.
  rewrite L1 in Hc. rewrite L2. apply H, Hc.
Qed.

(** X10: a connected session always has its device, so that Disconnect
    never calls a device that was not assigned: this holds for the session
    NewCatPrinter returns and is kept by Connect, Disconnect,
    UpdateStatus, setIntensity, flushData, transferImageData and
    TestPrintCard.  (The three characteristics have no such invariant.) *)
Theorem device_invariant
        (W : World) (img : bytes) (n : Z) (p : CatPrinter) :
  device_ok p ->
  device_ok NewCatPrinter /\
  device_ok (snd (Connect W p)) /\
  device_ok (snd (Disconnect W p)) /\
  device_ok (snd (UpdateStatus W p)) /\
  device_ok (snd (setIntensity W n p)) /\
  device_ok (snd (flushData W p)) /\
  device_ok (snd (transferImageData W img p)) /\
  device_ok (snd (TestPrintCard W p)).
Proof.
  intros H.
  split; [intros Hc; discriminate Hc|].
  split.
  { destruct (connected p) eqn:Hc.
    - unfold Connect. rewrite Hc. exact H.
    - destruct (fst (Connect W p)) as [e|] eqn:Er.
      + intros Hk.
        destruct (Connect_failure_states W p Hc) as (Hf & _).
        * rewrite Er. discriminate.
        * rewrite Hf in Hk. discriminate.
      + intros _.
        destruct (Connect_success_state W p Hc Er)
          as (p6 & E & Hd & _).
        rewrite E.
        destruct (evolves_UpdateStatus W (set_connected true p6))
          as ((_ & L2 & _) & _).
        rewrite L2. exact Hd. }
  split.
  { destruct (connected p) eqn:Hc.
    - rewrite (Disconnect_run W p Hc). intros Hk. discriminate Hk.
    - unfold Disconnect. rewrite Hc. exact H. }
  split; [apply (device_of_link p); [apply evolves_UpdateStatus|exact H]|].
  split; [apply (device_of_link p); [apply evolves_setIntensity|exact H]|].
  split; [apply (device_of_link p); [apply evolves_flushData|exact H]|].
  split; [apply (device_of_link p);
          [apply evolves_transferImageData|exact H]|].
  apply (device_of_link p); [apply evolves_TestPrintCard|exact H].
Qed.

Lemma device_invariant_witness :
  device_ok NewCatPrinter /\
  device_ok (snd (Connect noDataCharWorld NewCatPrinter)) /\
  device (snd (Connect noDataCharWorld NewCatPrinter)) = true.
Proof.
  assert (H : device_ok NewCatPrinter) by (intros Hc; discriminate Hc).
  destruct (device_invariant noDataCharWorld [] 0 NewCatPrinter H)
    as (_ & Hc & _).
  split; [exact H|]. split; [exact Hc|].
  apply Hc. vm_compute. reflexivity.
Defined.

(** ** The exchanges *)

(** X11: setIntensity validates before it writes and never waits: on a
    connected session a value outside 0..255 fails with OutOfRange and
    leaves the session untouched; a value within 0..255 costs exactly one
    control write, of the packet 22 21 A2 00 01 00 v crc(v) FF, consumes
    no notification, leaves the stored status alone, and returns nil or
    the write failure. *)
Theorem setIntensity_behaviour (W : World) (v : Z) (p : CatPrinter) :
  connected p = true ->
  (v < 0 \/ 255 < v -> setIntensity W v p = (Some (OutOfRange v), p)) /\
  (0 <= v <= 255 ->
   fst (setIntensity W v p)
   = (if fails W (clock p) then Some (SendFailed CmdSetIntensity) else None)
   /\ trace (snd (setIntensity W v p))
      = trace p ++ [EvControlWrite
                      [0x22; 0x21; 0xA2; 0x00; 0x01; 0x00; v;
                       calculateCRC8 [v]; 0xFF]]
   /\ notifications (snd (setIntensity W v p))
      = deliver W (clock p) (notifications p)
   /\ lastStatus (snd (setIntensity W v p)) = lastStatus p
   /\ clock (snd (setIntensity W v p)) = S (clock p)).
Proof.
  intros Hc. rewrite (setIntensity_run W v p Hc). split.
  - intros Hv.
    replace ((v <? 0) || (v >? 255)) with true; [reflexivity|].
    symmetry. apply orb_true_iff.
    destruct Hv as [Hv|Hv]; [left; apply Z.ltb_lt | right; apply Z.gtb_lt];
      lia.
  - intros Hv.
    replace ((v <? 0) || (v >? 255)) with false.
    2:{ symmetry. apply orb_false_iff. split.
        - apply Z.ltb_ge. lia.
        - destruct (v >? 255) eqn:E; [apply Z.gtb_lt in E; lia|reflexivity]. }
    cbn [fst snd afterTransport trace notifications lastStatus clock].
    unfold intensityPacket. cbv zeta.
    rewrite (byte_of_small v) by lia.
    repeat split.
Qed.

Lemma setIntensity_behaviour_witness :
  setIntensity quietWorld 256 connectedSession
  = (Some (OutOfRange 256), connectedSession) /\
  trace (snd (setIntensity quietWorld 93 connectedSession))
  = [EvControlWrite [0x22; 0x21; 0xA2; 0x00; 0x01; 0x00; 93; 0x94; 0xFF]].
Proof.
  destruct (setIntensity_behaviour quietWorld 256 connectedSession eq_refl)
    as (Hout & _).
  destruct (setIntensity_behaviour quietWorld 93 connectedSession eq_refl)
    as (_ & Hin).
  split.
  - apply Hout. right. reflexivity.
  - destruct Hin as (_ & Ht & _); [split; discriminate|].
    rewrite Ht. reflexivity.
Defined.

(** An error of parseStatusResponse leaves the session untouched. *)
Lemma parseStatusResponse_error (buf : bytes) (p : CatPrinter) (e : Error) :
  fst (parseStatusResponse buf p) = Some e ->
  snd (parseStatusResponse buf p) = p /\
  (exists n, e = FrameTooShort n) \/
  snd (parseStatusResponse buf p) = p /\
  ((exists a b, e = BadPreamble a b) \/ (exists c, e = UnexpectedResponse c)
   \/ (exists a b, e = LengthMismatch a b)
   \/ (exists n, e = ShortStatusPayload n)).
Proof.
  unfold parseStatusResponse.
  destruct (len buf <? 9).
  { intros [= <-]. left. split; [reflexivity | eexists; reflexivity]. }
  destruct (negb (idx buf 0 =? Preamble1) || negb (idx buf 1 =? Preamble2)).
  { intros [= <-]. right. split; [reflexivity|].
    left. do 2 eexists. reflexivity. }
  destruct (negb (idx buf 2 =? CmdGetStatus)).
  { intros [= <-]. right. split; [reflexivity|].
    right. left. eexists. reflexivity. }
  cbv zeta.
  destruct (len buf <? 6 + Z.lor (idx buf 4) (Z.shiftl (idx buf 5) 8)).
  { intros [= <-]. right. split; [reflexivity|].
    right. right. left. do 2 eexists. reflexivity. }
  destruct (len buf >=? 13); [discriminate|].
  intros [= <-]. right. split; [reflexivity|].
  right. right. right. eexists. reflexivity.
Qed.

Lemma parseStatusResponse_error_state
      (buf : bytes) (p : CatPrinter) (e : Error) :
  fst (parseStatusResponse buf p) = Some e ->
  snd (parseStatusResponse buf p) = p /\
  e <> StatusTimeout /\ e <> SendFailed CmdGetStatus /\ e <> NotConnected.
Proof.
  intros H. destruct (parseStatusResponse_error buf p e H)
    as [(E & n & ->) | (E & [(a & b & ->) | [(c & ->) |
         [(a & b & ->) | (n & ->)]]])];
    (split; [exact E | repeat split; discriminate]).
Qed.

Lemma parseStatusResponse_accept_marks (buf : bytes) (p : CatPrinter) :
  fst (parseStatusResponse buf p) = None ->
  Connected (lastStatus (snd (parseStatusResponse buf p))) = true.
Proof.
  intros H. unfold parseStatusResponse in *.
  destruct (len buf <? 9); [discriminate|].
  destruct (negb (idx buf 0 =? Preamble1) || negb (idx buf 1 =? Preamble2));
    [discriminate|].
  destruct (negb (idx buf 2 =? CmdGetStatus)); [discriminate|].
  cbv zeta in *.
  destruct (len buf <? 6 + Z.lor (idx buf 4) (Z.shiftl (idx buf 5) 8));
    [discriminate|].
  destruct (len buf >=? 13); [|discriminate].
  unfold storeStatus. cbv zeta. cbn [snd set_lastStatus lastStatus].
  repeat match goal with
         | |- context [if ?c then _ else _] => destruct c
         end; reflexivity.
Qed.

Lemma parseStatusResponse_refuse_state (buf : bytes) (p : CatPrinter) :
  fst (parseStatusResponse buf p) <> None ->
  snd (parseStatusResponse buf p) = p.
Proof.
  intros H.
  destruct (fst (parseStatusResponse buf p)) as [e|] eqn:E;
    [|contradiction].
  apply (parseStatusResponse_error_state buf p e E).
Qed.

(** X12: parseStatusResponse accepts a buffer exactly when it has at least
    13 bytes, starts with 22 21 A1 and declares a payload length of at
    most its length minus 6; when it accepts it marks the stored status
    connected, and when it refuses it leaves the session as it was. *)
Theorem parseStatusResponse_accepts_iff (buf : bytes) (p : CatPrinter) :
  (fst (parseStatusResponse buf p) = None
   <-> framedStatus buf /\ 13 <= len buf) /\
  (fst (parseStatusResponse buf p) = None ->
   Connected (lastStatus (snd (parseStatusResponse buf p))) = true) /\
  (fst (parseStatusResponse buf p) <> None ->
   snd (parseStatusResponse buf p) = p).
Proof.
  split; [split|split].
  - unfold parseStatusResponse, framedStatus.
    destruct (len buf <? 9) eqn:E9; [discriminate|].
    destruct (idx buf 0 =? Preamble1) eqn:E0; [|discriminate].
    destruct (idx buf 1 =? Preamble2) eqn:E1; [|discriminate].
    destruct (idx buf 2 =? CmdGetStatus) eqn:E2; [|discriminate].
    cbn [negb orb]. cbv zeta.
    destruct (len buf <? 6 + Z.lor (idx buf 4) (Z.shiftl (idx buf 5) 8))
      eqn:El; [discriminate|].
    destruct (len buf >=? 13) eqn:E13; [|discriminate].
    intros _. apply Z.ltb_ge in E9, El.
    apply Z.eqb_eq in E0, E1, E2. apply Z.geb_le in E13.
    repeat split; assumption.
  - intros [Hf H13]. rewrite (parseStatusResponse_long buf p Hf H13).
    reflexivity.
  - apply parseStatusResponse_accept_marks.
  - apply parseStatusResponse_refuse_state.
Qed.

(** X13: parseStatusResponse reads the length of the buffer and the bytes at
    offsets 0, 1, 2, 4, 5, 6, 9, 10, 12 and 13 only: two buffers of the
    same length that agree there are treated alike.  In particular no
    checksum and no footer is verified. *)
Theorem parseStatusResponse_reads_only
        (buf buf' : bytes) (p : CatPrinter) :
  len buf = len buf' ->
  Forall (fun i => idx buf i = idx buf' i)
         [0; 1; 2; 4; 5; 6; 9; 10; 12; 13]%nat ->
  parseStatusResponse buf p = parseStatusResponse buf' p.
Proof.
  intros Hl Hi.
  repeat match goal with
         | H : Forall _ (_ :: _) |- _ =>
             let E := fresh "E" in
             let H' := fresh "H" in
             inversion H as [|? ? E H']; subst; clear H
         end.
  unfold parseStatusResponse, storeStatus.
  rewrite Hl, E, E0, E1, E2, E3, E4, E5, E6, E7, E8. reflexivity.
Qed.

Lemma parseStatusResponse_reads_only_witness :
  parseStatusResponse
    [0x22; 0x21; 0xA1; 0x09; 0x08; 0x00; 0; 0xEE; 0xEE; 80; 25; 0xEE; 0; 0]
    connectedSession
  = parseStatusResponse statusReply connectedSession.
Proof.
  apply parseStatusResponse_reads_only.
  - reflexivity.
  - repeat constructor.
Defined.

Lemma parseStatusResponse_accepts_iff_witness :
  (framedStatus statusReply /\ 13 <= len statusReply) /\
  fst (parseStatusResponse statusReply connectedSession) = None /\
  Connected (lastStatus (snd (parseStatusResponse statusReply
                                                   connectedSession)))
  = true /\
  snd (parseStatusResponse shortStatusReply connectedSession)
  = connectedSession.
Proof.
  assert (H : framedStatus statusReply /\ 13 <= len statusReply).
  { split; [exact framedStatus_statusReply | vm_compute; discriminate]. }
  destruct (parseStatusResponse_accepts_iff statusReply connectedSession)
    as (Hiff & Hc & _).
  destruct (parseStatusResponse_accepts_iff shortStatusReply
                                            connectedSession)
    as (_ & _ & Hn).
  split; [exact H|].
  split; [apply Hiff; exact H|].
  split; [apply Hc, Hiff; exact H|].
  apply Hn. vm_compute. discriminate.
Defined.

Lemma UpdateStatus_error_status (W : World) (p : CatPrinter) :
  fst (UpdateStatus W p) <> None ->
  lastStatus (snd (UpdateStatus W p)) = lastStatus p.
Proof.
  destruct (connected p) eqn:Hc.
  - rewrite (UpdateStatus_run W p Hc). cbv zeta.
    destruct (fails W (S (clock p))); [reflexivity|].
    destruct (hd_error (mailboxAtStatusWait W p)) as [buf|]; [|reflexivity].
    intros H. rewrite (parseStatusResponse_refuse_state _ _ H). reflexivity.
  - destruct (not_connected_guards W p 0 Hc) as (E & _ & _). rewrite E.
    reflexivity.
Qed.

Lemma UpdateStatus_success_connected (W : World) (p : CatPrinter) :
  fst (UpdateStatus W p) = None ->
  Connected (lastStatus (snd (UpdateStatus W p))) = true.
Proof.
  destruct (connected p) eqn:Hc.
  - rewrite (UpdateStatus_run W p Hc). cbv zeta.
    destruct (fails W (S (clock p))); [discriminate|].
    destruct (hd_error (mailboxAtStatusWait W p)) as [buf|]; [|discriminate].
    apply parseStatusResponse_accept_marks.
  - destruct (not_connected_guards W p 0 Hc) as (E & _ & _). rewrite E.
    discriminate.
Qed.

(** X14: UpdateStatus changes the stored status only when it succeeds: if it
    returns an error (not connected, write failure, time-out, a reply that
    is not a framed status reply of at least 13 bytes), the stored status
    is the one from before the call; if it returns nil, the session was
    connected and the stored status is marked connected. *)
Theorem UpdateStatus_failure_keeps_status (W : World) (p : CatPrinter) :
  (fst (UpdateStatus W p) <> None ->
   lastStatus (snd (UpdateStatus W p)) = lastStatus p) /\
  (fst (UpdateStatus W p) = None ->
   connected p = true /\
   Connected (lastStatus (snd (UpdateStatus W p))) = true).
Proof.
  split; [apply UpdateStatus_error_status|].
  destruct (connected p) eqn:Hc.
  - rewrite (UpdateStatus_run W p Hc). cbv zeta.
    destruct (fails W (S (clock p))); [discriminate|].
    destruct (hd_error (mailboxAtStatusWait W p)) as [buf|]; [|discriminate].
    intros H. split; [reflexivity|].
    apply parseStatusResponse_accept_marks, H.
  - destruct (not_connected_guards W p 0 Hc) as (E & _ & _). rewrite E.
    discriminate.
Qed.

Lemma UpdateStatus_failure_keeps_status_witness :
  fst (UpdateStatus quietWorld sessionWithOldErrorCode) = Some StatusTimeout
  /\ lastStatus (snd (UpdateStatus quietWorld sessionWithOldErrorCode))
     = lastStatus sessionWithOldErrorCode.
Proof.
  assert (E : fst (UpdateStatus quietWorld sessionWithOldErrorCode)
              = Some StatusTimeout) by (vm_compute; reflexivity).
  split; [exact E|].
  apply (UpdateStatus_failure_keeps_status quietWorld
           sessionWithOldErrorCode).
  rewrite E. discriminate.
Defined.

(** X15: on a connected session UpdateStatus fails with SendFailed exactly
    when the control write fails, in which case it does not wait for a
    reply; and it fails with StatusTimeout exactly when the write succeeds
    and no notification is in the channel or arrives before the timeout. *)
Theorem UpdateStatus_timeout_iff (W : World) (p : CatPrinter) :
  connected p = true ->
  (fst (UpdateStatus W p) = Some (SendFailed CmdGetStatus)
   <-> fails W (S (clock p)) = true) /\
  (fails W (S (clock p)) = true -> clock (snd (UpdateStatus W p))
                                   = S (S (clock p))) /\
  (fst (UpdateStatus W p) = Some StatusTimeout
   <-> fails W (S (clock p)) = false /\ mailboxAtStatusWait W p = []).
Proof.
  intros Hc. rewrite (UpdateStatus_run W p Hc). cbv zeta.
  destruct (fails W (S (clock p))) eqn:Ef.
  - split; [split; reflexivity|]. split; [reflexivity|].
    split; [discriminate | intros [H _]; discriminate H].
  - destruct (mailboxAtStatusWait W p) as [|buf rest] eqn:Em; cbn [hd_error].
    + split; [split; discriminate|]. split; [discriminate|].
      split; [intros _; split; reflexivity | reflexivity].
    + split; [|split; [discriminate|]].
      * split; [|discriminate]. intros H.
        apply parseStatusResponse_error_state in H.
        destruct H as (_ & _ & H & _). contradiction.
      * split; [|intros [_ H]; discriminate H]. intros H.
        apply parseStatusResponse_error_state in H.
        destruct H as (_ & H & _). contradiction.
Qed.

Lemma UpdateStatus_timeout_iff_witness :
  connected connectedSession = true /\
  fails quietWorld 1 = false /\
  mailboxAtStatusWait quietWorld connectedSession = [] /\
  fst (UpdateStatus quietWorld connectedSession) = Some StatusTimeout.
Proof.
  split; [reflexivity|]. split; [reflexivity|]. split; [reflexivity|].
  apply (UpdateStatus_timeout_iff quietWorld connectedSession eq_refl).
  split; reflexivity.
Defined.

(** X16: flushData succeeds exactly when the session is connected, the
    flush packet could be written and the next notification has at least
    3 bytes with 0xAA at offset 2; nothing else of that notification is
    looked at.  Whatever its result it leaves the stored status alone, and
    on a connected session it writes the flush packet exactly once. *)
Theorem flushData_succeeds_iff (W : World) (p : CatPrinter) :
  (fst (flushData W p) = None
   <-> connected p = true /\ fails W (clock p) = false /\
       exists buf rest,
         mailboxAfterWrite W p = buf :: rest /\
         3 <= len buf /\ idx buf 2 = CmdPrintComplete) /\
  lastStatus (snd (flushData W p)) = lastStatus p /\
  trace (snd (flushData W p))
  = trace p ++ (if connected p then [EvControlWrite flushPacket] else []).
Proof.
  split; [|split; [|apply flushData_trace]].
  - destruct (connected p) eqn:Hc.
    + rewrite (flushData_run W p Hc). cbv zeta.
      fold (mailboxAfterWrite W p).
      destruct (fails W (clock p)).
      { split; [discriminate | intros (_ & H & _); discriminate H]. }
      destruct (mailboxAfterWrite W p) as [|buf rest]; cbn [hd_error].
      { split; [discriminate|].
        intros (_ & _ & b & r & H & _). discriminate H. }
      cbn [fst]. split.
      * destruct (len buf >=? 3) eqn:E3; [|discriminate].
        destruct (idx buf 2 =? CmdPrintComplete) eqn:E2; [|discriminate].
        intros _. apply Z.geb_le in E3. apply Z.eqb_eq in E2.
        repeat split. exists buf, rest. repeat split; assumption.
      * intros (_ & _ & b & r & H & H3 & H2). injection H as <- <-.
        replace (len buf >=? 3) with true by (symmetry; apply Z.geb_le; lia).
        rewrite H2, Z.eqb_refl. reflexivity.
    + rewrite (flushData_not_connected W p Hc).
      split; [discriminate | intros (H & _); discriminate H].
  - destruct (connected p) eqn:Hc.
    + rewrite (flushData_run W p Hc). cbv zeta.
      destruct (fails W (clock p)); [reflexivity|].
      destruct (hd_error _); reflexivity.
    + rewrite (flushData_not_connected W p Hc). reflexivity.
Qed.

Lemma flushData_succeeds_iff_witness :
  mailboxAfterWrite quietWorld
    (set_notifications [[0x00; 0x00; 0xAA]] connectedSession)
  = [[0x00; 0x00; 0xAA]] /\
  fst (flushData quietWorld
         (set_notifications [[0x00; 0x00; 0xAA]] connectedSession)) = None.
Proof.
  split; [reflexivity|].
  apply (flushData_succeeds_iff quietWorld
           (set_notifications [[0x00; 0x00; 0xAA]] connectedSession)).
  split; [reflexivity|]. split; [reflexivity|].
  exists [0x00; 0x00; 0xAA], []. split; [reflexivity|].
  split; [vm_compute; discriminate | reflexivity].
Defined.

(** ** Image transfer and printing *)

Lemma nth_chunks (l : bytes) (k : nat) :
  (k < List.length (chunks l))%nat ->
  nth k (chunks l) [] = firstn 20 (skipn (20 * k) l).
Proof.
  intros Hk. unfold chunks in *. rewrite length_map, length_seq in Hk.
  rewrite (nth_indep _ [] (firstn 20 (skipn (20 * 0) l)))
    by (rewrite length_map, length_seq; exact Hk).
  rewrite (map_nth (fun k => firstn 20 (skipn (20 * k) l))).
  rewrite seq_nth by exact Hk. reflexivity.
Qed.

Lemma last_nth {A} (l : list A) (d : A) :
  last l d = nth (List.length l - 1) l d.
Proof.
  induction l as [|a l IH]; [reflexivity|].
  destruct l as [|b l]; [reflexivity|].
  change (last (a :: b :: l) d) with (last (b :: l) d).
  rewrite IH. cbn [List.length Nat.sub nth]. rewrite Nat.sub_0_r.
  reflexivity.
Qed.

(** X17: an image of at least 4320 bytes is sent unpadded: the data channel
    receives, in order and whatever the outcome of each write, its
    ceil(len/20) chunks; they concatenate to the image, every chunk but
    the last has exactly 20 bytes and the last one carries the remaining
    1 to 20 bytes. *)
Theorem transferImageData_long_image
        (W : World) (img : bytes) (p : CatPrinter) :
  MinImageBytes <= len img ->
  pad img = img /\
  dataWrites (trace (snd (transferImageData W img p)))
  = dataWrites (trace p) ++ chunks img /\
  List.concat (chunks img) = img /\
  List.length (chunks img) = ((List.length img + 19) / 20)%nat /\
  (forall k, (S k < List.length (chunks img))%nat ->
             len (nth k (chunks img) []) = 20) /\
  len (last (chunks img) [])
  = len img - 20 * (Z.of_nat (List.length (chunks img)) - 1) /\
  1 <= len (last (chunks img) []) <= 20.
Proof.
  intros Hlen.
  assert (Hpad : pad img = img).
  { unfold pad. replace (len img <? MinImageBytes) with false; [reflexivity|].
    symmetry. apply Z.ltb_ge. exact Hlen. }
  split; [exact Hpad|].
  split; [rewrite transferImageData_dataWrites, Hpad; reflexivity|].
  split; [apply concat_chunks|].
  split; [apply length_chunks|].
  assert (Hn : (0 < List.length (chunks img))%nat).
  { rewrite length_chunks. unfold len, MinImageBytes in Hlen.
    pose proof (Nat.div_mod_eq (List.length img + 19) 20) as E.
    pose proof (Nat.mod_upper_bound (List.length img + 19) 20 ltac:(lia)).
    lia. }
  assert (Hlast : last (chunks img) []
                  = firstn 20 (skipn (20 * (List.length (chunks img) - 1))
                                     img)).
  { rewrite <- nth_chunks by lia. apply last_nth. }
  pose proof (length_chunks img) as Hc.
  pose proof (Nat.div_mod_eq (List.length img + 19) 20) as E.
  pose proof (Nat.mod_upper_bound (List.length img + 19) 20 ltac:(lia)) as B.
  split.
  - intros k Hk. rewrite nth_chunks by lia.
    unfold len. rewrite length_firstn, length_skipn. lia.
  - rewrite Hlast. unfold len. rewrite length_firstn, length_skipn. lia.
Qed.

Lemma transferImageData_long_image_witness :
  len longImage = 4330 /\
  List.length
    (dataWrites (trace (snd (transferImageData quietWorld longImage
                                               connectedSession))))
  = 217%nat /\
  len (last (chunks longImage) []) = 10.
Proof.
  split; [reflexivity|].
  destruct (transferImageData_long_image quietWorld longImage
                                         connectedSession)
    as (_ & Hw & _ & Hn & _ & Hl & _).
  - vm_compute. discriminate.
  - split.
    + rewrite Hw. cbn [connectedSession trace dataWrites flat_map app].
      rewrite Hn. reflexivity.
    + rewrite Hl, Hn. reflexivity.
Defined.

(** X18: transferImageData never reports an error and never stops early:
    for every image and every environment it returns nil after writing
    every chunk of the padded image to the data channel and then, if the
    session is connected, the flush packet to the control channel; the
    stored status is not touched. *)
Theorem transferImageData_always_nil
        (W : World) (img : bytes) (p : CatPrinter) :
  fst (transferImageData W img p) = None /\
  trace (snd (transferImageData W img p))
  = trace p ++ map EvDataWrite (chunks (pad img))
      ++ (if connected p then [EvControlWrite flushPacket] else []) /\
  lastStatus (snd (transferImageData W img p)) = lastStatus p.
Proof.
  rewrite transferImageData_run. cbn [fst snd].
  destruct (afterDataWrites_fields W (chunks (pad img)) p)
    as (Hc & Hs & Ht & _).
  split; [reflexivity|]. split.
  - rewrite flushData_trace, Ht, Hc, <- app_assoc. reflexivity.
  - destruct (connected (afterDataWrites W (chunks (pad img)) p)) eqn:Hk.
    + rewrite (flushData_run W _ Hk). cbv zeta.
      destruct (fails W _); [exact Hs|].
      destruct (hd_error _); exact Hs.
    + rewrite (flushData_not_connected W _ Hk). exact Hs.
Qed.

Lemma printFrom_outcome (W : World) (img : bytes) (q : CatPrinter) :
  (fst (printFrom W img q) = None ->
   trace (snd (printFrom W img q))
   = trace q ++ EvControlWrite (printRequestPacket 10)
       :: map EvDataWrite (chunks (pad img))
       ++ (if connected q then [EvControlWrite flushPacket] else [])) /\
  (fst (printFrom W img q) <> None ->
   dataWrites (trace (snd (printFrom W img q))) = dataWrites (trace q)).
Proof.
  unfold printFrom.
  destruct (negb (ErrorFlag (lastStatus q) =? 0)).
  { split; [discriminate | reflexivity]. }
  destruct (negb (Status (lastStatus q) =? 0)).
  { split; [discriminate | reflexivity]. }
  assert (Hw : dataWrites (trace q
                           ++ [EvControlWrite (printRequestPacket 10)])
               = dataWrites (trace q)).
  { rewrite dataWrites_app. cbn. apply app_nil_r. }
  destruct (fails W (clock q)).
  { split; [discriminate | intros _; exact Hw]. }
  destruct (hd_error (mailboxAfterWrite W q)) as [buf|].
  2:{ split; [discriminate | intros _; exact Hw]. }
  destruct (len buf >=? 7).
  2:{ split; [discriminate | intros _; exact Hw]. }
  destruct (idx buf 2 =? CmdPrintRequest).
  2:{ split; [discriminate | intros _; exact Hw]. }
  destruct (idx buf 6 =? 0).
  2:{ split; [discriminate | intros _; exact Hw]. }
  split; [|intros H; exfalso; apply H; reflexivity].
  intros _. cbn [snd]. rewrite flushData_trace.
  destruct (beforeFlush_fields W img q) as (Hc & Ht).
  rewrite Ht, Hc, <- app_assoc. reflexivity.
Qed.

(** X19: TestPrintCard writes image data exactly when it returns nil.  If it
    returns nil, the session has seen, in this order: the status query and
    the set-intensity packet (when connected), the print request, the 216
    chunks of the padded test card, and the flush packet (when connected).
    If it returns an error, nothing has been written to the data
    channel. *)
Theorem TestPrintCard_data_iff_success (W : World) (p : CatPrinter) :
  (fst (TestPrintCard W p) = None ->
   trace (snd (TestPrintCard W p))
   = trace p
       ++ (if connected p
           then [EvControlWrite statusPacket;
                 EvControlWrite (intensityPacket 93)]
           else [])
       ++ EvControlWrite (printRequestPacket 10)
       :: map EvDataWrite (chunks (pad testCard))
       ++ (if connected p then [EvControlWrite flushPacket] else [])) /\
  (fst (TestPrintCard W p) <> None ->
   dataWrites (trace (snd (TestPrintCard W p))) = dataWrites (trace p)).
Proof.
  rewrite TestPrintCard_run.
  destruct (printPrelude_fields W p) as (Hc & _ & Ht).
  destruct (printFrom_outcome W testCard (printPrelude W p)) as (Hok & Hko).
  split.
  - intros H. rewrite (Hok H), Ht, Hc, <- app_assoc. reflexivity.
  - intros H. rewrite (Hko H), Ht, dataWrites_app.
    destruct (connected p); cbn; apply app_nil_r.
Qed.

Lemma TestPrintCard_data_iff_success_witness :
  fst (TestPrintCard printingWorld connectedSession) = None /\
  List.length
    (dataWrites (trace (snd (TestPrintCard printingWorld connectedSession))))
  = 216%nat /\
  fst (TestPrintCard rejectingWorld connectedSession)
  = Some (PrintRejected 5) /\
  dataWrites (trace (snd (TestPrintCard rejectingWorld connectedSession)))
  = [].
Proof.
  assert (H1 : fst (TestPrintCard printingWorld connectedSession) = None)
    by (vm_compute; reflexivity).
  assert (H2 : fst (TestPrintCard rejectingWorld connectedSession)
               = Some (PrintRejected 5)) by (vm_compute; reflexivity).
  destruct (TestPrintCard_data_iff_success printingWorld connectedSession)
    as (Hok & _).
  destruct (TestPrintCard_data_iff_success rejectingWorld connectedSession)
    as (_ & Hko).
  split; [exact H1|]. split.
  - rewrite (Hok H1). vm_compute. reflexivity.
  - split; [exact H2|]. rewrite Hko; [reflexivity|].
    rewrite H2. discriminate.
Defined.

Lemma printFrom_refusals (W : World) (img : bytes) (q : CatPrinter) :
  ErrorFlag (lastStatus q) = 0 -> Status (lastStatus q) = 0 ->
  (fails W (clock q) = true ->
   printFrom W img q
   = (Some (SendFailed CmdPrintRequest),
      afterTransport W (EvControlWrite (printRequestPacket 10)) q)) /\
  (fails W (clock q) = false ->
   (mailboxAfterWrite W q = [] ->
    printFrom W img q = (Some PrintRequestTimeout, afterPrintRequest W q)) /\
   forall buf rest,
     mailboxAfterWrite W q = buf :: rest ->
     (len buf < 7 ->
      printFrom W img q
      = (Some (ShortPrintResponse (len buf)), afterPrintRequest W q)) /\
     (7 <= len buf -> idx buf 2 <> CmdPrintRequest ->
      printFrom W img q
      = (Some (UnexpectedResponse (idx buf 2)), afterPrintRequest W q)) /\
     (7 <= len buf -> idx buf 2 = CmdPrintRequest -> idx buf 6 <> 0 ->
      printFrom W img q
      = (Some (PrintRejected (idx buf 6)), afterPrintRequest W q))).
Proof.
  intros Hf Hs. unfold printFrom. rewrite Hf, Hs.
  change (negb (0 =? 0)) with false. cbv iota.
  split; [intros ->; reflexivity|].
  intros ->. split; [intros ->; reflexivity|].
  intros buf rest ->. cbn [hd_error].
  split; [|split].
  - intros H. replace (len buf >=? 7) with false; [reflexivity|].
    symmetry. unfold Z.geb. destruct (len buf ?= 7) eqn:E; try reflexivity.
    + apply Z.compare_eq in E. lia.
    + apply Z.compare_gt_iff in E. lia.
  - intros H7 H2.
    replace (len buf >=? 7) with true by (symmetry; apply Z.geb_le; lia).
    apply Z.eqb_neq in H2. rewrite H2. reflexivity.
  - intros H7 H2 H6.
    replace (len buf >=? 7) with true by (symmetry; apply Z.geb_le; lia).
    apply Z.eqb_neq in H6. rewrite H2, Z.eqb_refl, H6. reflexivity.
Qed.

(** X20: how TestPrintCard reads the answer to its print request, once its
    checks have passed: a failed write gives SendFailed without waiting; an
    empty channel gives PrintRequestTimeout; a notification shorter than 7
    bytes gives ShortPrintResponse; one whose byte 2 is not 0xA9 gives
    UnexpectedResponse with that byte; one whose byte 6 is not 0 gives
    PrintRejected with that byte.  In all these cases the run stops with
    the print request as its last write. *)
Theorem TestPrintCard_request_refused (W : World) (p : CatPrinter) :
  ErrorFlag (lastStatus (printPrelude W p)) = 0 ->
  Status (lastStatus (printPrelude W p)) = 0 ->
  (fails W (clock (printPrelude W p)) = true ->
   TestPrintCard W p
   = (Some (SendFailed CmdPrintRequest),
      afterTransport W (EvControlWrite (printRequestPacket 10))
                     (printPrelude W p))) /\
  (fails W (clock (printPrelude W p)) = false ->
   (mailboxAfterWrite W (printPrelude W p) = [] ->
    TestPrintCard W p
    = (Some PrintRequestTimeout, afterPrintRequest W (printPrelude W p))) /\
   forall buf rest,
     mailboxAfterWrite W (printPrelude W p) = buf :: rest ->
     (len buf < 7 ->
      TestPrintCard W p
      = (Some (ShortPrintResponse (len buf)),
         afterPrintRequest W (printPrelude W p))) /\
     (7 <= len buf -> idx buf 2 <> CmdPrintRequest ->
      TestPrintCard W p
      = (Some (UnexpectedResponse (idx buf 2)),
         afterPrintRequest W (printPrelude W p))) /\
     (7 <= len buf -> idx buf 2 = CmdPrintRequest -> idx buf 6 <> 0 ->
      TestPrintCard W p
      = (Some (PrintRejected (idx buf 6)),
         afterPrintRequest W (printPrelude W p)))).
Proof.
  intros Hf Hs. rewrite TestPrintCard_run.
  apply printFrom_refusals; assumption.
Qed.

Lemma TestPrintCard_request_refused_witness :
  ErrorFlag (lastStatus (printPrelude rejectingWorld connectedSession)) = 0
  /\ fst (TestPrintCard rejectingWorld connectedSession)
     = Some (PrintRejected 5) /\
  fst (TestPrintCard statusReplyWorld connectedSession)
  = Some PrintRequestTimeout.
Proof.
  split; [vm_compute; reflexivity|].
  destruct (TestPrintCard_request_refused rejectingWorld connectedSession)
    as (_ & Hr); [vm_compute; reflexivity | vm_compute; reflexivity |].
  destruct (TestPrintCard_request_refused statusReplyWorld connectedSession)
    as (_ & Ht); [vm_compute; reflexivity | vm_compute; reflexivity |].
  destruct (Hr ltac:(vm_compute; reflexivity)) as (_ & Hb).
  destruct (Hb [0x22; 0x21; 0xA9; 0x00; 0x01; 0x00; 0x05; 0; 0xFF] [])
    as (_ & _ & Hrej); [vm_compute; reflexivity|].
  destruct (Ht ltac:(vm_compute; reflexivity)) as (Hto & _).
  split.
  - rewrite Hrej; [reflexivity | vm_compute; discriminate | reflexivity
                   | vm_compute; discriminate].
  - rewrite Hto; [reflexivity | vm_compute; reflexivity].
Defined.

(** X21: TestPrintCard decides on the status it finds stored after its
    refresh, also when the refresh failed: if UpdateStatus returns an
    error, the checks read the status stored before the call, so an old
    error flag still stops the print, and an old busy state too. *)
Theorem TestPrintCard_gates_on_old_status (W : World) (p : CatPrinter) :
  fst (UpdateStatus W p) <> None ->
  (ErrorFlag (lastStatus p) <> 0 ->
   fst (TestPrintCard W p)
   = Some (PrinterError (ErrorFlag (lastStatus p)))) /\
  (ErrorFlag (lastStatus p) = 0 -> Status (lastStatus p) <> 0 ->
   fst (TestPrintCard W p) = Some PrinterBusy).
Proof.
  intros Herr.
  pose proof (UpdateStatus_error_status W p Herr) as Hkeep.
  destruct (printPrelude_fields W p) as (_ & Hs & _).
  rewrite Hkeep in Hs. rewrite TestPrintCard_run. split.
  - intros Hf. rewrite <- Hs in Hf.
    rewrite (printFrom_error W _ _ Hf), Hs. reflexivity.
  - intros Hf Hb. rewrite <- Hs in Hf, Hb.
    rewrite (printFrom_busy W _ _ Hf Hb). reflexivity.
Qed.

Lemma TestPrintCard_gates_on_old_status_witness :
  fst (UpdateStatus quietWorld
         (set_lastStatus (mkStatus true 80 25 1 0 0 "") connectedSession))
  = Some StatusTimeout /\
  fst (TestPrintCard quietWorld
         (set_lastStatus (mkStatus true 80 25 1 0 0 "") connectedSession))
  = Some PrinterBusy.
Proof.
  assert (E : fst (UpdateStatus quietWorld
                     (set_lastStatus (mkStatus true 80 25 1 0 0 "")
                                     connectedSession))
              = Some StatusTimeout) by (vm_compute; reflexivity).
  split; [exact E|].
  apply (TestPrintCard_gates_on_old_status quietWorld
           (set_lastStatus (mkStatus true 80 25 1 0 0 "") connectedSession)).
  - rewrite E. discriminate.
  - reflexivity.
  - vm_compute. discriminate.
Defined.

(** ** The HTTP handler of the status *)

(** X22: GET /status drops the result of UpdateStatus.  On a session whose
    control characteristic is bound whenever it is connected (so that the
    status query is never written to an unassigned handle) the handler
    answers 200 with the connectivity flag, battery and summary of the
    status stored after UpdateStatus and an empty error field; when
    UpdateStatus failed (not connected, send error, time-out, refused
    reply) these are the values stored before the request, and nothing in
    the answer tells the failure. *)
Theorem getStatus_hides_failure (W : World) (p : CatPrinter) :
  (connected p = true -> controlChar p = true) ->
  fst (Server.getStatus W p)
  = (200, Server.mkStatusResponse
            (Connected (lastStatus (snd (UpdateStatus W p))))
            (Battery (lastStatus (snd (UpdateStatus W p))))
            (StatusString (lastStatus (snd (UpdateStatus W p)))) "") /\
  snd (Server.getStatus W p) = snd (UpdateStatus W p) /\
  (fst (UpdateStatus W p) <> None ->
   fst (Server.getStatus W p)
   = (200, Server.mkStatusResponse
             (Connected (lastStatus p)) (Battery (lastStatus p))
             (StatusString (lastStatus p)) "")) /\
  (fst (UpdateStatus W p) = None ->
   fst (Server.getStatus W p)
   = (200, Server.mkStatusResponse
             true (Battery (lastStatus (snd (UpdateStatus W p))))
             (StatusString (lastStatus (snd (UpdateStatus W p)))) "")).
Proof.
  intros _.
  unfold Server.getStatus, bind, ret. cbn [fst snd].
  pose proof (UpdateStatus_error_status W p) as Hkeep.
  assert (F : fst (let
                    'mkStatus c b _ _ _ _ s :=
                      lastStatus (snd (UpdateStatus W p)) in
                    ((200, Server.mkStatusResponse c b s ""%string),
                     snd (UpdateStatus W p)))
              = (200, Server.mkStatusResponse
                        (Connected (lastStatus (snd (UpdateStatus W p))))
                        (Battery (lastStatus (snd (UpdateStatus W p))))
                        (StatusString (lastStatus (snd (UpdateStatus W p))))
                        ""%string)).
  { destruct (lastStatus (snd (UpdateStatus W p))). reflexivity. }
  split; [exact F|]. split.
  - destruct (lastStatus (snd (UpdateStatus W p))). reflexivity.
  - split.
    + intros H. rewrite F, (Hkeep H). reflexivity.
    + intros H. rewrite F.
      rewrite (UpdateStatus_success_connected W p H). reflexivity.
Qed.

Lemma getStatus_hides_failure_witness :
  (connected connectedSession = true -> controlChar connectedSession = true) /\
  fst (UpdateStatus quietWorld connectedSession) = Some StatusTimeout /\
  fst (Server.getStatus quietWorld connectedSession)
  = (200, Server.mkStatusResponse
            (Connected (lastStatus connectedSession))
            (Battery (lastStatus connectedSession))
            (StatusString (lastStatus connectedSession)) "").
Proof.
  assert (Hh : connected connectedSession = true ->
               controlChar connectedSession = true)
    by (intros _; reflexivity).
  destruct (getStatus_hides_failure quietWorld connectedSession Hh)
    as (_ & _ & Hs & _).
  split; [exact Hh|]. split; [vm_compute; reflexivity|].
  apply Hs. vm_compute. discriminate.
Defined.

(** ** The print request and the test card *)

(** X23: the print request carries the line count in little-endian order at
    offsets 6 and 7, reduced modulo 65536; the packet has 12 bytes: header
    22 21 A9 00 04 00, the two count bytes, 30 00, the CRC-8 of these four
    payload bytes, FF. *)
Theorem printRequestPacket_line_count (lineCount : Z) :
  printRequestPacket lineCount
  = [0x22; 0x21; 0xA9; 0x00; 0x04; 0x00;
     lineCount mod 256; (lineCount / 256) mod 256; 0x30; 0x00;
     calculateCRC8 [lineCount mod 256; (lineCount / 256) mod 256;
                    0x30; 0x00];
     0xFF] /\
  idx (printRequestPacket lineCount) 6
  + 256 * idx (printRequestPacket lineCount) 7 = lineCount mod 65536.
Proof.
  assert (Hlo : byte_of (Z.land lineCount 0xFF) = lineCount mod 256).
  { rewrite byte_of_mod. change 0xFF with (Z.ones 8).
    rewrite Z.land_ones by lia. apply Z.mod_mod. lia. }
  assert (Hhi : byte_of (Z.land (Z.shiftr lineCount 8) 0xFF)
                = (lineCount / 256) mod 256).
  { rewrite byte_of_mod. change 0xFF with (Z.ones 8).
    rewrite Z.land_ones by lia. rewrite Z.shiftr_div_pow2 by lia.
    change (2 ^ 8) with 256. apply Z.mod_mod. lia. }
  unfold printRequestPacket, lineCountLE. cbv zeta. cbn [idx nth].
  rewrite Hlo, Hhi. split; [reflexivity|].
  change 65536 with (256 * 256).
  rewrite Z.rem_mul_r by lia. reflexivity.
Qed.

Lemma nth_flat_rows {A} (f : nat -> list A) (w : nat) (d : A) :
  (forall i, List.length (f i) = w) ->
  forall h s i j,
    (i < h)%nat -> (j < w)%nat ->
    nth (i * w + j) (flat_map f (seq s h)) d = nth j (f (s + i)%nat) d.
Proof.
  intros Hw. induction h as [|h IH]; intros s i j Hi Hj; [lia|].
  cbn [seq flat_map]. destruct i as [|i].
  - cbn [Nat.mul Nat.add]. rewrite app_nth1 by (rewrite Hw; exact Hj).
    rewrite Nat.add_0_r. reflexivity.
  - rewrite app_nth2 by (rewrite Hw; cbn; lia).
    rewrite Hw. replace (S i * w + j - w)%nat with (i * w + j)%nat
      by (cbn; lia).
    rewrite IH by lia. f_equal. f_equal. lia.
Qed.

Lemma length_flat_rows {A} (f : nat -> list A) (w : nat) :
  (forall i, List.length (f i) = w) ->
  forall h s, List.length (flat_map f (seq s h)) = (h * w)%nat.
Proof.
  intros Hw. induction h as [|h IH]; intros s; [reflexivity|].
  cbn [seq flat_map]. rewrite length_app, Hw, IH. cbn. lia.
Qed.

Lemma flat_map_map_seq {A B} (g : A -> list B) (c : nat -> A) (l : list nat) :
  flat_map g (map c l) = flat_map (fun k => g (c k)) l.
Proof.
  induction l as [|x l IH]; [reflexivity|].
  cbn [map flat_map]. rewrite IH. reflexivity.
Qed.

(** X24: the test pattern is a checkerboard of bytes: the image has
    lineBytes * lineCount bytes, and the byte of line [line] at position
    [byteIdx], which the source stores at index line*lineBytes+byteIdx, is
    0xFF when byteIdx and line have the same parity and 0x00 otherwise. *)
Theorem testImage_pattern (lineBytes lineCount line byteIdx : Z) :
  0 <= line < lineCount -> 0 <= byteIdx < lineBytes ->
  len (testImage lineBytes lineCount) = lineBytes * lineCount /\
  idx (testImage lineBytes lineCount) (Z.to_nat (line * lineBytes + byteIdx))
  = (if byteIdx mod 2 =? line mod 2 then 0xFF else 0x00).
Proof.
  intros Hl Hb. unfold testImage, range.
  rewrite flat_map_map_seq.
  set (row := fun k : nat =>
                map (fun b : Z => if b mod 2 =? Z.of_nat k mod 2
                                  then 0xFF else 0x00)
                    (map Z.of_nat (seq 0 (Z.to_nat lineBytes)))).
  assert (Hw : forall i, List.length (row i) = Z.to_nat lineBytes).
  { intros i. unfold row. rewrite !length_map, length_seq. reflexivity. }
  split.
  - unfold len. rewrite (length_flat_rows row _ Hw). lia.
  - unfold idx.
    replace (Z.to_nat (line * lineBytes + byteIdx))
      with (Z.to_nat line * Z.to_nat lineBytes + Z.to_nat byteIdx)%nat
      by nia.
    rewrite (nth_flat_rows row _ 0 Hw) by lia.
    cbn [Nat.add]. unfold row.
    rewrite (nth_indep _ 0 ((fun b : Z =>
                               if b mod 2 =? Z.of_nat (Z.to_nat line) mod 2
                               then 0xFF else 0x00) 0))
      by (rewrite !length_map, length_seq; lia).
    rewrite (map_nth (fun b : Z =>
                        if b mod 2 =? Z.of_nat (Z.to_nat line) mod 2
                        then 0xFF else 0x00)).
    rewrite (nth_indep _ 0 (Z.of_nat 0))
      by (rewrite length_map, length_seq; lia).
    rewrite (map_nth Z.of_nat), seq_nth by lia.
    cbn [Nat.add]. rewrite !Z2Nat.id by lia. reflexivity.
Qed.

Lemma testImage_pattern_witness :
  len testCard = 480 /\
  idx testCard 49 = 0xFF /\ idx testCard 48 = 0x00.
Proof.
  unfold testCard.
  destruct (testImage_pattern ImageWidthBytes 10 1 1) as (Hlen & H49);
    [split; vm_compute; first [discriminate | reflexivity]
    |split; vm_compute; first [discriminate | reflexivity] |].
  destruct (testImage_pattern ImageWidthBytes 10 1 0) as (_ & H48);
    [split; vm_compute; first [discriminate | reflexivity]
    |split; vm_compute; first [discriminate | reflexivity] |].
  split; [rewrite Hlen; reflexivity|].
  split; [exact H49 | exact H48].
Defined.
